(** * baram.sagemaker_manager: teardown and replace of SageMaker user profiles

    A shallow embedding of [SagemakerManager] (src/baram/sagemaker_manager.py).
    The manager is a thin layer over a boto3 client: every method issues
    requests to the remote control plane and reacts to the responses or to the
    exceptions the client raises.  The remote control plane is modelled as an
    arbitrary deterministic state machine ([Client]); the manager's methods are
    computations in a monad that threads the remote state, collects the
    requests issued together with their outcomes, and propagates exceptions.
    The two [while] loops of the source have no iteration bound, so their
    models take fuel and report [Diverge] when it runs out.

    [print] and [self.logger.info] are not modelled: they issue no request and
    decide no branch. *)

From Stdlib Require Import String List Bool Arith Lia.
Import ListNotations.
Open Scope string_scope.
Open Scope list_scope.

Set Implicit Arguments.

(** ** Data exchanged with the control plane *)

(** The exceptions the source distinguishes: [cli.exceptions.ResourceNotFound],
    [cli.exceptions.ResourceInUse], every other exception a client call can
    raise (access denied, validation, transport), and the [KeyError] of a
    subscript on a response that lacks the key. *)
Inductive exn : Type :=
| ResourceNotFound
| ResourceInUse
| OtherError (code : string)
| KeyError (key : string).

(** What a client call does: respond or raise. *)
Inductive result (A : Type) : Type :=
| Ok (a : A)
| Err (e : exn).
Arguments Err {A} e.

(** An element of [list_apps()]: the source reads [app['AppName']] and
    [app['AppType']]. *)
Record App : Type := { AppName : string; AppType : string }.

(** The response of [describe_app]: the source reads [response['Status']]. *)
Record AppDescription : Type := { Status : string }.

(** [i['UserSettings']]: the source reads ['ExecutionRole'], which the
    control plane may leave out. *)
Record Settings : Type := { ExecutionRole : option string }.

(** A user profile dictionary, as an element of [list_user_profiles()] (no
    settings) or as the response of [describe_user_profile]. *)
Record UserProfile : Type := {
  UserProfileName : string;
  UserSettings : option Settings
}.

(** The responses of delete and create requests are returned but never
    inspected. *)
Definition Response : Type := unit.

(** ** The boto3 client *)

(** [self.cli]: each operation takes the keyword arguments the source passes
    and the remote state, and answers with a response or an exception and
    the next remote state.  [cli_sleep] is what the remote state becomes
    while the caller sleeps. *)
Record Client (World : Type) : Type := {
  cli_list_user_profiles :
    option string -> World -> result (list UserProfile) * World;
  cli_describe_user_profile :
    option string -> string -> World -> result UserProfile * World;
  cli_list_apps :
    option string -> string -> World -> result (list App) * World;
  cli_delete_app :
    option string -> string -> string -> string -> World -> result Response * World;
  cli_describe_app :
    option string -> string -> string -> string -> World -> result AppDescription * World;
  cli_create_user_profile :
    option string -> string -> string -> World -> result Response * World;
  cli_delete_user_profile :
    option string -> string -> World -> result Response * World;
  cli_sleep : nat -> World -> World
}.

(** One entry of the log of interactions: the request with its keyword
    arguments and what the client answered. *)
Inductive event : Type :=
| EvListUserProfiles (DomainIdEquals : option string)
    (r : result (list UserProfile))
| EvDescribeUserProfile (DomainId : option string) (UserProfileName : string)
    (r : result UserProfile)
| EvListApps (DomainIdEquals : option string) (UserProfileNameEquals : string)
    (r : result (list App))
| EvDeleteApp (DomainId : option string) (UserProfileName AppName AppType : string)
    (r : result Response)
| EvDescribeApp (DomainId : option string) (UserProfileName AppName AppType : string)
    (r : result AppDescription)
| EvCreateUserProfile (DomainId : option string) (UserProfileName ExecutionRole : string)
    (r : result Response)
| EvDeleteUserProfile (DomainId : option string) (UserProfileName : string)
    (r : result Response)
| EvSleep (secs : nat).

(** ** Python values compared by [in] *)

(** [i['UserProfileName'] in self.list_user_profiles()] compares a [str] with
    the elements of a list of [dict]s. *)
Inductive pyobj : Type :=
| PyStr (s : string)
| PyDict (d : UserProfile).

Definition option_eqb {A : Type} (eqb : A -> A -> bool) (x y : option A) : bool :=
  match x, y with
  | Some a, Some b => eqb a b
  | None, None => true
  | _, _ => false
  end.

Definition Settings_eqb (x y : Settings) : bool :=
  option_eqb String.eqb (ExecutionRole x) (ExecutionRole y).

Definition UserProfile_eqb (x y : UserProfile) : bool :=
  String.eqb (UserProfileName x) (UserProfileName y)
  && option_eqb Settings_eqb (UserSettings x) (UserSettings y).

(** Python's [==]: values of different types are unequal. *)
Definition py_eq (x y : pyobj) : bool :=
  match x, y with
  | PyStr a, PyStr b => String.eqb a b
  | PyDict a, PyDict b => UserProfile_eqb a b
  | _, _ => false
  end.

(** Python's [x in l] on a list. *)
Definition py_in (x : pyobj) (l : list pyobj) : bool := existsb (py_eq x) l.

(** ** The monad of manager methods *)

(** How a method ends: it returns, an exception leaves it, or a loop is still
    running when the fuel is spent. *)
Inductive outcome (A : Type) : Type :=
| Ret (a : A)
| Raise (e : exn)
| Diverge.
Arguments Raise {A} e.
Arguments Diverge {A}.

Section Monad.
Context {World : Type}.

(** From the remote state: the outcome, the next remote state and the
    interactions performed, oldest first. *)
Definition M (A : Type) : Type := World -> outcome A * World * list event.

Definition ret {A} (a : A) : M A := fun w => (Ret a, w, []).

Definition raise {A} (e : exn) : M A := fun w => (Raise e, w, []).

Definition diverge {A} : M A := fun w => (Diverge, w, []).

Definition bind {A B} (m : M A) (f : A -> M B) : M B :=
  fun w =>
    match m w with
    | (Ret a, w1, t1) => let '(r, w2, t2) := f a w1 in (r, w2, t1 ++ t2)
    | (Raise e, w1, t1) => (Raise e, w1, t1)
    | (Diverge, w1, t1) => (Diverge, w1, t1)
    end.

(** [try: m  except ...: h e]; a handler re-raises what its [except]
    clauses do not name. *)
Definition try_except {A} (m : M A) (h : exn -> M A) : M A :=
  fun w =>
    match m w with
    | (Raise e, w1, t1) => let '(r, w2, t2) := h e w1 in (r, w2, t1 ++ t2)
    | other => other
    end.

(** A client call: the answer is logged; an exception is raised in the
    caller. *)
Definition invoke {A} (op : World -> result A * World)
    (ev : result A -> event) : M A :=
  fun w =>
    let '(r, w1) := op w in
    (match r with Ok a => Ret a | Err e => Raise e end, w1, [ev r]).
End Monad.

Declare Scope sm_scope.
Delimit Scope sm_scope with sm.
Notation "x <- m ;; k" := (bind m (fun x => k))
  (at level 61, m at next level, right associativity) : sm_scope.
Notation "m ;; k" := (bind m (fun _ => k))
  (at level 61, right associativity) : sm_scope.
Open Scope sm_scope.

(** ** SagemakerManager *)

(** How a loop body that contains [return] leaves: on to the next statement,
    or out of the method. *)
Inductive flow : Type := Continue | Return.

Section SagemakerManager.
Context {World : Type}.
Variable cli : Client World.
Variable domain_id : option string.

(** [time.sleep(secs)] *)
Definition sleep (secs : nat) : M unit :=
  fun w => (Ret tt, cli_sleep cli secs w, [EvSleep secs]).

(** [list_user_profiles], called without keyword arguments. *)
Definition list_user_profiles : M (list UserProfile) :=
  invoke (cli_list_user_profiles cli domain_id) (EvListUserProfiles domain_id).

(** [describe_user_profile] *)
Definition describe_user_profile (user_profile_name : string) : M UserProfile :=
  invoke (cli_describe_user_profile cli domain_id user_profile_name)
         (EvDescribeUserProfile domain_id user_profile_name).

(** [list_apps(UserProfileNameEquals=...)]; the fixed sort order and
    [MaxResults=100] are the client's concern. *)
Definition list_apps (UserProfileNameEquals : string) : M (list App) :=
  invoke (cli_list_apps cli domain_id UserProfileNameEquals)
         (EvListApps domain_id UserProfileNameEquals).

(** [delete_app]: a bare [except:] turns every exception into [None]. *)
Definition delete_app (user_profile_name app_name app_type : string)
  : M (option Response) :=
  try_except
    (response <- invoke (cli_delete_app cli domain_id user_profile_name app_name app_type)
                        (EvDeleteApp domain_id user_profile_name app_name app_type) ;;
     ret (Some response))
    (fun _ => ret None).

(** [describe_app] *)
Definition describe_app (user_profile_name app_name app_type : string)
  : M AppDescription :=
  invoke (cli_describe_app cli domain_id user_profile_name app_name app_type)
         (EvDescribeApp domain_id user_profile_name app_name app_type).

(** [create_user_profile]; keyword arguments beyond the execution role are
    never passed by [recreate_all_user_profiles]. *)
Definition create_user_profile (user_profile_name execution_role : string)
  : M Response :=
  invoke (cli_create_user_profile cli domain_id user_profile_name execution_role)
         (EvCreateUserProfile domain_id user_profile_name execution_role).

(** Lines 71-80 of [delete_user_profile]: the loop that requests the
    deletion of the apps. *)
Fixpoint delete_apps (user_profile_name : string) (apps : list App) : M flow :=
  match apps with
  | [] => ret Continue
  | app :: rest =>
      c <- try_except
             (response <- describe_app user_profile_name (AppName app) (AppType app) ;;
              if negb (Status response =? "Deleted")
                 && negb (Status response =? "Deleting")
              then delete_app user_profile_name (AppName app) (AppType app) ;;
                   ret Continue
              else ret Continue)
             (fun e =>
                match e with
                | ResourceNotFound => ret Continue
                | ResourceInUse => ret Return
                | _ => raise e
                end) ;;
      match c with
      | Continue => delete_apps user_profile_name rest
      | Return => ret Return
      end
  end.

(** Lines 86-90: one pass over the apps, counting those that report
    [Deleted] or [Failed]. *)
Fixpoint count_deleted (user_profile_name : string) (apps : list App)
    (delete_cnt : nat) : M nat :=
  match apps with
  | [] => ret delete_cnt
  | app :: rest =>
      response <- describe_app user_profile_name (AppName app) (AppType app) ;;
      count_deleted user_profile_name rest
        (if (Status response =? "Deleted") || (Status response =? "Failed")
         then delete_cnt + 1 else delete_cnt)
  end.

(** Lines 85-93: the body of the polling loop; it yields the new
    [delete_cnt]. *)
Definition poll_tick (user_profile_name : string) (apps : list App) : M nat :=
  delete_cnt <- count_deleted user_profile_name apps 0 ;;
  sleep 5 ;;
  ret delete_cnt.

(** Lines 84-93: [while delete_cnt < len(apps)].  [fuel] bounds the
    iterations the model follows; the source has no bound. *)
Fixpoint wait_apps_deleted (fuel : nat) (user_profile_name : string)
    (apps : list App) (delete_cnt elapsed_secs : nat) : M unit :=
  if (delete_cnt <? length apps)%nat then
    match fuel with
    | 0 => diverge
    | S fuel' =>
        delete_cnt' <- poll_tick user_profile_name apps ;;
        wait_apps_deleted fuel' user_profile_name apps delete_cnt' (elapsed_secs + 5)
    end
  else ret tt.

(** [delete_user_profile]: [None] is the result of both bare [return]s. *)
Definition delete_user_profile (fuel : nat) (user_profile_name : string)
  : M (option Response) :=
  found <- try_except
             (describe_user_profile user_profile_name ;; ret true)
             (fun e =>
                match e with
                | ResourceNotFound => ret false
                | _ => raise e
                end) ;;
  if found then
    apps <- list_apps user_profile_name ;;
    c <- delete_apps user_profile_name apps ;;
    match c with
    | Return => ret None
    | Continue =>
        wait_apps_deleted fuel user_profile_name apps 0 0 ;;
        response <- invoke (cli_delete_user_profile cli domain_id user_profile_name)
                           (EvDeleteUserProfile domain_id user_profile_name) ;;
        ret (Some response)
    end
  else ret None.

(** Lines 209-210: the list comprehension that describes every listed
    profile. *)
Fixpoint describe_all (listed : list UserProfile) : M (list UserProfile) :=
  match listed with
  | [] => ret []
  | x :: rest =>
      d <- describe_user_profile (UserProfileName x) ;;
      ds <- describe_all rest ;;
      ret (d :: ds)
  end.

(** Lines 216-220: [while name in self.list_user_profiles(): sleep(5)]
    with its [else] clause. *)
Fixpoint wait_unlisted (fuel : nat) (user_profile_name : string) : M unit :=
  listed <- list_user_profiles ;;
  if py_in (PyStr user_profile_name) (map PyDict listed) then
    match fuel with
    | 0 => diverge
    | S fuel' => sleep 5 ;; wait_unlisted fuel' user_profile_name
    end
  else sleep 5.

(** [i['UserSettings']['ExecutionRole']] *)
Definition execution_role_of (i : UserProfile) : M (World:=World) string :=
  match UserSettings i with
  | None => raise (KeyError "UserSettings")
  | Some settings =>
      match ExecutionRole settings with
      | None => raise (KeyError "ExecutionRole")
      | Some role => ret role
      end
  end.

(** Lines 214-223: the body of the loop over the described profiles. *)
Definition recreate_user_profile (fuel : nat) (i : UserProfile) : M unit :=
  delete_user_profile fuel (UserProfileName i) ;;
  wait_unlisted fuel (UserProfileName i) ;;
  execution_role <- execution_role_of i ;;
  create_user_profile (UserProfileName i) execution_role ;;
  ret tt.

(** Lines 213-223: [for i in user_profiles]. *)
Fixpoint recreate_each (fuel : nat) (user_profiles : list UserProfile) : M unit :=
  match user_profiles with
  | [] => ret tt
  | i :: rest =>
      recreate_user_profile fuel i ;;
      recreate_each fuel rest
  end.

(** [recreate_all_user_profiles]: the snapshot of lines 209-210, then the
    loop. *)
Definition recreate_all_user_profiles (fuel : nat) : M unit :=
  listed <- list_user_profiles ;;
  user_profiles <- describe_all listed ;;
  recreate_each fuel user_profiles.

End SagemakerManager.

(** ** Reading a log of interactions *)

(** The apps whose status was queried, with the answers, oldest first. *)
Fixpoint describe_app_results (t : list event) : list (App * result AppDescription) :=
  match t with
  | [] => []
  | EvDescribeApp _ _ app_name app_type r :: t' =>
      ({| AppName := app_name; AppType := app_type |}, r) :: describe_app_results t'
  | _ :: t' => describe_app_results t'
  end.

(** The apps whose deletion was requested, oldest first. *)
Fixpoint delete_app_requests (t : list event) : list App :=
  match t with
  | [] => []
  | EvDeleteApp _ _ app_name app_type _ :: t' =>
      {| AppName := app_name; AppType := app_type |} :: delete_app_requests t'
  | _ :: t' => delete_app_requests t'
  end.

(** The create requests, as (name, execution role), oldest first. *)
Fixpoint create_requests (t : list event) : list (string * string) :=
  match t with
  | [] => []
  | EvCreateUserProfile _ name role _ :: t' => (name, role) :: create_requests t'
  | _ :: t' => create_requests t'
  end.

(** The profiles whose deletion was requested. *)
Fixpoint delete_user_profile_requests (t : list event) : list string :=
  match t with
  | [] => []
  | EvDeleteUserProfile _ name _ :: t' => name :: delete_user_profile_requests t'
  | _ :: t' => delete_user_profile_requests t'
  end.

(** The profiles whose teardown was started: [delete_user_profile] opens
    with [describe_user_profile]. *)
Fixpoint described_profiles (t : list event) : list string :=
  match t with
  | [] => []
  | EvDescribeUserProfile _ name _ :: t' => name :: described_profiles t'
  | _ :: t' => described_profiles t'
  end.

(** The apps the listing of the teardown answered. *)
Fixpoint listed_apps (t : list event) : option (list App) :=
  match t with
  | [] => None
  | EvListApps _ _ (Ok apps) :: _ => Some apps
  | _ :: t' => listed_apps t'
  end.

(** The number of sleeps. *)
Fixpoint ticks (t : list event) : nat :=
  match t with
  | [] => 0
  | EvSleep _ :: t' => S (ticks t')
  | _ :: t' => ticks t'
  end.

(** What a status query of [app] under [user_profile_name] answered, if the
    event is one. *)
Definition status_answer (user_profile_name : string) (app : App) (ev : event)
  : option (result AppDescription) :=
  match ev with
  | EvDescribeApp _ name app_name app_type r =>
      if (name =? user_profile_name) && (app_name =? AppName app)
         && (app_type =? AppType app)
      then Some r else None
  | _ => None
  end.

(** The latest answer to a status query of [app] in the log. *)
Fixpoint last_status (user_profile_name : string) (app : App) (t : list event)
  : option (result AppDescription) :=
  match t with
  | [] => None
  | ev :: t' =>
      match last_status user_profile_name app t' with
      | Some r => Some r
      | None => status_answer user_profile_name app ev
      end
  end.

(** The spec's terminal statuses. *)
Definition terminal (status : string) : Prop :=
  status = "Deleted" \/ status = "Failed".

Definition terminalb (status : string) : bool :=
  (status =? "Deleted") || (status =? "Failed").

(** An answer that reports a terminal status. *)
Definition answers_terminal (r : result AppDescription) : Prop :=
  exists response, r = Ok response /\ terminal (Status response).

(** The statuses for which [delete_user_profile] requests no deletion. *)
Definition deletion_under_way (status : string) : bool :=
  (status =? "Deleted") || (status =? "Deleting").

(** Whether the answer of a status query leads to a delete request. *)
Definition calls_for_delete (r : result AppDescription) : bool :=
  match r with
  | Ok response => negb (deletion_under_way (Status response))
  | Err _ => false
  end.

(** The log of a pass of status queries over [answers]. *)
Definition describe_events (domain_id : option string) (user_profile_name : string)
    (answers : list (App * result AppDescription)) : list event :=
  map (fun ar => EvDescribeApp domain_id user_profile_name
                   (AppName (fst ar)) (AppType (fst ar)) (snd ar))
      answers.

(** Whether a polling pass counts the answer: the test of line 89. *)
Definition terminal_answerb (r : result AppDescription) : bool :=
  match r with
  | Ok response => terminalb (Status response)
  | Err _ => false
  end.

(** An event of the polling loop: a status query or a sleep. *)
Definition polling_event (ev : event) : Prop :=
  match ev with
  | EvDescribeApp _ _ _ _ _ | EvSleep _ => True
  | _ => False
  end.

(** An event of the loop that requests the deletion of the apps. *)
Definition app_event (ev : event) : Prop :=
  match ev with
  | EvDescribeApp _ _ _ _ _ | EvDeleteApp _ _ _ _ _ => True
  | _ => False
  end.



(** [i['UserSettings']['ExecutionRole']] when both keys are present. *)
Definition execution_role (i : UserProfile) : option string :=
  match UserSettings i with
  | Some settings => ExecutionRole settings
  | None => None
  end.

(** ** What a teardown may touch *)

(** The apps a teardown was given by its listing; none before the listing
    answered. *)
Definition apps_in_scope (t : list event) : list App :=
  match listed_apps t with
  | Some apps => apps
  | None => []
  end.

(** The event belongs to the teardown of [user_profile_name] in
    [domain_id] over [apps]: a request about that profile, a request about
    one of these apps under that profile, or a sleep of five seconds. *)
Definition event_about (domain_id : option string) (user_profile_name : string)
    (apps : list App) (ev : event) : Prop :=
  match ev with
  | EvDescribeUserProfile d name _
  | EvListApps d name _
  | EvDeleteUserProfile d name _ => d = domain_id /\ name = user_profile_name
  | EvDeleteApp d name app_name app_type _
  | EvDescribeApp d name app_name app_type _ =>
      d = domain_id /\ name = user_profile_name
      /\ In {| AppName := app_name; AppType := app_type |} apps
  | EvSleep secs => secs = 5
  | EvListUserProfiles _ _
  | EvCreateUserProfile _ _ _ _ => False
  end.

(** The event is a request that changes the remote directory. *)
Definition mutation (ev : event) : Prop :=
  match ev with
  | EvDeleteApp _ _ _ _ _
  | EvCreateUserProfile _ _ _ _
  | EvDeleteUserProfile _ _ _ => True
  | _ => False
  end.

(** The log of a complete snapshot: every listed profile described, in the
    order of the listing. *)
Definition snapshot_events (domain_id : option string)
    (listed described : list UserProfile) : list event :=
  map (fun xd => EvDescribeUserProfile domain_id (UserProfileName (fst xd)) (Ok (snd xd)))
      (combine listed described).

(** ** A scripted control plane *)

(** A control plane whose state is the time slept so far.  The profiles are
    fixed; the status of an app depends on the time; delete and create
    requests answer by name. *)
Record Script : Type := {
  script_profiles : list UserProfile;
  script_apps : string -> list App;
  script_status : nat -> string -> string -> result AppDescription;
  script_delete_app : string -> string -> result Response;
  script_create : string -> result Response
}.

(** The description of a profile, or [ResourceNotFound]. *)
Definition find_profile (name : string) (l : list UserProfile) : result UserProfile :=
  match find (fun p => UserProfileName p =? name) l with
  | Some p => Ok p
  | None => Err ResourceNotFound
  end.

(** The client that plays a script.  Listings carry no settings; the
    deletion of a profile is accepted and leaves the script unchanged. *)
Definition scripted (s : Script) : Client nat := {|
  cli_list_user_profiles := fun _ now =>
    (Ok (map (fun p => {| UserProfileName := UserProfileName p; UserSettings := None |})
             (script_profiles s)), now);
  cli_describe_user_profile := fun _ name now =>
    (find_profile name (script_profiles s), now);
  cli_list_apps := fun _ name now => (Ok (script_apps s name), now);
  cli_delete_app := fun _ name app_name _ now => (script_delete_app s name app_name, now);
  cli_describe_app := fun _ name app_name _ now => (script_status s now name app_name, now);
  cli_create_user_profile := fun _ name _ now => (script_create s name, now);
  cli_delete_user_profile := fun _ _ now => (Ok tt, now);
  cli_sleep := fun secs now => now + secs
|}.

(** A described profile with an execution role. *)
Definition profile (name role : string) : UserProfile :=
  {| UserProfileName := name;
     UserSettings := Some {| ExecutionRole := Some role |} |}.

(** An app of the listing. *)
Definition app_named (name : string) : App :=
  {| AppName := name; AppType := "JupyterServer" |}.

(** The answer of a status query that reports [s]. *)
Definition reports (s : string) : result AppDescription := Ok {| Status := s |}.

(** ** Scenarios *)

Definition app_A : App := app_named "A".
Definition app_B : App := app_named "B".

Definition accepts_everything : string -> string -> result Response :=
  fun _ _ => Ok tt.

(** [prof-1] owns A, which has failed, and B, which is already deleted. *)
Definition failed_child : Script := {|
  script_profiles := [profile "prof-1" "r1"];
  script_apps := fun _ => [app_A; app_B];
  script_status := fun _ _ app_name =>
    if app_name =? "A" then reports "Failed" else reports "Deleted";
  script_delete_app := accepts_everything;
  script_create := fun _ => Ok tt
|}.

(** [prof-1] owns A, which stays in service whatever is requested. *)
Definition stuck_child : Script := {|
  script_profiles := [profile "prof-1" "r1"];
  script_apps := fun _ => [app_A];
  script_status := fun _ _ _ => reports "InService";
  script_delete_app := accepts_everything;
  script_create := fun _ => Ok tt
|}.

(** [prof-1] owns A, already deleted, and B, deleted after five seconds. *)
Definition slow_child : Script := {|
  script_profiles := [profile "prof-1" "r1"];
  script_apps := fun _ => [app_A; app_B];
  script_status := fun now _ app_name =>
    if app_name =? "A" then reports "Deleted"
    else if (now <? 5)%nat then reports "InService" else reports "Deleted";
  script_delete_app := accepts_everything;
  script_create := fun _ => Ok tt
|}.

(** [prof-1] still lists A, which no longer exists. *)
Definition vanished_child : Script := {|
  script_profiles := [profile "prof-1" "r1"];
  script_apps := fun _ => [app_A];
  script_status := fun _ _ _ => Err ResourceNotFound;
  script_delete_app := accepts_everything;
  script_create := fun _ => Ok tt
|}.

(** Two profiles without apps; the control plane rejects the creation of
    the first. *)
Definition rejected_create : Script := {|
  script_profiles := [profile "prof-1" "r1"; profile "prof-2" "r2"];
  script_apps := fun _ => [];
  script_status := fun _ _ _ => Err ResourceNotFound;
  script_delete_app := accepts_everything;
  script_create := fun name =>
    if name =? "prof-1" then Err (OtherError "ResourceLimitExceeded") else Ok tt
|}.

(** [prof-1] owns A, whose status query answers [ResourceInUse]. *)
Definition child_in_use : Script := {|
  script_profiles := [profile "prof-1" "r1"];
  script_apps := fun _ => [app_A];
  script_status := fun _ _ _ => Err ResourceInUse;
  script_delete_app := accepts_everything;
  script_create := fun _ => Ok tt
|}.

(** [prof-1] owns A and B, both deleted after five seconds; the caller may
    not delete A. *)
Definition denied_delete : Script := {|
  script_profiles := [profile "prof-1" "r1"];
  script_apps := fun _ => [app_A; app_B];
  script_status := fun now _ _ =>
    if (now <? 5)%nat then reports "InService" else reports "Deleted";
  script_delete_app := fun _ app_name =>
    if app_name =? "A" then Err (OtherError "AccessDeniedException") else Ok tt;
  script_create := fun _ => Ok tt
|}.





(** The log of the teardown of [prof-1] in [failed_child], up to the request
    that deletes the profile. *)
Definition failed_child_log : list event :=
  [EvDescribeUserProfile None "prof-1" (Ok (profile "prof-1" "r1"));
   EvListApps None "prof-1" (Ok [app_A; app_B]);
   EvDescribeApp None "prof-1" "A" "JupyterServer" (reports "Failed");
   EvDeleteApp None "prof-1" "A" "JupyterServer" (Ok tt);
   EvDescribeApp None "prof-1" "B" "JupyterServer" (reports "Deleted");
   EvDescribeApp None "prof-1" "A" "JupyterServer" (reports "Failed");
   EvDescribeApp None "prof-1" "B" "JupyterServer" (reports "Deleted");
   EvSleep 5].

(** [prof-1] owns A, in service, B, whose status query answers
    [ResourceInUse], and C. *)
Definition second_child_in_use : Script := {|
  script_profiles := [profile "prof-1" "r1"];
  script_apps := fun _ => [app_A; app_B; app_named "C"];
  script_status := fun _ _ app_name =>
    if app_name =? "B" then Err ResourceInUse else reports "InService";
  script_delete_app := accepts_everything;
  script_create := fun _ => Ok tt
|}.

(** The log of the teardown of [prof-1] in [second_child_in_use]. *)
Definition second_child_in_use_log : list event :=
  [EvDescribeUserProfile None "prof-1" (Ok (profile "prof-1" "r1"));
   EvListApps None "prof-1" (Ok [app_A; app_B; app_named "C"]);
   EvDescribeApp None "prof-1" "A" "JupyterServer" (reports "InService");
   EvDeleteApp None "prof-1" "A" "JupyterServer" (Ok tt);
   EvDescribeApp None "prof-1" "B" "JupyterServer" (Err ResourceInUse)].

(** [prof-1], without apps, was created without settings of its own. *)
Definition no_role : Script := {|
  script_profiles := [{| UserProfileName := "prof-1"; UserSettings := None |}];
  script_apps := fun _ => [];
  script_status := fun _ _ _ => Err ResourceNotFound;
  script_delete_app := accepts_everything;
  script_create := fun _ => Ok tt
|}.

(** The log of the teardown of [prof-1] in [no_role]. *)
Definition no_role_teardown_log : list event :=
  [EvDescribeUserProfile None "prof-1"
     (Ok {| UserProfileName := "prof-1"; UserSettings := None |});
   EvListApps None "prof-1" (Ok []);
   EvDeleteUserProfile None "prof-1" (Ok tt)].

(** * The code outside the teardown *)

(** ** Programs that call a client *)

(** [EC2Manager] and [GEManager] have no unbounded loop but raise
    exceptions of the Python runtime, so their methods are computations
    that need no fuel: from the remote state they
    give an answer, the next remote state and the requests sent, oldest
    first. *)
Module Py.

(** An exception of the client library, or one of the runtime. *)
Inductive raised : Type :=
| ClientError (code : string)
| TypeError
| IndexError
| KeyError (key : string)
| StopIteration
| UnboundLocalError (name : string)
| AssertionError.

Inductive answer (A : Type) : Type :=
| Returns (a : A)
| Raises (e : raised).
Arguments Raises {A} e.

Section Program.
Context {World Request : Type}.

Definition program (A : Type) : Type := World -> answer A * World * list Request.

Definition ret {A} (a : A) : program A := fun w => (Returns a, w, []).

Definition raise {A} (e : raised) : program A := fun w => (Raises e, w, []).

(** The value of an expression that may raise. *)
Definition lift {A} (r : answer A) : program A := fun w => (r, w, []).

Definition bind {A B} (m : program A) (f : A -> program B) : program B :=
  fun w =>
    match m w with
    | (Returns a, w1, t1) => let '(r, w2, t2) := f a w1 in (r, w2, t1 ++ t2)
    | (Raises e, w1, t1) => (Raises e, w1, t1)
    end.

(** [try: m  except: h], the bare [except] that catches everything. *)
Definition except_all {A} (m : program A) (h : program A) : program A :=
  fun w =>
    match m w with
    | (Raises _, w1, t1) => let '(r, w2, t2) := h w1 in (r, w2, t1 ++ t2)
    | other => other
    end.

(** A call of the client. *)
Definition call {A} (request : Request) (op : World -> answer A * World) : program A :=
  fun w => let '(r, w1) := op w in (r, w1, [request]).

(** [for x in l: body x] *)
Fixpoint for_each {A} (l : list A) (body : A -> program unit) : program unit :=
  match l with
  | [] => ret tt
  | x :: rest => bind (body x) (fun _ => for_each rest body)
  end.
End Program.

(** [x in s] for two strings: [x] occurs in [s]. *)
Definition contains (x s : string) : bool :=
  match String.index 0 x s with
  | Some _ => true
  | None => false
  end.

(** How Python iterates over a set of strings built from the elements [l]:
    in an order of its own, each element once. *)
Record SetOrder : Type := {
  iteration : list string -> list string;
  iteration_In : forall l x, In x (iteration l) <-> In x l;
  iteration_NoDup : forall l, NoDup (iteration l)
}.

(** [x in s] for a set given by its elements. *)
Definition mem (x : string) (s : list string) : bool := existsb (String.eqb x) s.

(** [s - t] on sets given by their elements. *)
Definition difference (s t : list string) : list string :=
  filter (fun x => negb (mem x t)) s.

End Py.

Declare Scope py_scope.
Delimit Scope py_scope with py.
Notation "x <- m ;; k" := (Py.bind m (fun x => k))
  (at level 61, m at next level, right associativity) : py_scope.
Notation "m ;; k" := (Py.bind m (fun _ => k))
  (at level 61, right associativity) : py_scope.

(** ** EC2Manager *)

Module EC2.
Import Py.
Local Open Scope py_scope.

(** [instance['State']] *)
Record InstanceState : Type := { Name : string }.

(** [i['MetadataOptions']] *)
Record InstanceMetadataOptions : Type := { HttpTokens : string }.

(** An instance of a reservation; one launched without a key pair has no
    ['KeyName']. *)
Record Instance : Type := {
  InstanceId : string;
  KeyName : option string;
  State : InstanceState;
  MetadataOptions : InstanceMetadataOptions
}.

(** An element of [describe_instances()['Reservations']]. *)
Record Reservation : Type := { Instances : list Instance }.

(** An element of [describe_key_pairs()['KeyPairs']], read by
    [key_pair['KeyName']]. *)
Record KeyPair : Type := { KeyPairName : string }.

(** An element of [i['Tags']], read by [t['Value']]. *)
Record Tag : Type := { Value : string }.

(** An element of [describe_security_groups()['SecurityGroups']]. *)
Record SecurityGroup : Type := { GroupId : string; GroupName : string }.

(** An element of [describe_vpcs()['Vpcs']]; ['Tags'] may be absent. *)
Record Vpc : Type := { VpcId : string; Tags : option (list Tag) }.

(** An element of [describe_subnets()['Subnets']]. *)
Record Subnet : Type := {
  SubnetId : string;
  SubnetVpcId : string;
  SubnetTags : option (list Tag)
}.

(** The requests of [self.cli] with their keyword arguments. *)
Inductive request : Type :=
| DescribeSecurityGroups
| DescribeInstances (InstanceIds : option (list string))
| DescribeKeyPairs
| DescribeVpcs
| DescribeSubnets
| DeleteKeyPair (KeyName : string)
| ModifyInstanceMetadataOptions (InstanceId HttpTokens : string)
    (HttpPutResponseHopLimit : nat) (HttpEndpoint : string).

(** [self.cli] *)
Record Client (World : Type) : Type := {
  cli_describe_security_groups : World -> answer (list SecurityGroup) * World;
  cli_describe_instances :
    option (list string) -> World -> answer (list Reservation) * World;
  cli_describe_key_pairs : World -> answer (list KeyPair) * World;
  cli_describe_vpcs : World -> answer (list Vpc) * World;
  cli_describe_subnets : World -> answer (list Subnet) * World;
  cli_delete_key_pair : string -> World -> answer unit * World;
  cli_modify_instance_metadata_options :
    string -> string -> nat -> string -> World -> answer unit * World
}.

(** [[instance['Instances'][0] for instance in reservations]] *)
Fixpoint first_instances (reservations : list Reservation) : answer (list Instance) :=
  match reservations with
  | [] => Returns []
  | reservation :: rest =>
      match Instances reservation with
      | [] => Raises IndexError
      | instance :: _ =>
          match first_instances rest with
          | Returns instances => Returns (instance :: instances)
          | Raises e => Raises e
          end
      end
  end.

(** [[instance['KeyName'] for instance in instances]] *)
Fixpoint key_names (instances : list Instance) : answer (list string) :=
  match instances with
  | [] => Returns []
  | instance :: rest =>
      match KeyName instance with
      | None => Raises (KeyError "KeyName")
      | Some name =>
          match key_names rest with
          | Returns names => Returns (name :: names)
          | Raises e => Raises e
          end
      end
  end.

Section EC2Manager.
Context {World : Type}.
Variable cli : Client World.
Variable order : SetOrder.
(** [str.lower] *)
Variable lower : string -> string.

Definition list_security_groups : program (list SecurityGroup) :=
  call DescribeSecurityGroups (cli_describe_security_groups cli).

Definition describe_instances (instance_id_list : option (list string))
  : program (list Reservation) :=
  call (DescribeInstances instance_id_list) (cli_describe_instances cli instance_id_list).

(** [list_instances_with_status]: [None] is what the method returns after
    its bare [except]. *)
Definition list_instances_with_status (status : string)
  : program (option (list Instance)) :=
  except_all
    (reservations <- describe_instances None ;;
     instances <- lift (first_instances reservations) ;;
     ret (Some (filter (fun instance => Name (State instance) =? status) instances)))
    (ret None).

(** [list_key_pairs]: the set of the key names, given by its elements. *)
Definition list_key_pairs : program (list string) :=
  key_pairs <- call DescribeKeyPairs (cli_describe_key_pairs cli) ;;
  ret (map KeyPairName key_pairs).

Definition list_unused_key_pairs : program (list string) :=
  key_pairs_total <- list_key_pairs ;;
  reservations <- describe_instances None ;;
  instances <- lift (first_instances reservations) ;;
  key_pairs_using <- lift (key_names instances) ;;
  ret (difference key_pairs_total key_pairs_using).

Definition delete_unused_key_pairs : program unit :=
  key_pairs_redundant <- list_unused_key_pairs ;;
  except_all
    (for_each (iteration order key_pairs_redundant)
       (fun key_pair => call (DeleteKeyPair key_pair) (cli_delete_key_pair cli key_pair)))
    (ret tt).

Definition list_vpcs : program (list Vpc) :=
  call DescribeVpcs (cli_describe_vpcs cli).

Definition list_subnet : program (list Subnet) :=
  call DescribeSubnets (cli_describe_subnets cli).

(** [get_sg_id]: [next(..., None)]. *)
Definition get_sg_id (group_name : string) : program (option string) :=
  groups <- list_security_groups ;;
  ret (option_map GroupId
         (find (fun i => contains (lower group_name) (lower (GroupName i))) groups)).

(** Whether some tag of [tags] passes [test]; without ['Tags'] none does. *)
Definition some_tag (test : Tag -> bool) (tags : option (list Tag)) : bool :=
  match tags with
  | Some l => existsb test l
  | None => false
  end.

(** [get_vpc_id]: [next(...)] without a default. *)
Definition get_vpc_id (vpc_name : string) : program string :=
  vpcs <- list_vpcs ;;
  match find (fun i => some_tag (fun t => contains (lower vpc_name) (lower (Value t)))
                                (Tags i)) vpcs with
  | Some i => ret (VpcId i)
  | None => raise StopIteration
  end.

Definition get_subnet_id (vpc_id subnet_name : string) : program string :=
  subnets <- list_subnet ;;
  match find (fun s => (vpc_id =? SubnetVpcId s)
                       && some_tag (fun t => subnet_name =? Value t) (SubnetTags s))
             subnets with
  | Some s => ret (SubnetId s)
  | None => raise StopIteration
  end.


End EC2Manager.

(** The key names whose deletion was requested, oldest first. *)
Fixpoint deleted_key_pairs (t : list request) : list string :=
  match t with
  | [] => []
  | DeleteKeyPair name :: t' => name :: deleted_key_pairs t'
  | _ :: t' => deleted_key_pairs t'
  end.

End EC2.

(** ** GEManager._get_batch_list *)

Module GE.
Import Py.
Local Open Scope py_scope.

(** The truth value of an [Optional[str]]: [None] and [''] are false. *)
Definition truthy (s : option string) : bool :=
  match s with
  | Some (String _ _) => true
  | _ => false
  end.

Section GEManager.
Context {World Asset BatchRequest Batch : Type}.

(** The calls of the validation library, with their arguments. *)
Inductive request : Type :=
| AddPandasCsvAsset (name : option string) (s3_prefix : string)
| AddSparkCsvAsset (name : option string) (s3_prefix : string)
| AddTableAsset (name schema_name table_name : option string)
| BuildBatchRequest (data_asset : Asset)
| GetBatchList (batch_request : BatchRequest).

(** [self.s3_datasource], [self.spark_datasource], [self.athena_datasource],
    the asset returned and [self.context]. *)
Record Library : Type := {
  s3_add_csv_asset : option string -> string -> World -> answer Asset * World;
  spark_add_csv_asset : option string -> string -> World -> answer Asset * World;
  athena_add_table_asset :
    option string -> option string -> option string -> World -> answer Asset * World;
  build_batch_request : Asset -> World -> answer BatchRequest * World;
  get_batch_list : BatchRequest -> World -> answer (list Batch) * World
}.

Variable lib : Library.

(** [self.DATA_S3_BUCKET_PREFIX] *)
Definition DATA_S3_BUCKET_PREFIX : string := "data/incoming".

Definition add_s3_pandas_csv_dataset (file_name : option string) : program Asset :=
  call (AddPandasCsvAsset file_name DATA_S3_BUCKET_PREFIX)
       (s3_add_csv_asset lib file_name DATA_S3_BUCKET_PREFIX).

Definition add_s3_spark_csv_dataset (file_name : option string) : program Asset :=
  call (AddSparkCsvAsset file_name DATA_S3_BUCKET_PREFIX)
       (spark_add_csv_asset lib file_name DATA_S3_BUCKET_PREFIX).

Definition add_athena_dataset (athena_database_name athena_table_name : option string)
  : program Asset :=
  call (AddTableAsset athena_table_name athena_database_name athena_table_name)
       (athena_add_table_asset lib athena_table_name athena_database_name
          athena_table_name).

(** The first [if] of [_get_batch_list]; the local variable [data_asset] is
    [None] while it is unbound. *)
Definition s3_data_asset (s3_file_name : option string) (pands_or_spark : string)
  : program (option Asset) :=
  if truthy s3_file_name then
    if pands_or_spark =? "pandas" then
      asset <- add_s3_pandas_csv_dataset s3_file_name ;; ret (Some asset)
    else if pands_or_spark =? "spark" then
      asset <- add_s3_spark_csv_dataset s3_file_name ;; ret (Some asset)
    else ret None
  else ret None.

(** The second [if]: an Athena table replaces what the first one bound. *)
Definition athena_data_asset (athena_database_name athena_table_name : option string)
    (data_asset : option Asset) : program (option Asset) :=
  if truthy athena_table_name then
    asset <- add_athena_dataset athena_database_name athena_table_name ;;
    ret (Some asset)
  else ret data_asset.

(** The rest of the method: the batch request, the batches, the [assert]. *)
Definition batches_of (data_asset : option Asset) : program (list Batch) :=
  match data_asset with
  | None => raise (UnboundLocalError "data_asset")
  | Some asset =>
      batch_request <- call (BuildBatchRequest asset) (build_batch_request lib asset) ;;
      batch_list <- call (GetBatchList batch_request) (get_batch_list lib batch_request) ;;
      if (0 <? length batch_list)%nat then ret batch_list else raise AssertionError
  end.

Definition _get_batch_list (s3_file_name : option string) (pands_or_spark : string)
    (athena_database_name athena_table_name : option string) : program (list Batch) :=
  data_asset <- s3_data_asset s3_file_name pands_or_spark ;;
  data_asset <- athena_data_asset athena_database_name athena_table_name data_asset ;;
  batches_of data_asset.

(** The assets whose batch request was built. *)
Fixpoint batch_assets (t : list request) : list Asset :=
  match t with
  | [] => []
  | BuildBatchRequest asset :: t' => asset :: batch_assets t'
  | _ :: t' => batch_assets t'
  end.

End GEManager.
End GE.

(** The key of the first instance of a reservation. *)
Definition first_key (reservations : list EC2.Reservation) (k : string) : Prop :=
  exists reservation instance rest,
    In reservation reservations
    /\ EC2.Instances reservation = instance :: rest
    /\ EC2.KeyName instance = Some k.


(** ** An account and a library for the examples *)

(** [str.lower] on the letters of ASCII. *)
Definition lower_letter (c : Ascii.ascii) : Ascii.ascii :=
  let n := Ascii.nat_of_ascii c in
  if ((65 <=? n) && (n <=? 90))%nat then Ascii.ascii_of_nat (n + 32) else c.

Fixpoint ascii_lower (s : string) : string :=
  match s with
  | EmptyString => EmptyString
  | String c s' => String (lower_letter c) (ascii_lower s')
  end.

Module Account.
Import Py EC2.

(** Sets that iterate in the order of first insertion. *)
Definition insertion_order : SetOrder :=
  {| iteration := nodup string_dec;
     iteration_In := fun l x => nodup_In string_dec l x;
     iteration_NoDup := NoDup_nodup string_dec |}.

Definition instance (id : string) (key : option string) (state : string) : Instance :=
  {| InstanceId := id;
     KeyName := key;
     State := {| Name := state |};
     MetadataOptions := {| HttpTokens := "optional" |} |}.

(** One launch of two instances, each with a key pair of its own. *)
Definition reservations : list Reservation :=
  [{| Instances := [instance "i-web" (Some "web-key") "running";
                    instance "i-worker" (Some "worker-key") "running"] |}].

Definition key_pairs : list string := ["web-key"; "old-key"; "worker-key"].

Definition security_groups : list SecurityGroup :=
  [{| GroupId := "sg-1"; GroupName := "default" |};
   {| GroupId := "sg-2"; GroupName := "Web-Servers" |};
   {| GroupId := "sg-3"; GroupName := "web-admin" |}].

(** The console of the account.  Its state is the names of the key pairs
    that exist; it refuses to delete the key pairs of [locked]. *)
Definition console (locked : list string) : Client (list string) :=
  {| cli_describe_security_groups := fun w => (Returns security_groups, w);
     cli_describe_instances := fun _ w => (Returns reservations, w);
     cli_describe_key_pairs :=
       fun w => (Returns (map (fun k => {| KeyPairName := k |}) w), w);
     cli_describe_vpcs := fun w => (Returns [], w);
     cli_describe_subnets := fun w => (Returns [], w);
     cli_delete_key_pair :=
       fun k w =>
         if mem k locked then (Raises (ClientError "UnauthorizedOperation"), w)
         else (Returns tt, filter (fun x => negb (x =? k)) w);
     cli_modify_instance_metadata_options := fun _ _ _ _ w => (Returns tt, w) |}.

(** A validation library that names its assets after their kind and answers
    one batch for a request; its state counts the assets registered. *)
Definition library : GE.Library (World:=nat) (Asset:=string) (BatchRequest:=string)
                       (Batch:=string) :=
  {| GE.s3_add_csv_asset := fun _ _ w => (Returns "csv", S w);
     GE.spark_add_csv_asset := fun _ _ w => (Returns "spark-csv", S w);
     GE.athena_add_table_asset := fun _ _ _ w => (Returns "table", S w);
     GE.build_batch_request := fun asset w => (Returns asset, w);
     GE.get_batch_list := fun batch_request w => (Returns [batch_request], w) |}.

End Account.

(** * Properties *)

Unset Implicit Arguments.

(** ** Logs *)

Lemma terminalb_spec status : terminalb status = true <-> terminal status.
Proof.
  unfold terminalb, terminal. rewrite orb_true_iff, !String.eqb_eq. tauto.
Qed.

Lemma terminal_answerb_spec r : terminal_answerb r = true <-> answers_terminal r.
Proof.
  unfold answers_terminal. destruct r as [response | e]; cbn.
  - rewrite terminalb_spec. split.
    + intros H. exists response. now split.
    + intros [response' [Heq H]]. now inversion Heq; subst.
  - split; [discriminate | intros [response [Heq _]]; discriminate].
Qed.

Lemma App_eta a : {| AppName := AppName a; AppType := AppType a |} = a.
Proof. now destruct a. Qed.

Lemma describe_app_results_app t1 t2 :
  describe_app_results (t1 ++ t2) = describe_app_results t1 ++ describe_app_results t2.
Proof.
  induction t1 as [| ev t1 IH]; [reflexivity |].
  destruct ev; cbn; now rewrite ?IH.
Qed.

Lemma delete_app_requests_app t1 t2 :
  delete_app_requests (t1 ++ t2) = delete_app_requests t1 ++ delete_app_requests t2.
Proof.
  induction t1 as [| ev t1 IH]; [reflexivity |].
  destruct ev; cbn; now rewrite ?IH.
Qed.

Lemma create_requests_app t1 t2 :
  create_requests (t1 ++ t2) = create_requests t1 ++ create_requests t2.
Proof.
  induction t1 as [| ev t1 IH]; [reflexivity |].
  destruct ev; cbn; now rewrite ?IH.
Qed.

Lemma described_profiles_app t1 t2 :
  described_profiles (t1 ++ t2) = described_profiles t1 ++ described_profiles t2.
Proof.
  induction t1 as [| ev t1 IH]; [reflexivity |].
  destruct ev; cbn; now rewrite ?IH.
Qed.

Lemma delete_user_profile_requests_app t1 t2 :
  delete_user_profile_requests (t1 ++ t2)
  = delete_user_profile_requests t1 ++ delete_user_profile_requests t2.
Proof.
  induction t1 as [| ev t1 IH]; [reflexivity |].
  destruct ev; cbn; now rewrite ?IH.
Qed.

Lemma ticks_app t1 t2 : ticks (t1 ++ t2) = ticks t1 + ticks t2.
Proof.
  induction t1 as [| ev t1 IH]; [reflexivity |].
  destruct ev; cbn; now rewrite ?IH.
Qed.

Lemma last_status_app name a t1 t2 :
  last_status name a (t1 ++ t2)
  = match last_status name a t2 with
    | Some r => Some r
    | None => last_status name a t1
    end.
Proof.
  induction t1 as [| ev t1 IH]; cbn.
  - now destruct (last_status name a t2).
  - rewrite IH. now destruct (last_status name a t2).
Qed.

Lemma describe_app_results_events d name answers :
  describe_app_results (describe_events d name answers) = answers.
Proof.
  induction answers as [| [a r] answers IH]; [reflexivity |].
  cbn. rewrite App_eta. f_equal. exact IH.
Qed.

Lemma ticks_describe_events d name answers : ticks (describe_events d name answers) = 0.
Proof. induction answers as [| ar answers IH]; [reflexivity | exact IH]. Qed.

Lemma polling_describe_events d name answers :
  Forall polling_event (describe_events d name answers).
Proof. induction answers; constructor; [exact I | assumption]. Qed.

(** The latest answer about an app queried in a pass is an answer of that
    pass. *)
Lemma last_status_events_in d name a answers r :
  last_status name a (describe_events d name answers) = Some r ->
  In r (map snd answers).
Proof.
  induction answers as [| [a' r'] answers IH]; cbn; [discriminate |].
  fold (describe_events d name answers).
  destruct (last_status name a (describe_events d name answers)) as [r0 |].
  - intros Heq. right. apply IH. exact Heq.
  - destruct ((name =? name) && (AppName a' =? AppName a) && (AppType a' =? AppType a));
      [| discriminate].
    intros Heq. left. now inversion Heq.
Qed.

Lemma last_status_events_some d name a answers :
  In a (map fst answers) ->
  last_status name a (describe_events d name answers) <> None.
Proof.
  induction answers as [| [a' r'] answers IH]; cbn; [contradiction |].
  fold (describe_events d name answers).
  intros [Heq | Hin].
  - subst a'. destruct (last_status name a (describe_events d name answers)).
    + discriminate.
    + rewrite !String.eqb_refl. discriminate.
  - specialize (IH Hin).
    destruct (last_status name a (describe_events d name answers));
      [discriminate | contradiction].
Qed.

Lemma last_status_describe_events d name a answers :
  In a (map fst answers) ->
  exists r, last_status name a (describe_events d name answers) = Some r
            /\ In r (map snd answers).
Proof.
  intros Hin. apply (last_status_events_some d name) in Hin.
  destruct (last_status name a (describe_events d name answers)) as [r |] eqn:E;
    [| contradiction].
  exists r. split; [reflexivity |]. eapply last_status_events_in. exact E.
Qed.

(** Neither loop of the teardown requests the deletion of the profile. *)
Lemma delete_user_profile_requests_polling t :
  Forall polling_event t -> delete_user_profile_requests t = [].
Proof.
  induction 1 as [| ev t Hev _ IH]; [reflexivity |].
  destruct ev; cbn in *; (contradiction || assumption).
Qed.

Lemma delete_user_profile_requests_app_event t :
  Forall app_event t -> delete_user_profile_requests t = [].
Proof.
  induction 1 as [| ev t Hev _ IH]; [reflexivity |].
  destruct ev; cbn in *; (contradiction || assumption).
Qed.

(** A log without parent delete requests, followed by one: the request is
    found at the end only. *)
Lemma sole_request_last l x pre d name res post :
  delete_user_profile_requests l = [] ->
  l ++ [x] = pre ++ EvDeleteUserProfile d name res :: post ->
  post = [] /\ pre = l /\ x = EvDeleteUserProfile d name res.
Proof.
  revert pre. induction l as [| y l IH]; intros pre Hl Heq.
  - destruct pre as [| p pre]; cbn in Heq.
    + inversion Heq; subst. now repeat split.
    + inversion Heq as [[Hp Hnil]]. now destruct pre.
  - destruct pre as [| p pre]; cbn in Heq.
    + inversion Heq; subst. discriminate.
    + inversion Heq as [[Hp Hrest]]. subst p.
      assert (Hl' : delete_user_profile_requests l = []).
      { destruct y; cbn in Hl; (assumption || discriminate). }
      destruct (IH pre Hl' Hrest) as [H1 [H2 H3]]. subst. now repeat split.
Qed.

(** ** Runs of the methods *)

Section Runs.
Context {World : Type}.
Variable cli : Client World.
Variable domain_id : option string.

Lemma delete_app_run user_profile_name app_name app_type w :
  delete_app cli domain_id user_profile_name app_name app_type w
  = let '(r, w1) := cli_delete_app cli domain_id user_profile_name app_name app_type w in
    (Ret (match r with Ok response => Some response | Err _ => None end), w1,
     [EvDeleteApp domain_id user_profile_name app_name app_type r]).
Proof.
  unfold delete_app, try_except, bind, invoke, ret.
  destruct (cli_delete_app _ _ _ _ _ _) as [[response | e] w1]; reflexivity.
Qed.

(** One iteration of the loop that requests the deletion of the apps. *)
Lemma delete_apps_cons user_profile_name a rest w :
  delete_apps cli domain_id user_profile_name (a :: rest) w
  = let '(r, w1) :=
      cli_describe_app cli domain_id user_profile_name (AppName a) (AppType a) w in
    let ev := EvDescribeApp domain_id user_profile_name (AppName a) (AppType a) r in
    match r with
    | Ok _ =>
        if calls_for_delete r then
          let '(r2, w2) :=
            cli_delete_app cli domain_id user_profile_name (AppName a) (AppType a) w1 in
          let '(o, w3, t3) := delete_apps cli domain_id user_profile_name rest w2 in
          (o, w3,
           ev :: EvDeleteApp domain_id user_profile_name (AppName a) (AppType a) r2 :: t3)
        else
          let '(o, w3, t3) := delete_apps cli domain_id user_profile_name rest w1 in
          (o, w3, ev :: t3)
    | Err ResourceNotFound =>
        let '(o, w3, t3) := delete_apps cli domain_id user_profile_name rest w1 in
        (o, w3, ev :: t3)
    | Err ResourceInUse => (Ret Return, w1, [ev])
    | Err e => (Raise e, w1, [ev])
    end.
Proof.
  cbn [delete_apps]. unfold bind at 1. unfold try_except, bind at 1.
  unfold describe_app, invoke.
  destruct (cli_describe_app _ _ _ _ _ _) as [[response | e] w1].
  - unfold calls_for_delete, deletion_under_way.
    destruct (Status response =? "Deleted"), (Status response =? "Deleting"); cbn.
    all: try (unfold bind at 1; rewrite delete_app_run;
              destruct (cli_delete_app _ _ _ _ _ _) as [r2 w2]; cbn).
    all: now destruct (delete_apps _ _ _ rest _) as [[o w3] t3].
  - destruct e; reflexivity.
Qed.

(** Case analysis of one iteration of that loop. *)
Ltac delete_apps_step H :=
  rewrite delete_apps_cons in H;
  let r2 := fresh "r2" in let w2 := fresh "w2" in
  let o := fresh "o" in let w3 := fresh "w3" in let t3 := fresh "t3" in
  let Erest := fresh "Erest" in
  destruct (cli_describe_app _ _ _ _ _ _) as [[? | []] ?];
  cbn zeta in H;
  [ destruct (calls_for_delete _) eqn:?;
    [ destruct (cli_delete_app _ _ _ _ _ _) as [r2 w2] |];
    destruct (delete_apps _ _ _ _ _) as [[o w3] t3] eqn:Erest
  | destruct (delete_apps _ _ _ _ _) as [[o w3] t3] eqn:Erest
  | | | ];
  inversion H; subst; clear H.

Lemma delete_apps_events user_profile_name apps w r w' t :
  delete_apps cli domain_id user_profile_name apps w = (r, w', t) ->
  Forall app_event t.
Proof.
  revert w r w' t. induction apps as [| a rest IH]; intros w r w' t Hrun.
  - inversion Hrun. constructor.
  - delete_apps_step Hrun; repeat constructor; eapply IH; eassumption.
Qed.

Lemma delete_apps_requests user_profile_name apps w r w' t :
  delete_apps cli domain_id user_profile_name apps w = (r, w', t) ->
  delete_app_requests t
  = map fst (filter (fun ar => calls_for_delete (snd ar)) (describe_app_results t)).
Proof.
  revert w r w' t. induction apps as [| a rest IH]; intros w r w' t Hrun.
  - inversion Hrun. reflexivity.
  - delete_apps_step Hrun; try apply IH in Erest;
      cbn [describe_app_results delete_app_requests filter snd];
      rewrite ?App_eta;
      try match goal with H : calls_for_delete _ = _ |- _ => rewrite H end;
      cbn; congruence.
Qed.

Lemma delete_apps_described user_profile_name apps w w' t :
  delete_apps cli domain_id user_profile_name apps w = (Ret Continue, w', t) ->
  map fst (describe_app_results t) = apps.
Proof.
  revert w w' t. induction apps as [| a rest IH]; intros w w' t Hrun.
  - inversion Hrun. reflexivity.
  - delete_apps_step Hrun; apply IH in Erest; cbn; rewrite App_eta; congruence.
Qed.

(** The loop has no iteration that is not driven by the list. *)
Lemma delete_apps_total user_profile_name apps w w' t :
  delete_apps cli domain_id user_profile_name apps w <> (Diverge, w', t).
Proof.
  revert w w' t. induction apps as [| a rest IH]; intros w w' t Hrun.
  - inversion Hrun.
  - delete_apps_step Hrun; eapply IH; eassumption.
Qed.



(** One status query of a polling pass. *)
Lemma count_deleted_cons user_profile_name a rest c w :
  count_deleted cli domain_id user_profile_name (a :: rest) c w
  = let '(r, w1) :=
      cli_describe_app cli domain_id user_profile_name (AppName a) (AppType a) w in
    let ev := EvDescribeApp domain_id user_profile_name (AppName a) (AppType a) r in
    match r with
    | Ok _ =>
        let '(o, w2, t2) :=
          count_deleted cli domain_id user_profile_name rest
            (if terminal_answerb r then c + 1 else c) w1 in
        (o, w2, ev :: t2)
    | Err e => (Raise e, w1, [ev])
    end.
Proof.
  cbn [count_deleted]. unfold bind at 1. unfold describe_app, invoke.
  destruct (cli_describe_app _ _ _ _ _ _) as [[response | e] w1]; reflexivity.
Qed.

(** A polling pass queries the apps in order until one query raises, and
    counts the terminal answers. *)
Lemma count_deleted_run user_profile_name apps c w r w' t :
  count_deleted cli domain_id user_profile_name apps c w = (r, w', t) ->
  exists answers,
    t = describe_events domain_id user_profile_name answers
    /\ match r with
       | Ret n =>
           map fst answers = apps
           /\ n = c + length (filter (fun ar => terminal_answerb (snd ar)) answers)
       | Raise e => exists before a, answers = before ++ [(a, Err e)]
       | Diverge => False
       end.
Proof.
  revert c w r w' t. induction apps as [| a rest IH]; intros c w r w' t Hrun.
  - inversion Hrun; subst. exists []. cbn. split; [reflexivity |]. split; [reflexivity | lia].
  - rewrite count_deleted_cons in Hrun.
    destruct (cli_describe_app _ _ _ _ _ _) as [[response | e] w1]; cbn zeta in Hrun.
    + destruct (count_deleted _ _ _ rest _ _) as [[o w2] t2] eqn:Erest.
      apply IH in Erest. destruct Erest as [answers [Ht Ho]].
      inversion Hrun; subst; clear Hrun.
      exists ((a, Ok response) :: answers). split; [reflexivity |].
      destruct r as [n | e |]; [| | contradiction].
      * destruct Ho as [Hfst Hn]. split; [cbn; congruence |].
        cbn [filter snd length]. destruct (terminal_answerb (Ok response)); cbn; lia.
      * destruct Ho as [before [a' Heq]]. exists ((a, Ok response) :: before), a'.
        now rewrite Heq.
    + inversion Hrun; subst; clear Hrun.
      exists [(a, Err e)]. split; [reflexivity |]. now exists [], a.
Qed.

Lemma filter_keeps_all {A} (f : A -> bool) (l : list A) :
  length l <= length (filter f l) -> Forall (fun x => f x = true) l.
Proof.
  induction l as [| x l IH]; cbn; intros Hlen; [constructor |].
  pose proof (filter_length_le f l) as Hle.
  destruct (f x) eqn:Ef; cbn in Hlen.
  - constructor; [assumption | apply IH; lia].
  - lia.
Qed.

Lemma filter_all_kept {A} (f : A -> bool) (l : list A) :
  Forall (fun x => f x = true) l -> length (filter f l) = length l.
Proof.
  induction 1 as [| x l Hx _ IH]; cbn; [reflexivity |]. rewrite Hx. cbn. now rewrite IH.
Qed.

(** The polling loop, one iteration unfolded. *)
Lemma wait_apps_deleted_S fuel user_profile_name apps c elapsed w :
  wait_apps_deleted cli domain_id (S fuel) user_profile_name apps c elapsed w
  = if (c <? length apps)%nat then
      match count_deleted cli domain_id user_profile_name apps 0 w with
      | (Ret n, w1, t1) =>
          let '(o, w2, t2) :=
            wait_apps_deleted cli domain_id fuel user_profile_name apps n
              (elapsed + 5) (cli_sleep cli 5 w1) in
          (o, w2, t1 ++ EvSleep 5 :: t2)
      | (Raise e, w1, t1) => (Raise e, w1, t1)
      | (Diverge, w1, t1) => (Diverge, w1, t1)
      end
    else (Ret tt, w, []).
Proof.
  cbn [wait_apps_deleted]. destruct (c <? length apps)%nat; [| reflexivity].
  unfold bind at 1. unfold poll_tick. unfold bind at 1.
  destruct (count_deleted _ _ _ _ _ _) as [[[n | e |] w1] t1]; try reflexivity.
  cbn. destruct (wait_apps_deleted _ _ _ _ _ _ _ _) as [[o w2] t2].
  now rewrite <- app_assoc.
Qed.

Lemma wait_apps_deleted_0 user_profile_name apps c elapsed w :
  wait_apps_deleted cli domain_id 0 user_profile_name apps c elapsed w
  = if (c <? length apps)%nat then (Diverge, w, []) else (Ret tt, w, []).
Proof. cbn [wait_apps_deleted]. destruct (c <? length apps)%nat; reflexivity. Qed.

(** Case analysis of one iteration of the polling loop. *)
Ltac wait_step H :=
  rewrite ?wait_apps_deleted_S, ?wait_apps_deleted_0 in H;
  let Hc := fresh "Hc" in
  let n := fresh "n" in let w1 := fresh "w1" in let t1 := fresh "t1" in
  let Epass := fresh "Epass" in
  let o := fresh "o" in let w2 := fresh "w2" in let t2 := fresh "t2" in
  let Erest := fresh "Erest" in
  destruct (_ <? length _)%nat eqn:Hc;
  [ try (destruct (count_deleted _ _ _ _ _ _) as [[[n | ? |] w1] t1] eqn:Epass;
         [ destruct (wait_apps_deleted _ _ _ _ _ _ _ _) as [[o w2] t2] eqn:Erest
         | | ])
  | ];
  inversion H; subst; clear H.

Lemma wait_apps_deleted_events fuel user_profile_name apps c elapsed w r w' t :
  wait_apps_deleted cli domain_id fuel user_profile_name apps c elapsed w = (r, w', t) ->
  Forall polling_event t.
Proof.
  revert c elapsed w r w' t.
  induction fuel as [| fuel IH]; intros c elapsed w r w' t Hrun; wait_step Hrun;
    try constructor.
  - apply count_deleted_run in Epass. destruct Epass as [answers [Ht _]]. subst t1.
    apply Forall_app. split; [apply polling_describe_events |].
    constructor; [exact I | eapply IH; eassumption].
  - apply count_deleted_run in Epass. destruct Epass as [answers [Ht _]]. subst t.
    apply polling_describe_events.
  - apply count_deleted_run in Epass. now destruct Epass as [answers [_ []]].
Qed.

(** The loop is left normally only when a whole pass has counted every
    app as [Deleted] or [Failed]. *)
Lemma wait_apps_deleted_returns fuel user_profile_name apps c elapsed w u w' t :
  wait_apps_deleted cli domain_id fuel user_profile_name apps c elapsed w = (Ret u, w', t) ->
  (length apps <= c /\ t = [])
  \/ exists before answers,
       t = before ++ describe_events domain_id user_profile_name answers ++ [EvSleep 5]
       /\ map fst answers = apps
       /\ Forall (fun ar => answers_terminal (snd ar)) answers.
Proof.
  revert c elapsed w w' t.
  induction fuel as [| fuel IH]; intros c elapsed w w' t Hrun; wait_step Hrun.
  - left. apply Nat.ltb_ge in Hc. now split.
  - right. apply IH in Erest. apply count_deleted_run in Epass.
    destruct Epass as [answers [Ht [Hfst Hn]]]. subst t1.
    destruct Erest as [[Hlen Hnil] | [before [answers' [Ht [Hfst' Hall]]]]].
    + subst t2. exists [], answers. repeat split; [assumption |].
      assert (Hkept : length answers <= length (filter (fun ar => terminal_answerb (snd ar)) answers)).
      { rewrite <- (length_map fst answers), Hfst. lia. }
      apply filter_keeps_all in Hkept.
      eapply Forall_impl; [| exact Hkept].
      intros ar Har. now apply terminal_answerb_spec.
    + subst t2.
      exists (describe_events domain_id user_profile_name answers ++ EvSleep 5 :: before),
             answers'.
      repeat split; [| assumption | assumption].
      now rewrite <- app_assoc.
  - left. apply Nat.ltb_ge in Hc. now split.
Qed.

(** Every tick of the loop queries every app of the list, in order. *)
Lemma wait_apps_deleted_queries fuel user_profile_name apps c elapsed w r w' t :
  wait_apps_deleted cli domain_id fuel user_profile_name apps c elapsed w = (r, w', t) ->
  (forall e, r <> Raise e) ->
  map fst (describe_app_results t) = concat (repeat apps (ticks t)).
Proof.
  revert c elapsed w r w' t.
  induction fuel as [| fuel IH]; intros c elapsed w r w' t Hrun Hr; wait_step Hrun;
    try reflexivity.
  - apply count_deleted_run in Epass. destruct Epass as [answers [Ht [Hfst Hn]]]. subst t1.
    rewrite describe_app_results_app, ticks_app, map_app.
    rewrite describe_app_results_events, ticks_describe_events, Hfst.
    cbn. f_equal. eapply IH; eassumption.
  - now destruct (Hr e).
  - apply count_deleted_run in Epass. now destruct Epass as [answers [_ []]].
Qed.

(** The loop gives up at no tick: the fuel runs out only after as many
    ticks as there was fuel. *)
Lemma wait_apps_deleted_ticks fuel user_profile_name apps c elapsed w r w' t :
  wait_apps_deleted cli domain_id fuel user_profile_name apps c elapsed w = (r, w', t) ->
  ticks t <= fuel /\ (r = Diverge -> ticks t = fuel).
Proof.
  revert c elapsed w r w' t.
  induction fuel as [| fuel IH]; intros c elapsed w r w' t Hrun; wait_step Hrun;
    cbn; try (split; [lia | intros; (reflexivity || discriminate)]).
  - apply count_deleted_run in Epass. destruct Epass as [answers [Ht [Hfst Hn]]]. subst t1.
    apply IH in Erest. rewrite ticks_app, ticks_describe_events. cbn.
    destruct Erest as [Hle Hd]. split; [lia | intros Hdiv; rewrite (Hd Hdiv); reflexivity].
  - apply count_deleted_run in Epass. destruct Epass as [answers [Ht _]]. subst t.
    rewrite ticks_describe_events. split; [lia | discriminate].
  - apply count_deleted_run in Epass. now destruct Epass as [answers [_ []]].
Qed.

(** An exception that leaves the loop was raised by a status query. *)
Lemma wait_apps_deleted_raise fuel user_profile_name apps c elapsed w e w' t :
  wait_apps_deleted cli domain_id fuel user_profile_name apps c elapsed w = (Raise e, w', t) ->
  exists before a,
    t = before ++ [EvDescribeApp domain_id user_profile_name (AppName a) (AppType a) (Err e)].
Proof.
  revert c elapsed w w' t.
  induction fuel as [| fuel IH]; intros c elapsed w w' t Hrun; wait_step Hrun.
  - apply IH in Erest. destruct Erest as [before [a Ht]]. subst t2.
    exists (t1 ++ EvSleep 5 :: before), a. now rewrite <- app_assoc.
  - apply count_deleted_run in Epass.
    destruct Epass as [answers [Ht [before [a Hans]]]]. subst t answers.
    exists (describe_events domain_id user_profile_name before), a.
    unfold describe_events. now rewrite map_app.
Qed.

(** More fuel does not change a run that ended. *)
Lemma wait_apps_deleted_fuel fuel fuel' user_profile_name apps c elapsed w r w' t :
  wait_apps_deleted cli domain_id fuel user_profile_name apps c elapsed w = (r, w', t) ->
  r <> Diverge -> fuel <= fuel' ->
  wait_apps_deleted cli domain_id fuel' user_profile_name apps c elapsed w = (r, w', t).
Proof.
  revert fuel' c elapsed w r w' t.
  induction fuel as [| fuel IH]; intros fuel' c elapsed w r w' t Hrun Hr Hle.
  - wait_step Hrun; [contradiction |].
    destruct fuel'; rewrite ?wait_apps_deleted_S, ?wait_apps_deleted_0, Hc; reflexivity.
  - destruct fuel' as [| fuel']; [lia |].
    rewrite wait_apps_deleted_S. wait_step Hrun; rewrite ?Epass; try reflexivity.
    erewrite IH; [reflexivity | eassumption | assumption | lia].
Qed.

(** A pass in which every app reports [Deleted] or [Failed] ends the loop. *)
Lemma wait_apps_deleted_converged fuel user_profile_name apps c elapsed w n w1 t1 :
  (c < length apps)%nat ->
  count_deleted cli domain_id user_profile_name apps 0 w = (Ret n, w1, t1) ->
  Forall (fun ar => answers_terminal (snd ar)) (describe_app_results t1) ->
  wait_apps_deleted cli domain_id (S fuel) user_profile_name apps c elapsed w
  = (Ret tt, cli_sleep cli 5 w1, t1 ++ [EvSleep 5]).
Proof.
  intros Hc Hpass Hall. rewrite wait_apps_deleted_S, Hpass.
  apply Nat.ltb_lt in Hc. rewrite Hc.
  apply count_deleted_run in Hpass. destruct Hpass as [answers [Ht [Hfst Hn]]]. subst t1.
  rewrite describe_app_results_events in Hall.
  assert (Hlen : n = length apps).
  { rewrite Hn, <- Hfst, length_map. cbn. apply filter_all_kept.
    eapply Forall_impl; [| exact Hall]. intros ar Har. now apply terminal_answerb_spec. }
  assert (Hstop : (n <? length apps)%nat = false) by (apply Nat.ltb_ge; lia).
  destruct fuel; rewrite ?wait_apps_deleted_S, ?wait_apps_deleted_0, Hstop; reflexivity.
Qed.

(** The teardown of a profile, phase by phase. *)
Lemma delete_user_profile_unfold fuel user_profile_name w :
  delete_user_profile cli domain_id fuel user_profile_name w
  = let '(r1, w1) := cli_describe_user_profile cli domain_id user_profile_name w in
    let ev1 := EvDescribeUserProfile domain_id user_profile_name r1 in
    match r1 with
    | Err ResourceNotFound => (Ret None, w1, [ev1])
    | Err e => (Raise e, w1, [ev1])
    | Ok _ =>
        let '(r2, w2) := cli_list_apps cli domain_id user_profile_name w1 in
        let ev2 := EvListApps domain_id user_profile_name r2 in
        match r2 with
        | Err e => (Raise e, w2, [ev1; ev2])
        | Ok apps =>
            match delete_apps cli domain_id user_profile_name apps w2 with
            | (Ret Continue, w3, t3) =>
                match wait_apps_deleted cli domain_id fuel user_profile_name apps 0 0 w3 with
                | (Ret _, w4, t4) =>
                    let '(r5, w5) :=
                      cli_delete_user_profile cli domain_id user_profile_name w4 in
                    (match r5 with
                     | Ok response => Ret (Some response)
                     | Err e => Raise e
                     end,
                     w5,
                     ev1 :: ev2 :: t3 ++ t4
                     ++ [EvDeleteUserProfile domain_id user_profile_name r5])
                | (Raise e, w4, t4) => (Raise e, w4, ev1 :: ev2 :: t3 ++ t4)
                | (Diverge, w4, t4) => (Diverge, w4, ev1 :: ev2 :: t3 ++ t4)
                end
            | (Ret Return, w3, t3) => (Ret None, w3, ev1 :: ev2 :: t3)
            | (Raise e, w3, t3) => (Raise e, w3, ev1 :: ev2 :: t3)
            | (Diverge, w3, t3) => (Diverge, w3, ev1 :: ev2 :: t3)
            end
        end
    end.
Proof.
  unfold delete_user_profile, describe_user_profile, list_apps.
  unfold bind at 1. unfold try_except, bind at 1. unfold invoke at 1.
  destruct (cli_describe_user_profile _ _ _ _) as [[p | e] w1]; cbn.
  - unfold bind at 1. unfold invoke at 1.
    destruct (cli_list_apps _ _ _ _) as [[apps | e] w2]; cbn; [| reflexivity].
    unfold bind at 1.
    destruct (delete_apps _ _ _ _ _) as [[[[|] | e |] w3] t3]; cbn;
      rewrite ?app_nil_r; try reflexivity.
    unfold bind at 1.
    destruct (wait_apps_deleted _ _ _ _ _ _ _ _) as [[[[] | e |] w4] t4]; cbn;
      try reflexivity.
    unfold bind, invoke, ret.
    destruct (cli_delete_user_profile _ _ _ _) as [[response | e] w5]; cbn;
      rewrite ?app_nil_r; reflexivity.
  - destruct e; reflexivity.
Qed.

Lemma py_in_str_dicts user_profile_name listed :
  py_in (PyStr user_profile_name) (map PyDict listed) = false.
Proof. induction listed as [| p listed IH]; [reflexivity | exact IH]. Qed.

(** The wait for the profile to leave the listing: one listing, one sleep. *)
Lemma wait_unlisted_run fuel user_profile_name w :
  wait_unlisted cli domain_id fuel user_profile_name w
  = let '(r, w1) := cli_list_user_profiles cli domain_id w in
    match r with
    | Ok _ => (Ret tt, cli_sleep cli 5 w1, [EvListUserProfiles domain_id r; EvSleep 5])
    | Err e => (Raise e, w1, [EvListUserProfiles domain_id r])
    end.
Proof.
  destruct fuel; cbn [wait_unlisted]; unfold bind, list_user_profiles, invoke;
    destruct (cli_list_user_profiles _ _ _) as [[listed | e] w1];
    rewrite ?py_in_str_dicts; reflexivity.
Qed.

(** The replacement of one profile, step by step. *)
Lemma recreate_user_profile_unfold fuel i w :
  recreate_user_profile cli domain_id fuel i w
  = match delete_user_profile cli domain_id fuel (UserProfileName i) w with
    | (Ret _, w1, t1) =>
        let '(r2, w2) := cli_list_user_profiles cli domain_id w1 in
        let ev2 := EvListUserProfiles domain_id r2 in
        match r2 with
        | Err e => (Raise e, w2, t1 ++ [ev2])
        | Ok _ =>
            let w3 := cli_sleep cli 5 w2 in
            match UserSettings i with
            | None => (Raise (KeyError "UserSettings"), w3, t1 ++ [ev2; EvSleep 5])
            | Some settings =>
                match ExecutionRole settings with
                | None => (Raise (KeyError "ExecutionRole"), w3, t1 ++ [ev2; EvSleep 5])
                | Some role =>
                    let '(r4, w4) :=
                      cli_create_user_profile cli domain_id (UserProfileName i) role w3 in
                    (match r4 with Ok _ => Ret tt | Err e => Raise e end, w4,
                     t1 ++ [ev2; EvSleep 5;
                            EvCreateUserProfile domain_id (UserProfileName i) role r4])
                end
            end
        end
    | (Raise e, w1, t1) => (Raise e, w1, t1)
    | (Diverge, w1, t1) => (Diverge, w1, t1)
    end.
Proof.
  unfold recreate_user_profile. unfold bind at 1.
  destruct (delete_user_profile _ _ _ _ _) as [[[u | e |] w1] t1]; try reflexivity.
  unfold bind at 1. rewrite wait_unlisted_run.
  destruct (cli_list_user_profiles _ _ _) as [[listed | e] w2]; [| reflexivity].
  unfold execution_role_of, bind at 1.
  destruct (UserSettings i) as [[[role |]] |]; cbn; rewrite ?app_nil_r; try reflexivity.
  unfold bind, create_user_profile, invoke, ret.
  destruct (cli_create_user_profile _ _ _ _ _) as [[response | e] w4]; cbn;
    rewrite ?app_nil_r; reflexivity.
Qed.

Lemma described_profiles_app_event t :
  Forall app_event t -> described_profiles t = [].
Proof.
  induction 1 as [| ev t Hev _ IH]; [reflexivity |].
  destruct ev; cbn in *; (contradiction || assumption).
Qed.

Lemma described_profiles_polling t :
  Forall polling_event t -> described_profiles t = [].
Proof.
  induction 1 as [| ev t Hev _ IH]; [reflexivity |].
  destruct ev; cbn in *; (contradiction || assumption).
Qed.

Lemma create_requests_app_event t :
  Forall app_event t -> create_requests t = [].
Proof.
  induction 1 as [| ev t Hev _ IH]; [reflexivity |].
  destruct ev; cbn in *; (contradiction || assumption).
Qed.

Lemma create_requests_polling t :
  Forall polling_event t -> create_requests t = [].
Proof.
  induction 1 as [| ev t Hev _ IH]; [reflexivity |].
  destruct ev; cbn in *; (contradiction || assumption).
Qed.

(** A teardown describes its profile once and creates nothing. *)
Lemma delete_user_profile_log fuel user_profile_name w r w' t :
  delete_user_profile cli domain_id fuel user_profile_name w = (r, w', t) ->
  described_profiles t = [user_profile_name] /\ create_requests t = [].
Proof.
  rewrite delete_user_profile_unfold.
  destruct (cli_describe_user_profile _ _ _ _) as [[p | e] w1]; cbn zeta.
  - destruct (cli_list_apps _ _ _ _) as [[apps | e] w2]; cbn zeta.
    + destruct (delete_apps _ _ _ _ _) as [[o w3] t3] eqn:Edel.
      apply delete_apps_events in Edel.
      pose proof (described_profiles_app_event _ Edel) as Hd3.
      pose proof (create_requests_app_event _ Edel) as Hc3.
      destruct o as [[|] | e |].
      * destruct (wait_apps_deleted _ _ _ _ _ _ _ _) as [[o4 w4] t4] eqn:Ewait.
        apply wait_apps_deleted_events in Ewait.
        pose proof (described_profiles_polling _ Ewait) as Hd4.
        pose proof (create_requests_polling _ Ewait) as Hc4.
        destruct o4 as [[] | e |].
        -- destruct (cli_delete_user_profile _ _ _ _) as [r5 w5].
           intros Hrun; inversion Hrun; subst; clear Hrun. cbn.
           rewrite !described_profiles_app, !create_requests_app, Hd3, Hd4, Hc3, Hc4.
           now split.
        -- intros Hrun; inversion Hrun; subst; clear Hrun. cbn.
           rewrite !described_profiles_app, !create_requests_app, Hd3, Hd4, Hc3, Hc4.
           now split.
        -- intros Hrun; inversion Hrun; subst; clear Hrun. cbn.
           rewrite !described_profiles_app, !create_requests_app, Hd3, Hd4, Hc3, Hc4.
           now split.
      * intros Hrun; inversion Hrun; subst; clear Hrun. cbn. now rewrite Hd3, Hc3.
      * intros Hrun; inversion Hrun; subst; clear Hrun. cbn. now rewrite Hd3, Hc3.
      * intros Hrun; inversion Hrun; subst; clear Hrun. cbn. now rewrite Hd3, Hc3.
    + intros Hrun; inversion Hrun; subst. now split.
  - destruct e; intros Hrun; inversion Hrun; subst; now split.
Qed.
End Runs.

(** ** The child delete operation *)

(** C8 (as amended).  [delete_app] propagates no failure: it returns the
    response when the control plane accepts the request and [None] for every
    exception the request raises, absence and every other condition alike. *)
Theorem delete_app_never_raises {World : Type} (cli : Client World)
    (domain_id : option string) (user_profile_name app_name app_type : string)
    (w : World) :
  fst (fst (delete_app cli domain_id user_profile_name app_name app_type w))
  = Ret (match fst (cli_delete_app cli domain_id user_profile_name app_name app_type w) with
         | Ok response => Some response
         | Err _ => None
         end)
  /\ snd (delete_app cli domain_id user_profile_name app_name app_type w)
     = [EvDeleteApp domain_id user_profile_name app_name app_type
          (fst (cli_delete_app cli domain_id user_profile_name app_name app_type w))].
Proof.
  rewrite delete_app_run.
  destruct (cli_delete_app _ _ _ _ _ _) as [r w1]. split; reflexivity.
Qed.

(** C8, counterexample.  The control plane denies the deletion of A for lack
    of permission; [delete_app] returns [None] and raises nothing. *)
Example delete_app_swallows_access_denied :
  delete_app (scripted denied_delete) None "prof-1" "A" "JupyterServer" 0
  = (Ret None, 0,
     [EvDeleteApp None "prof-1" "A" "JupyterServer"
        (Err (OtherError "AccessDeniedException"))]).
Proof. reflexivity. Qed.

(** ** The child-delete phase of the teardown *)

Lemma calls_for_delete_spec r :
  calls_for_delete r = true
  <-> exists response,
        r = Ok response
        /\ Status response <> "Deleted" /\ Status response <> "Deleting".
Proof.
  destruct r as [response | e]; cbn.
  - unfold deletion_under_way. rewrite negb_true_iff, orb_false_iff, !String.eqb_neq.
    split.
    + intros [H1 H2]. now exists response.
    + intros [response' [Heq H]]. now inversion Heq; subst.
  - split; [discriminate | intros [response [Heq _]]; discriminate].
Qed.

(** C6 (as amended).  In the child-delete phase a delete request is issued
    exactly for the children whose status query answered a status other than
    [Deleted] and [Deleting], [Failed] included, in the order of the queries;
    a child whose query answered [ResourceNotFound] gets none; and a phase
    that runs to its end has queried every child of the list. *)
Theorem delete_apps_requests_exactly {World : Type} (cli : Client World)
    (domain_id : option string) (user_profile_name : string) (apps : list App)
    (w : World) (r : outcome flow) (w' : World) (t : list event) :
  delete_apps cli domain_id user_profile_name apps w = (r, w', t) ->
  delete_app_requests t
  = map fst (filter (fun ar => calls_for_delete (snd ar)) (describe_app_results t))
  /\ (forall ans,
        calls_for_delete ans = true
        <-> exists response,
              ans = Ok response
              /\ Status response <> "Deleted" /\ Status response <> "Deleting")
  /\ (r = Ret Continue -> map fst (describe_app_results t) = apps).
Proof.
  intros Hrun. split; [| split].
  - eapply delete_apps_requests. exact Hrun.
  - exact calls_for_delete_spec.
  - intros Hr. subst r. eapply delete_apps_described. exact Hrun.
Qed.

(** C6, witness: A has failed and B is deleted; the deletion of A alone is
    requested. *)
Lemma delete_apps_requests_exactly_witness :
  delete_app_requests
    [EvDescribeApp None "prof-1" "A" "JupyterServer" (reports "Failed");
     EvDeleteApp None "prof-1" "A" "JupyterServer" (Ok tt);
     EvDescribeApp None "prof-1" "B" "JupyterServer" (reports "Deleted")]
  = [app_A]
  /\ map fst
       (describe_app_results
          [EvDescribeApp None "prof-1" "A" "JupyterServer" (reports "Failed");
           EvDeleteApp None "prof-1" "A" "JupyterServer" (Ok tt);
           EvDescribeApp None "prof-1" "B" "JupyterServer" (reports "Deleted")])
     = [app_A; app_B].
Proof.
  destruct (delete_apps_requests_exactly (scripted failed_child) None "prof-1"
              [app_A; app_B] 0 (Ret Continue) 0
              [EvDescribeApp None "prof-1" "A" "JupyterServer" (reports "Failed");
               EvDeleteApp None "prof-1" "A" "JupyterServer" (Ok tt);
               EvDescribeApp None "prof-1" "B" "JupyterServer" (reports "Deleted")]
              eq_refl) as [Hreq [_ Hall]].
  split; [exact Hreq | exact (Hall eq_refl)].
Defined.

(** C6, counterexample.  A reports [Failed], a terminal status, and its
    deletion is requested all the same. *)
Example delete_requested_for_failed_child :
  delete_apps (scripted failed_child) None "prof-1" [app_A; app_B] 0
  = (Ret Continue, 0,
     [EvDescribeApp None "prof-1" "A" "JupyterServer" (reports "Failed");
      EvDeleteApp None "prof-1" "A" "JupyterServer" (Ok tt);
      EvDescribeApp None "prof-1" "B" "JupyterServer" (reports "Deleted")])
  /\ terminal "Failed".
Proof. split; [reflexivity | now right]. Qed.

(** ** The teardown of a profile *)

Lemma ticks_app_event t : Forall app_event t -> ticks t = 0.
Proof.
  induction 1 as [| ev t Hev _ IH]; [reflexivity |].
  destruct ev; cbn in *; (contradiction || assumption).
Qed.

Lemma no_request_in_log before d name res after :
  delete_user_profile_requests (before ++ EvDeleteUserProfile d name res :: after) <> [].
Proof.
  rewrite delete_user_profile_requests_app. cbn.
  destruct (delete_user_profile_requests before); discriminate.
Qed.

Section Teardown.
Context {World : Type}.
Variable cli : Client World.
Variable domain_id : option string.

(** A polling loop that is still running after [k] ticks goes on from the
    state it has reached: the ticks done so far are not repeated and no
    tick is the last one for lack of patience. *)
Lemma wait_apps_deleted_resume k m user_profile_name apps c elapsed w wk tk :
  wait_apps_deleted cli domain_id k user_profile_name apps c elapsed w = (Diverge, wk, tk) ->
  exists ck ek,
    ck < length apps
    /\ wait_apps_deleted cli domain_id (k + m) user_profile_name apps c elapsed w
       = let '(r, w', t') :=
           wait_apps_deleted cli domain_id m user_profile_name apps ck ek wk in
         (r, w', tk ++ t').
Proof.
  revert c elapsed w wk tk.
  induction k as [| k IH]; intros c elapsed w wk tk Hrun.
  - rewrite wait_apps_deleted_0 in Hrun.
    destruct (c <? length apps)%nat eqn:Hc; [| discriminate Hrun].
    injection Hrun as <- <-. exists c, elapsed. apply Nat.ltb_lt in Hc.
    split; [assumption |]. cbn [Nat.add].
    now destruct (wait_apps_deleted _ _ _ _ _ _ _ _) as [[r w'] t'].
  - rewrite wait_apps_deleted_S in Hrun.
    destruct (c <? length apps)%nat eqn:Hc; [| discriminate Hrun].
    destruct (count_deleted _ _ _ _ _ _) as [[[n | e |] w1] t1] eqn:Epass.
    + destruct (wait_apps_deleted _ _ k _ _ _ _ _) as [[o w2] t2] eqn:Erest.
      injection Hrun as -> <- <-.
      destruct (IH _ _ _ _ _ Erest) as (ck & ek & Hck & Hresume).
      exists ck, ek. split; [assumption |].
      cbn [Nat.add]. rewrite wait_apps_deleted_S, Hc, Epass, Hresume.
      destruct (wait_apps_deleted _ _ m _ _ _ _ _) as [[r w'] t'].
      now rewrite <- app_assoc.
    + discriminate Hrun.
    + apply count_deleted_run in Epass. now destruct Epass as [answers [_ []]].
Qed.

(** A teardown requests the deletion of the profile at most once, as its
    last act, after it listed the apps, the delete phase ran to its end and
    the polling loop returned. *)
Lemma delete_user_profile_request_run fuel user_profile_name w r w' t :
  delete_user_profile cli domain_id fuel user_profile_name w = (r, w', t) ->
  delete_user_profile_requests t = []
  \/ exists p w1 apps w2 w3 t3 w4 t4 res,
       cli_describe_user_profile cli domain_id user_profile_name w = (Ok p, w1)
       /\ cli_list_apps cli domain_id user_profile_name w1 = (Ok apps, w2)
       /\ t = EvDescribeUserProfile domain_id user_profile_name (Ok p)
              :: EvListApps domain_id user_profile_name (Ok apps)
              :: t3 ++ t4 ++ [EvDeleteUserProfile domain_id user_profile_name res]
       /\ delete_apps cli domain_id user_profile_name apps w2 = (Ret Continue, w3, t3)
       /\ wait_apps_deleted cli domain_id fuel user_profile_name apps 0 0 w3
          = (Ret tt, w4, t4).
Proof.
  rewrite delete_user_profile_unfold.
  destruct (cli_describe_user_profile _ _ _ _) as [[p | e] w1] eqn:Hdesc; cbn zeta.
  - destruct (cli_list_apps _ _ _ _) as [[apps | e] w2] eqn:Hlist; cbn zeta.
    + destruct (delete_apps _ _ _ _ _) as [[o w3] t3] eqn:Edel.
      pose proof (delete_user_profile_requests_app_event _
                    (delete_apps_events _ _ _ _ _ _ _ _ Edel)) as H3.
      destruct o as [[|] | e |].
      * destruct (wait_apps_deleted _ _ _ _ _ _ _ _) as [[o4 w4] t4] eqn:Ewait.
        pose proof (delete_user_profile_requests_polling _
                      (wait_apps_deleted_events _ _ _ _ _ _ _ _ _ _ _ Ewait)) as H4.
        destruct o4 as [[] | e |].
        -- destruct (cli_delete_user_profile _ _ _ _) as [r5 w5].
           intros Hrun; inversion Hrun; subst; clear Hrun. right.
           now exists p, w1, apps, w2, w3, t3, w4, t4, r5.
        -- intros Hrun; inversion Hrun; subst; clear Hrun. left. cbn.
           now rewrite delete_user_profile_requests_app, H3, H4.
        -- intros Hrun; inversion Hrun; subst; clear Hrun. left. cbn.
           now rewrite delete_user_profile_requests_app, H3, H4.
      * intros Hrun; inversion Hrun; subst; clear Hrun. now left.
      * intros Hrun; inversion Hrun; subst; clear Hrun. now left.
      * intros Hrun; inversion Hrun; subst; clear Hrun. now left.
    + intros Hrun; inversion Hrun; subst. now left.
  - destruct e; intros Hrun; inversion Hrun; subst; now left.
Qed.

(** C1.  Whenever a teardown requests the deletion of the profile, the
    request is its last interaction; before it the teardown has listed the
    apps of the profile, the children are the apps the control plane
    answered to that listing, and for every one of them the latest status
    query before the request answered [Deleted] or [Failed].  A failed
    child does not hold the request back: as soon as a polling pass, the
    first or any later one, finds every child [Deleted] or [Failed], the
    teardown sleeps once more and requests the deletion of the profile. *)
Theorem parent_delete_only_after_children_terminal
    (fuel : nat) (user_profile_name : string) (w : World)
    (r : outcome (option Response)) (w' : World) (t : list event) :
  delete_user_profile cli domain_id fuel user_profile_name w = (r, w', t) ->
  (forall before d name res after,
      t = before ++ EvDeleteUserProfile d name res :: after ->
      after = [] /\ d = domain_id /\ name = user_profile_name
      /\ (exists p w1 apps w2,
            cli_describe_user_profile cli domain_id user_profile_name w = (Ok p, w1)
            /\ cli_list_apps cli domain_id user_profile_name w1 = (Ok apps, w2)
            /\ listed_apps before = Some apps
            /\ forall a,
                 In a apps ->
                 exists ans,
                   last_status user_profile_name a before = Some ans
                   /\ answers_terminal ans)
      /\ forall apps a,
           listed_apps before = Some apps -> In a apps ->
           exists ans,
             last_status user_profile_name a before = Some ans
             /\ answers_terminal ans)
  /\ (forall p w1 apps w2 w3 t3 n w4 t4,
        cli_describe_user_profile cli domain_id user_profile_name w = (Ok p, w1) ->
        cli_list_apps cli domain_id user_profile_name w1 = (Ok apps, w2) ->
        delete_apps cli domain_id user_profile_name apps w2 = (Ret Continue, w3, t3) ->
        count_deleted cli domain_id user_profile_name apps 0 w3 = (Ret n, w4, t4) ->
        Forall (fun ar => answers_terminal (snd ar)) (describe_app_results t4) ->
        0 < fuel ->
        exists before res,
          t = before ++ [EvDeleteUserProfile domain_id user_profile_name res])
  /\ (forall k p w1 apps w2 w3 t3 wk tk n w4 t4,
        cli_describe_user_profile cli domain_id user_profile_name w = (Ok p, w1) ->
        cli_list_apps cli domain_id user_profile_name w1 = (Ok apps, w2) ->
        delete_apps cli domain_id user_profile_name apps w2 = (Ret Continue, w3, t3) ->
        wait_apps_deleted cli domain_id k user_profile_name apps 0 0 w3
        = (Diverge, wk, tk) ->
        count_deleted cli domain_id user_profile_name apps 0 wk = (Ret n, w4, t4) ->
        Forall (fun ar => answers_terminal (snd ar)) (describe_app_results t4) ->
        k < fuel ->
        ticks tk = k
        /\ t = EvDescribeUserProfile domain_id user_profile_name (Ok p)
               :: EvListApps domain_id user_profile_name (Ok apps)
               :: t3 ++ tk ++ t4
               ++ [EvSleep 5;
                   EvDeleteUserProfile domain_id user_profile_name
                     (fst (cli_delete_user_profile cli domain_id user_profile_name
                             (cli_sleep cli 5 w4)))]).
Proof.
  intros Hrun. split; [| split].
  - intros before d name res after Ht.
    destruct (delete_user_profile_request_run _ _ _ _ _ _ Hrun)
      as [Hnone | (p & w1 & apps & w2 & w3 & t3 & w4 & t4 & res' & Hdesc & Hlist & Ht'
                   & Hdel & Hwait)].
    + exfalso. rewrite Ht in Hnone. revert Hnone. apply no_request_in_log.
    + set (l := EvDescribeUserProfile domain_id user_profile_name (Ok p)
                :: EvListApps domain_id user_profile_name (Ok apps) :: t3 ++ t4).
      assert (Hl : delete_user_profile_requests l = []).
      { unfold l. cbn. rewrite delete_user_profile_requests_app.
        rewrite (delete_user_profile_requests_app_event _
                   (delete_apps_events _ _ _ _ _ _ _ _ Hdel)).
        now rewrite (delete_user_profile_requests_polling _
                       (wait_apps_deleted_events _ _ _ _ _ _ _ _ _ _ _ Hwait)). }
      assert (Heq : l ++ [EvDeleteUserProfile domain_id user_profile_name res']
                    = before ++ EvDeleteUserProfile d name res :: after).
      { rewrite <- Ht, Ht'. unfold l. cbn. now rewrite <- app_assoc. }
      destruct (sole_request_last _ _ _ _ _ _ _ Hl Heq) as [Hafter [Hbefore Hev]].
      inversion Hev; subst d name res.
      assert (Hterminal : forall a, In a apps ->
                exists ans, last_status user_profile_name a before = Some ans
                            /\ answers_terminal ans).
      { intros a Hin. subst before. unfold l.
        apply wait_apps_deleted_returns in Hwait.
        destruct Hwait as [[Hlen _] | (pre & answers & Ht4 & Hfst & Hall)].
        - destruct apps; [contradiction | cbn in Hlen; lia].
        - subst t4.
          change (EvDescribeUserProfile domain_id user_profile_name (Ok p)
                  :: EvListApps domain_id user_profile_name (Ok apps)
                  :: t3 ++ pre ++ describe_events domain_id user_profile_name answers
                     ++ [EvSleep 5])
            with ([EvDescribeUserProfile domain_id user_profile_name (Ok p);
                   EvListApps domain_id user_profile_name (Ok apps)]
                  ++ t3 ++ pre ++ describe_events domain_id user_profile_name answers
                     ++ [EvSleep 5]).
          rewrite !last_status_app. cbn [last_status status_answer].
          rewrite <- Hfst in Hin.
          destruct (last_status_describe_events domain_id user_profile_name a answers Hin)
            as [ans [Hlast Hans]].
          rewrite Hlast. exists ans. split; [reflexivity |].
          apply in_map_iff in Hans. destruct Hans as [ar [Hsnd Har]]. subst ans.
          rewrite Forall_forall in Hall. now apply Hall. }
      assert (Hlisted : listed_apps before = Some apps) by (now subst before).
      split; [assumption |]. split; [reflexivity |]. split; [reflexivity |]. split.
      * now exists p, w1, apps, w2.
      * intros apps' a Hlisted' Hin. rewrite Hlisted in Hlisted'.
        injection Hlisted' as <-. now apply Hterminal.
  - intros p w1 apps w2 w3 t3 n w4 t4 Hdesc Hlist Hdel Hpass Hall Hfuel.
    rewrite delete_user_profile_unfold, Hdesc in Hrun. cbn zeta in Hrun.
    rewrite Hlist in Hrun. cbn zeta in Hrun. rewrite Hdel in Hrun.
    destruct fuel as [| fuel']; [lia |].
    destruct apps as [| a apps].
    + rewrite wait_apps_deleted_S in Hrun. cbn in Hrun.
      destruct (cli_delete_user_profile _ _ _ _) as [r5 w5].
      inversion Hrun; subst; clear Hrun.
      exists (EvDescribeUserProfile domain_id user_profile_name (Ok p)
              :: EvListApps domain_id user_profile_name (Ok []) :: t3), r5.
      reflexivity.
    + rewrite (wait_apps_deleted_converged cli domain_id fuel' user_profile_name
                 (a :: apps) 0 0 w3 n w4 t4) in Hrun;
        [| cbn; lia | assumption | assumption].
      destruct (cli_delete_user_profile _ _ _ _) as [r5 w5].
      inversion Hrun; subst; clear Hrun.
      exists (EvDescribeUserProfile domain_id user_profile_name (Ok p)
              :: EvListApps domain_id user_profile_name (Ok (a :: apps))
              :: t3 ++ t4 ++ [EvSleep 5]), r5.
      cbn. now rewrite <- !app_assoc.
  - intros k p w1 apps w2 w3 t3 wk tk n w4 t4 Hdesc Hlist Hdel Hticks Hpass Hall Hk.
    split.
    { apply wait_apps_deleted_ticks in Hticks. now apply Hticks. }
    rewrite delete_user_profile_unfold, Hdesc in Hrun. cbn zeta in Hrun.
    rewrite Hlist in Hrun. cbn zeta in Hrun. rewrite Hdel in Hrun.
    destruct (wait_apps_deleted_resume k (fuel - k) _ _ _ _ _ _ _ Hticks)
      as (ck & ek & Hck & Hresume).
    replace (k + (fuel - k)) with fuel in Hresume by lia.
    destruct (fuel - k) as [| m] eqn:Hm; [lia |].
    rewrite (wait_apps_deleted_converged cli domain_id m user_profile_name
               apps ck ek wk n w4 t4 Hck Hpass Hall) in Hresume.
    rewrite Hresume in Hrun.
    destruct (cli_delete_user_profile _ _ _ _) as [r5 w5].
    injection Hrun as _ _ <-. cbn. now rewrite <- !app_assoc.
Qed.
End Teardown.

(** C1, witness: A has failed, B is deleted; the first polling pass finds
    both terminal, the deletion of the profile is requested, and the latest
    answer about A before the request is [Failed].  Where B takes five
    seconds the second pass finds both deleted, and the request follows
    it. *)
Lemma parent_delete_only_after_children_terminal_witness :
  (exists ans,
      last_status "prof-1" app_A failed_child_log = Some ans /\ answers_terminal ans)
  /\ (exists before res,
        failed_child_log ++ [EvDeleteUserProfile None "prof-1" (Ok tt)]
        = before ++ [EvDeleteUserProfile None "prof-1" res])
  /\ snd (delete_user_profile (scripted slow_child) None 2 "prof-1" 0)
     = EvDescribeUserProfile None "prof-1" (Ok (profile "prof-1" "r1"))
       :: EvListApps None "prof-1" (Ok [app_A; app_B])
       :: [EvDescribeApp None "prof-1" "A" "JupyterServer" (reports "Deleted");
           EvDescribeApp None "prof-1" "B" "JupyterServer" (reports "InService");
           EvDeleteApp None "prof-1" "B" "JupyterServer" (Ok tt)]
       ++ [EvDescribeApp None "prof-1" "A" "JupyterServer" (reports "Deleted");
           EvDescribeApp None "prof-1" "B" "JupyterServer" (reports "InService");
           EvSleep 5]
       ++ [EvDescribeApp None "prof-1" "A" "JupyterServer" (reports "Deleted");
           EvDescribeApp None "prof-1" "B" "JupyterServer" (reports "Deleted")]
       ++ [EvSleep 5; EvDeleteUserProfile None "prof-1" (Ok tt)].
Proof.
  split; [| split].
  - destruct (parent_delete_only_after_children_terminal
                (scripted failed_child) None 1 "prof-1" 0 (Ret (Some tt)) 5
                (failed_child_log ++ [EvDeleteUserProfile None "prof-1" (Ok tt)])
                eq_refl) as (Hsafe & _ & _).
    destruct (Hsafe failed_child_log None "prof-1" (Ok tt) [] eq_refl)
      as (_ & _ & _ & _ & Hterminal).
    exact (Hterminal [app_A; app_B] app_A eq_refl (or_introl eq_refl)).
  - destruct (parent_delete_only_after_children_terminal
                (scripted failed_child) None 1 "prof-1" 0 (Ret (Some tt)) 5
                (failed_child_log ++ [EvDeleteUserProfile None "prof-1" (Ok tt)])
                eq_refl) as (_ & Hlive & _).
    refine (Hlive (profile "prof-1" "r1") 0 [app_A; app_B] 0 0 _ 2 0 _
                  eq_refl eq_refl eq_refl eq_refl _ Nat.lt_0_1).
    repeat constructor; cbn; eexists; (split; [reflexivity |]); unfold terminal; tauto.
  - destruct (parent_delete_only_after_children_terminal
                (scripted slow_child) None 2 "prof-1" 0 _ _ _ eq_refl)
      as (_ & _ & Hlater).
    refine (proj2 (Hlater 1 (profile "prof-1" "r1") 0 [app_A; app_B] 0 0 _ 5 _ 2 5 _
                     eq_refl eq_refl eq_refl eq_refl eq_refl _ (Nat.lt_succ_diag_r 1))).
    repeat constructor; cbn; eexists; (split; [reflexivity |]); unfold terminal; tauto.
Defined.

Section TeardownFailures.
Context {World : Type}.
Variable cli : Client World.
Variable domain_id : option string.


(** A teardown that reaches the polling loop without an exception has
    queried every app of the listing once in the delete phase and once
    per tick. *)
Lemma delete_user_profile_queries fuel user_profile_name w r w' t apps :
  delete_user_profile cli domain_id fuel user_profile_name w = (r, w', t) ->
  listed_apps t = Some apps ->
  r = Diverge \/ (exists response, r = Ret (Some response)) ->
  map fst (describe_app_results t) = apps ++ concat (repeat apps (ticks t)).
Proof.
  rewrite delete_user_profile_unfold.
  destruct (cli_describe_user_profile _ _ _ _) as [[p | e1] w1]; cbn zeta.
  - destruct (cli_list_apps _ _ _ _) as [[apps' | e2] w2]; cbn zeta.
    + destruct (delete_apps _ _ _ _ _) as [[[[|] | e3 |] w3] t3] eqn:Edel.
      * pose proof (delete_apps_described _ _ _ _ _ _ _ Edel) as Hd3.
        pose proof (ticks_app_event _ (delete_apps_events _ _ _ _ _ _ _ _ Edel)) as Hk3.
        destruct (wait_apps_deleted _ _ _ _ _ _ _ _) as [[[[] | e4 |] w4] t4] eqn:Ewait.
        -- apply wait_apps_deleted_queries in Ewait; [| discriminate].
           destruct (cli_delete_user_profile _ _ _ _) as [r5 w5].
           intros Hrun Hlisted _. injection Hrun as <- <- <-.
           cbn in Hlisted. injection Hlisted as ->. cbn.
           rewrite !describe_app_results_app, !ticks_app, !map_app, Hd3, Hk3, Ewait.
           cbn. now rewrite app_nil_r, Nat.add_0_r.
        -- intros Hrun _ [Hr | [response Hr]]; inversion Hrun; subst; discriminate.
        -- apply wait_apps_deleted_queries in Ewait; [| discriminate].
           intros Hrun Hlisted _. injection Hrun as <- <- <-.
           cbn in Hlisted. injection Hlisted as ->. cbn.
           now rewrite !describe_app_results_app, !ticks_app, !map_app, Hd3, Hk3, Ewait.
      * intros Hrun _ [Hr | [response Hr]]; inversion Hrun; subst; discriminate.
      * intros Hrun _ [Hr | [response Hr]]; inversion Hrun; subst; discriminate.
      * exfalso. eapply delete_apps_total. exact Edel.
    + intros Hrun _ [Hr | [response Hr]]; inversion Hrun; subst; discriminate.
  - destruct e1; intros Hrun _ [Hr | [response Hr]]; inversion Hrun; subst; discriminate.
Qed.

End TeardownFailures.


(** ** The convergence polling loop *)

Section Polling.
Context {World : Type}.
Variable cli : Client World.
Variable domain_id : option string.

(** Where every pass leaves some app short of a terminal status, the loop
    is still running after any number of iterations. *)
Lemma wait_apps_deleted_never_converges user_profile_name apps :
  (forall w, exists n w1 t1,
      count_deleted cli domain_id user_profile_name apps 0 w = (Ret n, w1, t1)
      /\ n < length apps) ->
  forall fuel c elapsed w,
    c < length apps ->
    fst (fst (wait_apps_deleted cli domain_id fuel user_profile_name apps c elapsed w))
    = Diverge.
Proof.
  intros Hpending. induction fuel as [| fuel IH]; intros c elapsed w Hc.
  - rewrite wait_apps_deleted_0. apply Nat.ltb_lt in Hc. now rewrite Hc.
  - rewrite wait_apps_deleted_S.
    destruct (Hpending w) as (n & w1 & t1 & Hpass & Hn).
    apply Nat.ltb_lt in Hc. rewrite Hc, Hpass.
    specialize (IH n (elapsed + 5) (cli_sleep cli 5 w1) Hn).
    destruct (wait_apps_deleted _ _ _ _ _ _ _ _) as [[o w2] t2]. exact IH.
Qed.

(** C2 (as amended).  The polling loop has no tick bound and reports no
    timeout.  It returns only after a pass in which every child of the
    list reported [Deleted] or [Failed] (or at once, for an empty list);
    an exception leaves it only from a status query; a run that ended is
    the same with any larger fuel; the fuel of the model runs out only
    after as many ticks as there was fuel; and where every pass leaves some
    child short of a terminal status the loop is still running after any
    number of iterations. *)
Theorem polling_stops_only_on_convergence
    (user_profile_name : string) (apps : list App) :
  (forall fuel w r w' t,
      wait_apps_deleted cli domain_id fuel user_profile_name apps 0 0 w = (r, w', t) ->
      (r = Ret tt ->
       apps = []
       \/ exists before answers,
           t = before ++ describe_events domain_id user_profile_name answers
               ++ [EvSleep 5]
           /\ map fst answers = apps
           /\ Forall (fun ar => answers_terminal (snd ar)) answers)
      /\ (forall e,
            r = Raise e ->
            exists before a,
              t = before
                  ++ [EvDescribeApp domain_id user_profile_name
                        (AppName a) (AppType a) (Err e)])
      /\ (r <> Diverge ->
          forall fuel', fuel <= fuel' ->
            wait_apps_deleted cli domain_id fuel' user_profile_name apps 0 0 w
            = (r, w', t))
      /\ ticks t <= fuel
      /\ (r = Diverge -> ticks t = fuel))
  /\ ((forall w, exists n w1 t1,
          count_deleted cli domain_id user_profile_name apps 0 w = (Ret n, w1, t1)
          /\ n < length apps) ->
      forall fuel w,
        fst (fst (wait_apps_deleted cli domain_id fuel user_profile_name apps 0 0 w))
        = Diverge).
Proof.
  split.
  - intros fuel w r w' t Hrun. split; [| split; [| split]].
    + intros Hr. subst r. apply wait_apps_deleted_returns in Hrun.
      destruct Hrun as [[Hlen _] | Hpass]; [left | now right].
      destruct apps; [reflexivity | cbn in Hlen; lia].
    + intros e Hr. subst r. eapply wait_apps_deleted_raise. exact Hrun.
    + intros Hr fuel' Hle. eapply wait_apps_deleted_fuel; eassumption.
    + eapply wait_apps_deleted_ticks. exact Hrun.
  - intros Hpending fuel w.
    destruct (Hpending w) as (n & _ & _ & _ & Hn).
    apply wait_apps_deleted_never_converges; [assumption | lia].
Qed.

(** C7 (as amended).  A run of the polling loop that no exception leaves
    is a sequence of ticks, each one a pass that queries every child of
    the list, in the order of the list, followed by one sleep of five
    seconds: a child is queried again on every tick, whatever it
    reported before. *)
Theorem every_tick_queries_every_child
    (fuel : nat) (user_profile_name : string) (apps : list App)
    (c elapsed : nat) (w : World) (r : outcome unit) (w' : World) (t : list event) :
  wait_apps_deleted cli domain_id fuel user_profile_name apps c elapsed w = (r, w', t) ->
  (forall e, r <> Raise e) ->
  exists passes,
    t = flat_map (fun answers =>
                    describe_events domain_id user_profile_name answers ++ [EvSleep 5])
                 passes
    /\ Forall (fun answers => map fst answers = apps) passes
    /\ length passes = ticks t
    /\ map fst (describe_app_results t) = concat (repeat apps (ticks t)).
Proof.
  intros Hrun Hr.
  assert (Hq := wait_apps_deleted_queries _ _ _ _ _ _ _ _ _ _ _ Hrun Hr).
  revert c elapsed w r w' t Hrun Hr Hq.
  induction fuel as [| fuel' IH]; intros c elapsed w r w' t Hrun Hr Hq.
  - rewrite wait_apps_deleted_0 in Hrun.
    destruct (c <? length apps)%nat; injection Hrun as <- <- <-;
      exists []; repeat split; constructor.
  - rewrite wait_apps_deleted_S in Hrun.
    destruct (c <? length apps)%nat.
    + destruct (count_deleted _ _ _ _ _ _) as [[[n | e |] w1] t1] eqn:Epass.
      * destruct (wait_apps_deleted _ _ _ _ _ _ _ _) as [[o w2] t2] eqn:Erest.
        injection Hrun as <- <- <-.
        apply count_deleted_run in Epass. destruct Epass as [answers [Ht1 [Hfst _]]].
        assert (Hq2 := wait_apps_deleted_queries _ _ _ _ _ _ _ _ _ _ _ Erest Hr).
        destruct (IH _ _ _ _ _ _ Erest Hr Hq2) as (passes & Ht2 & Hall & Hlen & _).
        exists (answers :: passes). subst t1. repeat split.
        -- cbn. rewrite <- app_assoc. cbn. now rewrite <- Ht2.
        -- now constructor.
        -- rewrite ticks_app, ticks_describe_events. cbn. now rewrite Hlen.
        -- exact Hq.
      * injection Hrun as <- <- <-. now destruct (Hr e).
      * apply count_deleted_run in Epass. now destruct Epass as [answers [_ []]].
    + injection Hrun as <- <- <-. exists []. repeat split; constructor.
Qed.
End Polling.

(** C2, witness: A is deleted and B takes five seconds; the loop returns
    after its second pass, and runs out of a fuel of one after one tick. *)
Lemma polling_stops_only_on_convergence_witness :
  (exists before answers,
      [EvDescribeApp None "prof-1" "A" "JupyterServer" (reports "Deleted");
       EvDescribeApp None "prof-1" "B" "JupyterServer" (reports "InService");
       EvSleep 5;
       EvDescribeApp None "prof-1" "A" "JupyterServer" (reports "Deleted");
       EvDescribeApp None "prof-1" "B" "JupyterServer" (reports "Deleted");
       EvSleep 5]
      = before ++ describe_events None "prof-1" answers ++ [EvSleep 5]
      /\ map fst answers = [app_A; app_B]
      /\ Forall (fun ar => answers_terminal (snd ar)) answers)
  /\ ticks [EvDescribeApp None "prof-1" "A" "JupyterServer" (reports "Deleted");
            EvDescribeApp None "prof-1" "B" "JupyterServer" (reports "InService");
            EvSleep 5] = 1.
Proof.
  split.
  - destruct (proj1 (polling_stops_only_on_convergence (scripted slow_child) None
                       "prof-1" [app_A; app_B])
                    2 0 (Ret tt) 10 _ eq_refl) as [Hret _].
    destruct (Hret eq_refl) as [Hnil | Hpass]; [discriminate Hnil | exact Hpass].
  - destruct (proj1 (polling_stops_only_on_convergence (scripted slow_child) None
                       "prof-1" [app_A; app_B])
                    1 0 Diverge 5 _ eq_refl) as (_ & _ & _ & _ & Hout).
    exact (Hout eq_refl).
Defined.

(** C2, counterexample.  A stays in service: whatever the fuel, the teardown
    of [prof-1] has not ended when the fuel is spent. *)
Lemma polling_never_stops_for_stuck_child :
  ~ exists fuel,
      fst (fst (delete_user_profile (scripted stuck_child) None fuel "prof-1" 0))
      <> Diverge.
Proof.
  intros [fuel Hends]. apply Hends. clear Hends.
  rewrite delete_user_profile_unfold. cbn.
  pose proof (wait_apps_deleted_never_converges (scripted stuck_child) None "prof-1"
                [app_A]) as Hstuck.
  specialize (Hstuck (fun w => ex_intro _ 0 (ex_intro _ w (ex_intro _ _ (conj eq_refl (Nat.lt_0_1)))))
                     fuel 0 0 0 Nat.lt_0_1).
  destruct (wait_apps_deleted _ _ _ _ _ _ _ _) as [[o w2] t2].
  cbn in Hstuck. subst o. reflexivity.
Qed.

(** C7, witness: A is deleted and B takes five seconds; both are queried on
    each of the two ticks. *)
Lemma every_tick_queries_every_child_witness :
  exists passes,
    snd (wait_apps_deleted (scripted slow_child) None 2 "prof-1" [app_A; app_B] 0 0 0)
    = flat_map (fun answers => describe_events None "prof-1" answers ++ [EvSleep 5]) passes
    /\ Forall (fun answers => map fst answers = [app_A; app_B]) passes
    /\ length passes = 2
    /\ map fst (describe_app_results
                  (snd (wait_apps_deleted (scripted slow_child) None 2 "prof-1"
                          [app_A; app_B] 0 0 0)))
       = concat (repeat [app_A; app_B] 2).
Proof.
  refine (every_tick_queries_every_child (scripted slow_child) None 2 "prof-1"
            [app_A; app_B] 0 0 0 (Ret tt) 10 _ eq_refl _).
  discriminate.
Defined.

(** C7, counterexample.  A reports [Deleted] on the first tick and is
    queried again on the second. *)
Example terminal_child_queried_again :
  wait_apps_deleted (scripted slow_child) None 2 "prof-1" [app_A; app_B] 0 0 0
  = (Ret tt, 10,
     [EvDescribeApp None "prof-1" "A" "JupyterServer" (reports "Deleted");
      EvDescribeApp None "prof-1" "B" "JupyterServer" (reports "InService");
      EvSleep 5;
      EvDescribeApp None "prof-1" "A" "JupyterServer" (reports "Deleted");
      EvDescribeApp None "prof-1" "B" "JupyterServer" (reports "Deleted");
      EvSleep 5]).
Proof. reflexivity. Qed.


(** C3.  A is listed but no longer exists.  The delete phase passes over the
    [ResourceNotFound] of its status query; the first polling pass lets the
    same exception leave the teardown, and the deletion of the profile is
    never requested. *)
Theorem vanished_child_crashes_polling (fuel : nat) :
  delete_user_profile (scripted vanished_child) None (S fuel) "prof-1" 0
  = (Raise ResourceNotFound, 0,
     [EvDescribeUserProfile None "prof-1" (Ok (profile "prof-1" "r1"));
      EvListApps None "prof-1" (Ok [app_A]);
      EvDescribeApp None "prof-1" "A" "JupyterServer" (Err ResourceNotFound);
      EvDescribeApp None "prof-1" "A" "JupyterServer" (Err ResourceNotFound)]).
Proof. reflexivity. Qed.

(** ** The bulk replace operation *)

Section Replace.
Context {World : Type}.
Variable cli : Client World.
Variable domain_id : option string.

(** The replacement of one profile starts one teardown and issues at most
    one create request, for the name and the execution role of the
    snapshot; it issues that request whenever it returns. *)
Lemma recreate_user_profile_log fuel i w r w' t :
  recreate_user_profile cli domain_id fuel i w = (r, w', t) ->
  described_profiles t = [UserProfileName i]
  /\ (create_requests t = [] /\ r <> Ret tt
      \/ exists role,
           execution_role i = Some role
           /\ create_requests t = [(UserProfileName i, role)]).
Proof.
  rewrite recreate_user_profile_unfold.
  destruct (delete_user_profile _ _ _ _ _) as [[o1 w1] t1] eqn:Edel.
  apply delete_user_profile_log in Edel. destruct Edel as [Hd1 Hc1].
  destruct o1 as [u | e |].
  - destruct (cli_list_user_profiles _ _ _) as [[listed | e] w2]; cbn zeta.
    + unfold execution_role.
      destruct (UserSettings i) as [[[role |]] |]; cbn [ExecutionRole].
      * destruct (cli_create_user_profile _ _ _ _ _) as [r4 w4].
        intros Hrun. injection Hrun as <- <- <-.
        rewrite described_profiles_app, create_requests_app, Hd1, Hc1. cbn.
        split; [reflexivity |]. right. now exists role.
      * intros Hrun. injection Hrun as <- <- <-.
        rewrite described_profiles_app, create_requests_app, Hd1, Hc1. cbn.
        split; [reflexivity |]. left. split; [reflexivity | discriminate].
      * intros Hrun. injection Hrun as <- <- <-.
        rewrite described_profiles_app, create_requests_app, Hd1, Hc1. cbn.
        split; [reflexivity |]. left. split; [reflexivity | discriminate].
    + intros Hrun. injection Hrun as <- <- <-.
      rewrite described_profiles_app, create_requests_app, Hd1, Hc1. cbn.
      split; [reflexivity |]. left. split; [reflexivity | discriminate].
  - intros Hrun. injection Hrun as <- <- <-.
    split; [assumption |]. left. split; [assumption | discriminate].
  - intros Hrun. injection Hrun as <- <- <-.
    split; [assumption |]. left. split; [assumption | discriminate].
Qed.

Lemma recreate_each_cons fuel i rest w :
  recreate_each cli domain_id fuel (i :: rest) w
  = match recreate_user_profile cli domain_id fuel i w with
    | (Ret _, w1, t1) =>
        let '(o, w2, t2) := recreate_each cli domain_id fuel rest w1 in
        (o, w2, t1 ++ t2)
    | (Raise e, w1, t1) => (Raise e, w1, t1)
    | (Diverge, w1, t1) => (Diverge, w1, t1)
    end.
Proof. reflexivity. Qed.

(** The loop of [recreate_all_user_profiles]: when it returns, every
    profile had its teardown started and its create request issued; when it
    does not, nothing is requested for the profiles after the one whose
    replacement did not return. *)
Lemma recreate_each_outcome
    (fuel : nat) (user_profiles : list UserProfile) (w : World)
    (r : outcome unit) (w' : World) (t : list event) :
  recreate_each cli domain_id fuel user_profiles w = (r, w', t) ->
  (r = Ret tt ->
   described_profiles t = map UserProfileName user_profiles
   /\ map (fun request => (fst request, Some (snd request))) (create_requests t)
      = map (fun i => (UserProfileName i, execution_role i)) user_profiles)
  /\ (r <> Ret tt ->
      exists replaced failing rest last,
        user_profiles = replaced ++ failing :: rest
        /\ described_profiles t = map UserProfileName (replaced ++ [failing])
        /\ map fst (create_requests t) = map UserProfileName replaced ++ last
        /\ (last = [] \/ last = [UserProfileName failing])).
Proof.
  revert w r w' t.
  induction user_profiles as [| i rest IH]; intros w r w' t Hrun.
  - injection Hrun as <- <- <-. split; [now split | intros Hr; now destruct Hr].
  - rewrite recreate_each_cons in Hrun.
    destruct (recreate_user_profile _ _ _ _ _) as [[o1 w1] t1] eqn:Eone.
    apply recreate_user_profile_log in Eone. destruct Eone as [Hd1 Hc1].
    destruct o1 as [[] | e |].
    + destruct Hc1 as [[_ Hne] | [role [Hrole Hc1]]]; [now destruct Hne |].
      destruct (recreate_each _ _ _ rest _) as [[o2 w2] t2] eqn:Erest.
      injection Hrun as <- <- <-. apply IH in Erest. destruct Erest as [Hret Hfail].
      rewrite described_profiles_app, create_requests_app, Hd1, Hc1. split.
      * intros Hr. destruct (Hret Hr) as [Hd2 Hc2]. cbn.
        now rewrite Hd2, Hc2, Hrole.
      * intros Hr. destruct (Hfail Hr) as (replaced & failing & rest' & last & H1 & H2 & H3 & H4).
        exists (i :: replaced), failing, rest', last. cbn.
        now rewrite H1, H2, H3.
    + injection Hrun as <- <- <-. split; [discriminate |]. intros _.
      destruct Hc1 as [[Hc1 _] | [role [_ Hc1]]].
      * exists [], i, rest, []. rewrite Hd1, Hc1. repeat split. now left.
      * exists [], i, rest, [UserProfileName i]. rewrite Hd1, Hc1. repeat split. now right.
    + injection Hrun as <- <- <-. split; [discriminate |]. intros _.
      destruct Hc1 as [[Hc1 _] | [role [_ Hc1]]].
      * exists [], i, rest, []. rewrite Hd1, Hc1. repeat split. now left.
      * exists [], i, rest, [UserProfileName i]. rewrite Hd1, Hc1. repeat split. now right.
Qed.

(** The snapshot, then the loop. *)
Lemma recreate_all_user_profiles_unfold fuel w :
  recreate_all_user_profiles cli domain_id fuel w
  = let '(r1, w1) := cli_list_user_profiles cli domain_id w in
    let ev1 := EvListUserProfiles domain_id r1 in
    match r1 with
    | Err e => (Raise e, w1, [ev1])
    | Ok listed =>
        match describe_all cli domain_id listed w1 with
        | (Ret user_profiles, w2, t2) =>
            let '(o, w3, t3) := recreate_each cli domain_id fuel user_profiles w2 in
            (o, w3, ev1 :: t2 ++ t3)
        | (Raise e, w2, t2) => (Raise e, w2, ev1 :: t2)
        | (Diverge, w2, t2) => (Diverge, w2, ev1 :: t2)
        end
    end.
Proof.
  unfold recreate_all_user_profiles. unfold bind at 1. unfold list_user_profiles, invoke.
  destruct (cli_list_user_profiles _ _ _) as [[listed | e] w1]; [| reflexivity].
  unfold bind at 1.
  destruct (describe_all _ _ _ _) as [[[user_profiles | e |] w2] t2]; try reflexivity.
  now destruct (recreate_each _ _ _ _ _) as [[o w3] t3].
Qed.

(** C10.  A profile name is never found among the dictionaries of the
    listing, so the wait that follows a teardown runs no iteration: it
    lists the profiles once and sleeps five seconds once, whatever the
    listing answers; and the create request follows even when the profile
    is still listed. *)
Theorem wait_unlisted_never_waits :
  (forall user_profile_name listed,
      py_in (PyStr user_profile_name) (map PyDict listed) = false)
  /\ (forall fuel user_profile_name w,
        wait_unlisted cli domain_id fuel user_profile_name w
        = let '(r, w1) := cli_list_user_profiles cli domain_id w in
          match r with
          | Ok _ =>
              (Ret tt, cli_sleep cli 5 w1, [EvListUserProfiles domain_id r; EvSleep 5])
          | Err e => (Raise e, w1, [EvListUserProfiles domain_id r])
          end)
  /\ (forall fuel i w u w1 t1 listed w2 role,
        delete_user_profile cli domain_id fuel (UserProfileName i) w = (Ret u, w1, t1) ->
        cli_list_user_profiles cli domain_id w1 = (Ok listed, w2) ->
        execution_role i = Some role ->
        exists r4,
          snd (recreate_user_profile cli domain_id fuel i w)
          = t1 ++ [EvListUserProfiles domain_id (Ok listed); EvSleep 5;
                   EvCreateUserProfile domain_id (UserProfileName i) role r4]).
Proof.
  split; [exact py_in_str_dicts |]. split; [exact (wait_unlisted_run cli domain_id) |].
  intros fuel i w u w1 t1 listed w2 role Hdel Hlist Hrole.
  rewrite recreate_user_profile_unfold, Hdel, Hlist. cbn zeta.
  unfold execution_role in Hrole.
  destruct (UserSettings i) as [settings |]; [| discriminate]. rewrite Hrole.
  destruct (cli_create_user_profile _ _ _ _ _) as [r4 w4]. now exists r4.
Qed.
End Replace.

(** A log without create requests, followed by one: the request is found
    at the end only. *)
Lemma sole_create_last l x pre d name role res post :
  create_requests l = [] ->
  l ++ [x] = pre ++ EvCreateUserProfile d name role res :: post ->
  post = [] /\ pre = l /\ x = EvCreateUserProfile d name role res.
Proof.
  revert pre. induction l as [| y l IH]; intros pre Hl Heq.
  - destruct pre as [| p pre]; cbn in Heq.
    + inversion Heq; subst. now repeat split.
    + inversion Heq as [[Hp Hnil]]. now destruct pre.
  - destruct pre as [| p pre]; cbn in Heq.
    + inversion Heq; subst. discriminate.
    + inversion Heq as [[Hp Hrest]]. subst p.
      assert (Hl' : create_requests l = []).
      { destruct y; cbn in Hl; (assumption || discriminate). }
      destruct (IH pre Hl' Hrest) as [H1 [H2 H3]]. subst. now repeat split.
Qed.

Lemma no_create_in_log before d name role res after :
  create_requests (before ++ EvCreateUserProfile d name role res :: after) <> [].
Proof.
  rewrite create_requests_app. cbn.
  destruct (create_requests before); discriminate.
Qed.

Section ReplaceFailures.
Context {World : Type}.
Variable cli : Client World.
Variable domain_id : option string.

(** A create request that the control plane rejects is the last
    interaction of the replacement of its profile, and its exception leaves
    the replacement. *)
Lemma recreate_user_profile_rejected fuel i w r w' t before d name role e after :
  recreate_user_profile cli domain_id fuel i w = (r, w', t) ->
  t = before ++ EvCreateUserProfile d name role (Err e) :: after ->
  after = [] /\ r = Raise e.
Proof.
  rewrite recreate_user_profile_unfold.
  destruct (delete_user_profile _ _ _ _ _) as [[o1 w1] t1] eqn:Edel.
  apply delete_user_profile_log in Edel. destruct Edel as [_ Hc1].
  assert (Hnone : forall l,
             create_requests l = [] ->
             l = before ++ EvCreateUserProfile d name role (Err e) :: after -> False).
  { intros l Hl Heq. rewrite Heq in Hl. revert Hl. apply no_create_in_log. }
  destruct o1 as [u | e1 |].
  - destruct (cli_list_user_profiles _ _ _) as [[listed | e2] w2]; cbn zeta.
    + destruct (UserSettings i) as [[[role' |]] |]; cbn [ExecutionRole].
      * destruct (cli_create_user_profile _ _ _ _ _) as [r4 w4].
        intros Hrun Ht. injection Hrun as <- _ <-.
        assert (Hquiet : create_requests
                           (t1 ++ [EvListUserProfiles domain_id (Ok listed); EvSleep 5])
                         = []).
        { rewrite create_requests_app, Hc1. reflexivity. }
        assert (Heq : (t1 ++ [EvListUserProfiles domain_id (Ok listed); EvSleep 5])
                      ++ [EvCreateUserProfile domain_id (UserProfileName i) role' r4]
                      = before ++ EvCreateUserProfile d name role (Err e) :: after).
        { rewrite <- Ht, <- app_assoc. reflexivity. }
        destruct (sole_create_last _ _ _ _ _ _ _ _ Hquiet Heq) as (Hafter & _ & Hev).
        injection Hev as _ _ _ ->. now split.
      * intros Hrun Ht. injection Hrun as _ _ <-. exfalso.
        eapply Hnone; [| exact Ht]. now rewrite create_requests_app, Hc1.
      * intros Hrun Ht. injection Hrun as _ _ <-. exfalso.
        eapply Hnone; [| exact Ht]. now rewrite create_requests_app, Hc1.
    + intros Hrun Ht. injection Hrun as _ _ <-. exfalso.
      eapply Hnone; [| exact Ht]. now rewrite create_requests_app, Hc1.
  - intros Hrun Ht. injection Hrun as _ _ <-. exfalso. exact (Hnone _ Hc1 Ht).
  - intros Hrun Ht. injection Hrun as _ _ <-. exfalso. exact (Hnone _ Hc1 Ht).
Qed.

(** So it is for the loop: nothing follows a rejected create request. *)
Lemma recreate_each_rejected fuel user_profiles w r w' t before d name role e after :
  recreate_each cli domain_id fuel user_profiles w = (r, w', t) ->
  t = before ++ EvCreateUserProfile d name role (Err e) :: after ->
  after = [] /\ r = Raise e.
Proof.
  revert w r w' t before.
  induction user_profiles as [| i rest IH]; intros w r w' t before Hrun Ht.
  - injection Hrun as _ _ <-. now destruct before.
  - rewrite recreate_each_cons in Hrun.
    destruct (recreate_user_profile _ _ _ _ _) as [[o1 w1] t1] eqn:Eone.
    destruct o1 as [[] | e1 |].
    + destruct (recreate_each _ _ _ rest _) as [[o2 w2] t2] eqn:Erest.
      injection Hrun as <- <- <-.
      apply app_eq_app in Ht. destruct Ht as [l [[Ht1 Ht2] | [Hbefore Ht2]]].
      * destruct l as [| x l].
        -- cbn in Ht2. apply (IH _ _ _ _ [] Erest). now rewrite <- Ht2.
        -- cbn in Ht2. injection Ht2 as <- _.
           destruct (recreate_user_profile_rejected _ _ _ _ _ _ _ _ _ _ _ _ Eone Ht1)
             as [_ Hr].
           discriminate Hr.
      * exact (IH _ _ _ _ l Erest Ht2).
    + injection Hrun as <- <- <-.
      exact (recreate_user_profile_rejected _ _ _ _ _ _ _ _ _ _ _ _ Eone Ht).
    + injection Hrun as <- <- <-.
      exact (recreate_user_profile_rejected _ _ _ _ _ _ _ _ _ _ _ _ Eone Ht).
Qed.

(** A loop that does not return was left from the replacement of one
    profile, after the profiles before that one were replaced. *)
Lemma recreate_each_failure fuel user_profiles w r w' t :
  recreate_each cli domain_id fuel user_profiles w = (r, w', t) ->
  r <> Ret tt ->
  exists replaced failing rest replaced_log w_f failing_log,
    user_profiles = replaced ++ failing :: rest
    /\ t = replaced_log ++ failing_log
    /\ recreate_each cli domain_id fuel replaced w = (Ret tt, w_f, replaced_log)
    /\ recreate_user_profile cli domain_id fuel failing w_f = (r, w', failing_log).
Proof.
  revert w r w' t.
  induction user_profiles as [| i rest IH]; intros w r w' t Hrun Hr.
  - injection Hrun as <- _ _. now destruct Hr.
  - rewrite recreate_each_cons in Hrun.
    destruct (recreate_user_profile _ _ _ _ _) as [[o1 w1] t1] eqn:Eone.
    destruct o1 as [[] | e1 |].
    + destruct (recreate_each _ _ _ rest _) as [[o2 w2] t2] eqn:Erest.
      injection Hrun as <- <- <-.
      destruct (IH _ _ _ _ Erest Hr)
        as (replaced & failing & rest' & replaced_log & w_f & failing_log
            & Hsplit & Ht2 & Hreplaced & Hfailing).
      exists (i :: replaced), failing, rest', (t1 ++ replaced_log), w_f, failing_log.
      split; [now rewrite Hsplit |]. split; [now rewrite Ht2, app_assoc |].
      split; [| assumption].
      rewrite recreate_each_cons, Eone, Hreplaced. reflexivity.
    + injection Hrun as <- <- <-.
      now exists [], i, rest, [], w, t1.
    + injection Hrun as <- <- <-.
      now exists [], i, rest, [], w, t1.
Qed.

(** The loop over a list in two parts: the second part is run from where
    the first one ended, unless the first one did not return. *)
Lemma recreate_each_app fuel l1 l2 w :
  recreate_each cli domain_id fuel (l1 ++ l2) w
  = match recreate_each cli domain_id fuel l1 w with
    | (Ret _, w1, t1) =>
        let '(r, w2, t2) := recreate_each cli domain_id fuel l2 w1 in
        (r, w2, t1 ++ t2)
    | other => other
    end.
Proof.
  revert w. induction l1 as [| i l1 IH]; intros w.
  - cbn [app recreate_each]. unfold ret.
    now destruct (recreate_each _ _ _ l2 w) as [[r w2] t2].
  - cbn [app]. rewrite !recreate_each_cons.
    destruct (recreate_user_profile _ _ _ _ _) as [[[[] | e |] w1] t1]; try reflexivity.
    rewrite IH.
    destruct (recreate_each _ _ _ l1 w1) as [[[[] | e |] w2] t2]; try reflexivity.
    destruct (recreate_each _ _ _ l2 w2) as [[r w3] t3]. now rewrite app_assoc.
Qed.

(** C4 (as amended).  [recreate_all_user_profiles] replaces the profiles of
    its snapshot one after the other and returns nothing.  When it returns,
    every profile had its teardown started and its create request issued, in
    the order of the snapshot.  When it does not, what left the replacement
    of one profile (an exception, or a loop that does not end) left the
    whole operation, after the profiles before that one were replaced, and
    the profiles after that one are not processed: no teardown is started
    and no create request is issued for them.  Conversely, as soon as the
    replacement of one profile does not return, the operation ends as that
    replacement ended.  A create request that the control plane rejects is
    such an exception: it is the last interaction of the operation. *)
Theorem recreate_all_stops_at_first_failure
    (fuel : nat) (w : World) (listed : list UserProfile) (w1 : World)
    (user_profiles : list UserProfile) (w2 : World) (snapshot_log : list event)
    (r : outcome unit) (w' : World) (t : list event) :
  cli_list_user_profiles cli domain_id w = (Ok listed, w1) ->
  describe_all cli domain_id listed w1 = (Ret user_profiles, w2, snapshot_log) ->
  recreate_all_user_profiles cli domain_id fuel w = (r, w', t) ->
  exists loop_log,
    t = EvListUserProfiles domain_id (Ok listed) :: snapshot_log ++ loop_log
    /\ (r = Ret tt ->
        described_profiles loop_log = map UserProfileName user_profiles
        /\ map (fun request => (fst request, Some (snd request))) (create_requests loop_log)
           = map (fun i => (UserProfileName i, execution_role i)) user_profiles)
    /\ (r <> Ret tt ->
        exists replaced failing rest last,
          user_profiles = replaced ++ failing :: rest
          /\ described_profiles loop_log = map UserProfileName (replaced ++ [failing])
          /\ map fst (create_requests loop_log) = map UserProfileName replaced ++ last
          /\ (last = [] \/ last = [UserProfileName failing])
          /\ exists replaced_log w_f failing_log,
               loop_log = replaced_log ++ failing_log
               /\ recreate_each cli domain_id fuel replaced w2
                  = (Ret tt, w_f, replaced_log)
               /\ recreate_user_profile cli domain_id fuel failing w_f
                  = (r, w', failing_log))
    /\ (forall replaced failing rest w_f replaced_log r_f w_f' failing_log,
          user_profiles = replaced ++ failing :: rest ->
          recreate_each cli domain_id fuel replaced w2 = (Ret tt, w_f, replaced_log) ->
          recreate_user_profile cli domain_id fuel failing w_f
          = (r_f, w_f', failing_log) ->
          r_f <> Ret tt ->
          r = r_f /\ w' = w_f' /\ loop_log = replaced_log ++ failing_log)
    /\ (forall before d name role e after,
          loop_log = before ++ EvCreateUserProfile d name role (Err e) :: after ->
          after = [] /\ r = Raise e)
    /\ (forall i w_i u w3 t3 listed' w4 role e w5,
          delete_user_profile cli domain_id fuel (UserProfileName i) w_i
          = (Ret u, w3, t3) ->
          cli_list_user_profiles cli domain_id w3 = (Ok listed', w4) ->
          execution_role i = Some role ->
          cli_create_user_profile cli domain_id (UserProfileName i) role
            (cli_sleep cli 5 w4) = (Err e, w5) ->
          recreate_user_profile cli domain_id fuel i w_i
          = (Raise e, w5,
             t3 ++ [EvListUserProfiles domain_id (Ok listed'); EvSleep 5;
                    EvCreateUserProfile domain_id (UserProfileName i) role (Err e)])).
Proof.
  intros Hlist Hsnapshot Hrun.
  rewrite recreate_all_user_profiles_unfold, Hlist in Hrun. cbn zeta in Hrun.
  rewrite Hsnapshot in Hrun.
  destruct (recreate_each _ _ _ _ _) as [[o w3] loop_log] eqn:Eloop.
  injection Hrun as <- <- <-.
  exists loop_log. split; [reflexivity |]. split; [| split; [| split; [| split]]].
  - apply (recreate_each_outcome cli domain_id _ _ _ _ _ _ Eloop).
  - intros Hr.
    destruct (recreate_each_failure _ _ _ _ _ _ Eloop Hr)
      as (replaced & failing & rest & replaced_log & w_f & failing_log
          & Hsplit & Ht & Hreplaced & Hfailing).
    destruct (proj1 (recreate_each_outcome cli domain_id _ _ _ _ _ _ Hreplaced) eq_refl)
      as [Hd1 Hc1].
    destruct (recreate_user_profile_log cli domain_id _ _ _ _ _ _ Hfailing) as [Hd2 Hc2].
    assert (Hnames : map fst (create_requests replaced_log)
                     = map UserProfileName replaced).
    { apply (f_equal (map fst)) in Hc1. rewrite !map_map in Hc1. exact Hc1. }
    exists replaced, failing, rest, (map fst (create_requests failing_log)).
    split; [assumption |]. subst loop_log.
    rewrite described_profiles_app, create_requests_app, !map_app, Hd1, Hd2, Hnames.
    split; [reflexivity |]. split; [reflexivity |]. split.
    + destruct Hc2 as [[Hc2 _] | [role [_ Hc2]]]; rewrite Hc2; [now left | now right].
    + now exists replaced_log, w_f, failing_log.
  - intros replaced failing rest w_f replaced_log r_f w_f' failing_log
           Hsplit Hreplaced Hfailing Hr.
    rewrite Hsplit, recreate_each_app, Hreplaced, recreate_each_cons, Hfailing in Eloop.
    destruct r_f as [[] | e |]; [now destruct Hr | |];
      injection Eloop as <- <- <-; now repeat split.
  - intros before d name role e after Ht.
    exact (recreate_each_rejected _ _ _ _ _ _ _ _ _ _ _ _ Eloop Ht).
  - intros i w_i u w_d t_d listed' w_l role e w_c Hdel Hlisted Hrole Hcreate.
    rewrite recreate_user_profile_unfold, Hdel, Hlisted. cbn zeta.
    unfold execution_role in Hrole.
    destruct (UserSettings i) as [settings |]; [| discriminate].
    rewrite Hrole, Hcreate. reflexivity.
Qed.
End ReplaceFailures.

(** C4, witness: the creation of [prof-1] is rejected; the exception of
    the create request leaves the operation and nothing is started for
    [prof-2]. *)
Lemma recreate_all_stops_at_first_failure_witness :
  exists loop_log,
    snd (recreate_all_user_profiles (scripted rejected_create) None 1 0)
    = EvListUserProfiles None
        (Ok [{| UserProfileName := "prof-1"; UserSettings := None |};
             {| UserProfileName := "prof-2"; UserSettings := None |}])
      :: [EvDescribeUserProfile None "prof-1" (Ok (profile "prof-1" "r1"));
          EvDescribeUserProfile None "prof-2" (Ok (profile "prof-2" "r2"))]
      ++ loop_log
    /\ (exists replaced failing rest last,
          [profile "prof-1" "r1"; profile "prof-2" "r2"] = replaced ++ failing :: rest
          /\ described_profiles loop_log = map UserProfileName (replaced ++ [failing])
          /\ map fst (create_requests loop_log) = map UserProfileName replaced ++ last
          /\ (last = [] \/ last = [UserProfileName failing])
          /\ exists replaced_log w_f failing_log,
               loop_log = replaced_log ++ failing_log
               /\ recreate_each (scripted rejected_create) None 1 replaced 0
                  = (Ret tt, w_f, replaced_log)
               /\ recreate_user_profile (scripted rejected_create) None 1 failing w_f
                  = (Raise (OtherError "ResourceLimitExceeded"), 5, failing_log))
    /\ (forall before d name role e after,
          loop_log = before ++ EvCreateUserProfile d name role (Err e) :: after ->
          after = [] /\ Raise (OtherError "ResourceLimitExceeded") = Raise (A:=unit) e).
Proof.
  destruct (recreate_all_stops_at_first_failure (scripted rejected_create) None 1 0
              _ 0 [profile "prof-1" "r1"; profile "prof-2" "r2"] 0 _
              (Raise (OtherError "ResourceLimitExceeded")) 5 _
              eq_refl eq_refl eq_refl) as (loop_log & Hlog & _ & Hfail & _ & Hrejected & _).
  exists loop_log. split; [exact Hlog |]. split; [| exact Hrejected].
  apply Hfail. discriminate.
Defined.

(** C4, counterexample.  The control plane rejects the creation of
    [prof-1]: the exception leaves the operation, and [prof-2], the second
    profile of the batch, is neither torn down nor created. *)
Example rejected_create_stops_batch :
  recreate_all_user_profiles (scripted rejected_create) None 1 0
  = (Raise (OtherError "ResourceLimitExceeded"), 5,
     [EvListUserProfiles None
        (Ok [{| UserProfileName := "prof-1"; UserSettings := None |};
             {| UserProfileName := "prof-2"; UserSettings := None |}]);
      EvDescribeUserProfile None "prof-1" (Ok (profile "prof-1" "r1"));
      EvDescribeUserProfile None "prof-2" (Ok (profile "prof-2" "r2"));
      EvDescribeUserProfile None "prof-1" (Ok (profile "prof-1" "r1"));
      EvListApps None "prof-1" (Ok []);
      EvDeleteUserProfile None "prof-1" (Ok tt);
      EvListUserProfiles None
        (Ok [{| UserProfileName := "prof-1"; UserSettings := None |};
             {| UserProfileName := "prof-2"; UserSettings := None |}]);
      EvSleep 5;
      EvCreateUserProfile None "prof-1" "r1" (Err (OtherError "ResourceLimitExceeded"))]).
Proof. reflexivity. Qed.

(** C5.  The status query of A answers [ResourceInUse]: the teardown of
    [prof-1] returns without requesting the deletion of the profile, the
    listing still shows [prof-1], and the create request is issued. *)
Theorem create_issued_after_abandoned_teardown :
  recreate_all_user_profiles (scripted child_in_use) None 1 0
  = (Ret tt, 5,
     [EvListUserProfiles None
        (Ok [{| UserProfileName := "prof-1"; UserSettings := None |}]);
      EvDescribeUserProfile None "prof-1" (Ok (profile "prof-1" "r1"));
      EvDescribeUserProfile None "prof-1" (Ok (profile "prof-1" "r1"));
      EvListApps None "prof-1" (Ok [app_A]);
      EvDescribeApp None "prof-1" "A" "JupyterServer" (Err ResourceInUse);
      EvListUserProfiles None
        (Ok [{| UserProfileName := "prof-1"; UserSettings := None |}]);
      EvSleep 5;
      EvCreateUserProfile None "prof-1" "r1" (Ok tt)]).
Proof. reflexivity. Qed.

(** C10, witness: the teardown of [prof-1] was abandoned and the listing
    still shows [prof-1]; the create request follows the single sleep. *)
Lemma wait_unlisted_never_waits_witness :
  exists r4,
    snd (recreate_user_profile (scripted child_in_use) None 0 (profile "prof-1" "r1") 0)
    = [EvDescribeUserProfile None "prof-1" (Ok (profile "prof-1" "r1"));
       EvListApps None "prof-1" (Ok [app_A]);
       EvDescribeApp None "prof-1" "A" "JupyterServer" (Err ResourceInUse)]
      ++ [EvListUserProfiles None
            (Ok [{| UserProfileName := "prof-1"; UserSettings := None |}]);
          EvSleep 5;
          EvCreateUserProfile None "prof-1" "r1" r4].
Proof.
  exact (proj2 (proj2 (wait_unlisted_never_waits (scripted child_in_use) None))
               0 (profile "prof-1" "r1") 0 None 0 _ _ 0 "r1" eq_refl eq_refl eq_refl).
Defined.

(** * Further properties of the teardown and of the replacement *)

Lemma event_about_weaken d name apps apps' t :
  incl apps apps' ->
  Forall (event_about d name apps) t -> Forall (event_about d name apps') t.
Proof.
  intros Hincl Hall. eapply Forall_impl; [| exact Hall].
  intros ev Hev. destruct ev; cbn in *; try tauto.
  all: destruct Hev as (Hd & Hn & Hin); auto.
Qed.

Section TeardownScope.
Context {World : Type}.
Variable cli : Client World.
Variable domain_id : option string.

(** Case analysis of one iteration of the loop that requests the deletion
    of the apps. *)
Ltac delete_apps_cases H :=
  rewrite delete_apps_cons in H;
  let r2 := fresh "r2" in let w2 := fresh "w2" in
  let o := fresh "o" in let w3 := fresh "w3" in let t3 := fresh "t3" in
  let Erest := fresh "Erest" in
  destruct (cli_describe_app _ _ _ _ _ _) as [[? | []] ?];
  cbn zeta in H;
  [ destruct (calls_for_delete _) eqn:?;
    [ destruct (cli_delete_app _ _ _ _ _ _) as [r2 w2] |];
    destruct (delete_apps _ _ _ _ _) as [[o w3] t3] eqn:Erest
  | destruct (delete_apps _ _ _ _ _) as [[o w3] t3] eqn:Erest
  | | | ];
  inversion H; subst; clear H.

(** The delete phase queries and deletes listed apps only, under the given
    profile. *)
Lemma delete_apps_about user_profile_name apps w :
  Forall (event_about domain_id user_profile_name apps)
         (snd (delete_apps cli domain_id user_profile_name apps w)).
Proof.
  revert w. induction apps as [| a rest IH]; intros w; [constructor |].
  destruct (delete_apps _ _ _ (a :: rest) w) as [[r w'] t] eqn:Hrun. cbn [snd].
  assert (Hrest : forall w2, Forall (event_about domain_id user_profile_name (a :: rest))
                               (snd (delete_apps cli domain_id user_profile_name rest w2))).
  { intros w2. eapply event_about_weaken; [| apply IH]. intros x Hx. now right. }
  assert (Ha : In {| AppName := AppName a; AppType := AppType a |} (a :: rest)).
  { rewrite App_eta. now left. }
  delete_apps_cases Hrun.
  1-3: match type of Erest with
       | delete_apps _ _ _ _ ?w2 = _ =>
           specialize (Hrest w2); rewrite Erest in Hrest; cbn [snd] in Hrest
       end.
  all: repeat (constructor; [cbn; auto |]); try assumption; constructor.
Qed.

(** A phase that ends in [return] stopped at the status query that answered
    [ResourceInUse]: the apps after that one were neither queried nor
    deleted, and no deletion was requested for that one. *)
Lemma delete_apps_return user_profile_name apps w w' t :
  delete_apps cli domain_id user_profile_name apps w = (Ret Return, w', t) ->
  exists queried a rest before,
    apps = queried ++ a :: rest
    /\ map fst (describe_app_results t) = queried ++ [a]
    /\ incl (delete_app_requests t) queried
    /\ t = before ++ [EvDescribeApp domain_id user_profile_name (AppName a) (AppType a)
                        (Err ResourceInUse)].
Proof.
  revert w w' t. induction apps as [| a rest IH]; intros w w' t Hrun.
  - discriminate Hrun.
  - delete_apps_cases Hrun.
    1-3: apply IH in Erest;
         destruct Erest as (queried & a' & rest' & before & Happs & Hq & Hincl & Ht);
         subst rest t3.
    + exists (a :: queried), a', rest'. eexists (_ :: _ :: before).
      cbn. rewrite App_eta, describe_app_results_app, delete_app_requests_app in *.
      cbn in *. rewrite Hq. repeat split.
      intros x [Hx | Hx]; [now left | right; now apply Hincl].
    + exists (a :: queried), a', rest'. eexists (_ :: before).
      cbn. rewrite App_eta, describe_app_results_app, delete_app_requests_app in *.
      cbn in *. rewrite Hq. repeat split.
      intros x Hx. right. now apply Hincl.
    + exists (a :: queried), a', rest'. eexists (_ :: before).
      cbn. rewrite App_eta, describe_app_results_app, delete_app_requests_app in *.
      cbn in *. rewrite Hq. repeat split.
      intros x Hx. right. now apply Hincl.
    + exists [], a, rest, []. cbn. rewrite App_eta. repeat split. intros x [].
Qed.
End TeardownScope.

Section TeardownExtras.
Context {World : Type}.
Variable cli : Client World.
Variable domain_id : option string.

(** A polling pass queries listed apps only, under the given profile. *)
Lemma count_deleted_about user_profile_name apps c w :
  Forall (event_about domain_id user_profile_name apps)
         (snd (count_deleted cli domain_id user_profile_name apps c w)).
Proof.
  revert c w. induction apps as [| a rest IH]; intros c w; [constructor |].
  rewrite count_deleted_cons.
  assert (Ha : In {| AppName := AppName a; AppType := AppType a |} (a :: rest)).
  { rewrite App_eta. now left. }
  destruct (cli_describe_app _ _ _ _ _ _) as [[response | e] w1]; cbn zeta.
  - specialize (IH (if terminal_answerb (Ok response) then c + 1 else c) w1).
    destruct (count_deleted _ _ _ rest _ _) as [[o w2] t2]. cbn [snd] in *.
    constructor; [cbn; auto |].
    eapply event_about_weaken; [| exact IH]. intros x Hx. now right.
  - cbn. constructor; [cbn; auto | constructor].
Qed.

Lemma wait_apps_deleted_about fuel user_profile_name apps c elapsed w :
  Forall (event_about domain_id user_profile_name apps)
         (snd (wait_apps_deleted cli domain_id fuel user_profile_name apps c elapsed w)).
Proof.
  revert c elapsed w. induction fuel as [| fuel IH]; intros c elapsed w.
  - rewrite wait_apps_deleted_0. destruct (c <? length apps)%nat; constructor.
  - rewrite wait_apps_deleted_S. destruct (c <? length apps)%nat; [| constructor].
    pose proof (count_deleted_about user_profile_name apps 0 w) as Hpass.
    destruct (count_deleted _ _ _ _ _ _) as [[[n | e |] w1] t1]; cbn [snd] in *;
      try assumption.
    specialize (IH n (elapsed + 5) (cli_sleep cli 5 w1)).
    destruct (wait_apps_deleted _ _ _ _ _ _ _ _) as [[o w2] t2]. cbn [snd] in *.
    apply Forall_app. split; [assumption |]. constructor; [reflexivity | assumption].
Qed.

(** Without apps the polling loop has nothing to wait for. *)
Lemma wait_apps_deleted_no_apps fuel user_profile_name c elapsed w :
  wait_apps_deleted cli domain_id fuel user_profile_name [] c elapsed w = (Ret tt, w, []).
Proof. destruct fuel; reflexivity. Qed.

(** What the interactions of a teardown are about. *)
Lemma delete_user_profile_about fuel user_profile_name w :
  Forall (event_about domain_id user_profile_name
            (apps_in_scope (snd (delete_user_profile cli domain_id fuel user_profile_name w))))
         (snd (delete_user_profile cli domain_id fuel user_profile_name w)).
Proof.
  rewrite delete_user_profile_unfold.
  destruct (cli_describe_user_profile _ _ _ _) as [[p | e1] w1]; cbn zeta.
  - destruct (cli_list_apps _ _ _ _) as [[apps | e2] w2]; cbn zeta.
    + pose proof (delete_apps_about cli domain_id user_profile_name apps w2) as H3.
      destruct (delete_apps _ _ _ _ _) as [[o3 w3] t3]. cbn [snd] in H3.
      pose proof (wait_apps_deleted_about fuel user_profile_name apps 0 0 w3) as H4.
      destruct o3 as [[|] | e3 |].
      * destruct (wait_apps_deleted _ _ _ _ _ _ _ _) as [[o4 w4] t4]. cbn [snd] in H4.
        destruct o4 as [[] | e4 |].
        -- destruct (cli_delete_user_profile _ _ _ _) as [r5 w5].
           cbn. repeat (constructor; [cbn; auto |]).
           apply Forall_app. split; [assumption |].
           apply Forall_app. split; [assumption |].
           constructor; [cbn; auto | constructor].
        -- cbn. repeat (constructor; [cbn; auto |]).
           apply Forall_app. now split.
        -- cbn. repeat (constructor; [cbn; auto |]).
           apply Forall_app. now split.
      * cbn. repeat (constructor; [cbn; auto |]). assumption.
      * cbn. repeat (constructor; [cbn; auto |]). assumption.
      * cbn. repeat (constructor; [cbn; auto |]). assumption.
    + cbn. repeat (constructor; [cbn; auto |]). constructor.
  - destruct e1; cbn; repeat (constructor; [cbn; auto |]); constructor.
Qed.

(** X3.  Every interaction of a teardown is a request about the given
    profile in the manager's domain, a request about one of the apps the
    listing answered, or a sleep of five seconds: the teardown lists no
    profiles, creates nothing, and touches no other profile and no app
    outside the listing. *)
Theorem teardown_touches_only_its_profile
    (fuel : nat) (user_profile_name : string) (w : World) :
  Forall (event_about domain_id user_profile_name
            (apps_in_scope (snd (delete_user_profile cli domain_id fuel user_profile_name w))))
         (snd (delete_user_profile cli domain_id fuel user_profile_name w)).
Proof. exact (delete_user_profile_about fuel user_profile_name w). Qed.

(** X1.  What the result of a teardown tells its caller.  [None] means the
    deletion of the profile was not requested: either the profile did not
    exist, and the teardown made no other request, or a status query
    answered [ResourceInUse] and the teardown stopped there.  A response
    means the deletion of the profile was requested once, as the last
    interaction, and the control plane accepted it. *)
Theorem delete_user_profile_result
    (fuel : nat) (user_profile_name : string) (w : World)
    (r : outcome (option Response)) (w' : World) (t : list event) :
  delete_user_profile cli domain_id fuel user_profile_name w = (r, w', t) ->
  (r = Ret None ->
   delete_user_profile_requests t = []
   /\ (t = [EvDescribeUserProfile domain_id user_profile_name (Err ResourceNotFound)]
       \/ exists before a,
            t = before
                ++ [EvDescribeApp domain_id user_profile_name (AppName a) (AppType a)
                      (Err ResourceInUse)]))
  /\ (forall response,
        r = Ret (Some response) ->
        exists before,
          t = before ++ [EvDeleteUserProfile domain_id user_profile_name (Ok response)]
          /\ delete_user_profile_requests before = []).
Proof.
  rewrite delete_user_profile_unfold.
  destruct (cli_describe_user_profile _ _ _ _) as [[p | e1] w1]; cbn zeta.
  - destruct (cli_list_apps _ _ _ _) as [[apps | e2] w2]; cbn zeta.
    + destruct (delete_apps _ _ _ _ _) as [[o3 w3] t3] eqn:Edel.
      pose proof (delete_user_profile_requests_app_event _
                    (delete_apps_events _ _ _ _ _ _ _ _ Edel)) as H3.
      destruct o3 as [[|] | e3 |].
      * destruct (wait_apps_deleted _ _ _ _ _ _ _ _) as [[o4 w4] t4] eqn:Ewait.
        pose proof (delete_user_profile_requests_polling _
                      (wait_apps_deleted_events _ _ _ _ _ _ _ _ _ _ _ Ewait)) as H4.
        destruct o4 as [[] | e4 |].
        -- destruct (cli_delete_user_profile _ _ _ _) as [[response | e5] w5];
             intros Hrun; injection Hrun as <- <- <-; (split; [discriminate |]).
           ++ intros response' Hr. injection Hr as <-.
              exists (EvDescribeUserProfile domain_id user_profile_name (Ok p)
                      :: EvListApps domain_id user_profile_name (Ok apps) :: t3 ++ t4).
              split; [cbn; now rewrite <- app_assoc |].
              cbn. now rewrite delete_user_profile_requests_app, H3, H4.
           ++ discriminate.
        -- intros Hrun; injection Hrun as <- <- <-. split; discriminate.
        -- intros Hrun; injection Hrun as <- <- <-. split; discriminate.
      * intros Hrun; injection Hrun as <- <- <-. split; [| discriminate].
        intros _. split; [exact H3 |]. right.
        apply delete_apps_return in Edel.
        destruct Edel as (queried & a & rest & before & _ & _ & _ & Ht). subst t3.
        now exists (EvDescribeUserProfile domain_id user_profile_name (Ok p)
                    :: EvListApps domain_id user_profile_name (Ok apps) :: before), a.
      * intros Hrun; injection Hrun as <- <- <-. split; discriminate.
      * intros Hrun; injection Hrun as <- <- <-. split; discriminate.
    + intros Hrun; injection Hrun as <- <- <-. split; discriminate.
  - destruct e1; intros Hrun; injection Hrun as <- <- <-; (split; [| discriminate]);
      try discriminate.
    intros _. split; [reflexivity | now left].
Qed.

(** The delete phase over a list in two parts: the second part is run from
    where the first one ended, unless the first one left the method. *)
Lemma delete_apps_app user_profile_name l1 l2 w :
  delete_apps cli domain_id user_profile_name (l1 ++ l2) w
  = match delete_apps cli domain_id user_profile_name l1 w with
    | (Ret Continue, w1, t1) =>
        let '(o, w2, t2) := delete_apps cli domain_id user_profile_name l2 w1 in
        (o, w2, t1 ++ t2)
    | other => other
    end.
Proof.
  revert w. induction l1 as [| a l1 IH]; intros w.
  - cbn [app delete_apps]. unfold ret.
    now destruct (delete_apps _ _ _ l2 w) as [[o w2] t2].
  - cbn [app]. rewrite !delete_apps_cons.
    destruct (cli_describe_app _ _ _ _ _ _) as [[response | []] w1]; cbn zeta;
      try reflexivity.
    + destruct (calls_for_delete (Ok response)).
      * destruct (cli_delete_app _ _ _ _ _ _) as [r2 w2]. rewrite IH.
        destruct (delete_apps _ _ _ l1 w2) as [[[[|] | e |] w3] t3]; try reflexivity.
        now destruct (delete_apps _ _ _ l2 w3) as [[o w4] t4].
      * rewrite IH.
        destruct (delete_apps _ _ _ l1 w1) as [[[[|] | e |] w3] t3]; try reflexivity.
        now destruct (delete_apps _ _ _ l2 w3) as [[o w4] t4].
    + rewrite IH.
      destruct (delete_apps _ _ _ l1 w1) as [[[[|] | e |] w3] t3]; try reflexivity.
      now destruct (delete_apps _ _ _ l2 w3) as [[o w4] t4].
Qed.

(** X4.  A status query that answers [ResourceInUse] in the delete phase
    abandons the teardown.  When the delete phase has passed the apps
    listed before [a] and the status query of [a] answers [ResourceInUse],
    the teardown returns [None] with that query as its last interaction:
    the apps listed after [a] are neither queried nor deleted, no deletion
    is requested for [a], the poller never runs and the deletion of the
    profile is not requested, whatever the fuel.  Conversely a teardown
    that listed apps and returned [None] was abandoned in this way. *)
Theorem resource_in_use_abandons_teardown
    (fuel : nat) (user_profile_name : string) (w : World) :
  (forall p w1 queried a rest w2 w3 t3 w4,
      cli_describe_user_profile cli domain_id user_profile_name w = (Ok p, w1) ->
      cli_list_apps cli domain_id user_profile_name w1 = (Ok (queried ++ a :: rest), w2) ->
      delete_apps cli domain_id user_profile_name queried w2 = (Ret Continue, w3, t3) ->
      cli_describe_app cli domain_id user_profile_name (AppName a) (AppType a) w3
      = (Err ResourceInUse, w4) ->
      delete_user_profile cli domain_id fuel user_profile_name w
      = (Ret None, w4,
         EvDescribeUserProfile domain_id user_profile_name (Ok p)
         :: EvListApps domain_id user_profile_name (Ok (queried ++ a :: rest))
         :: t3 ++ [EvDescribeApp domain_id user_profile_name (AppName a) (AppType a)
                     (Err ResourceInUse)])
      /\ map fst (describe_app_results t3) = queried
      /\ incl (delete_app_requests t3) queried
      /\ ticks t3 = 0)
  /\ (forall w' t apps,
        delete_user_profile cli domain_id fuel user_profile_name w = (Ret None, w', t) ->
        listed_apps t = Some apps ->
        exists queried a rest,
          apps = queried ++ a :: rest
          /\ last_status user_profile_name a t = Some (Err ResourceInUse)
          /\ map fst (describe_app_results t) = queried ++ [a]
          /\ incl (delete_app_requests t) queried
          /\ ticks t = 0
          /\ delete_user_profile_requests t = []).
Proof.
  split.
  - intros p w1 queried a rest w2 w3 t3 w4 Hdesc Hlist Hdel Hquery.
    pose proof (delete_apps_described _ _ _ _ _ _ _ Hdel) as Hqueried.
    split; [| split; [assumption | split]].
    + rewrite delete_user_profile_unfold, Hdesc. cbn zeta. rewrite Hlist. cbn zeta.
      rewrite delete_apps_app, Hdel, delete_apps_cons, Hquery. reflexivity.
    + rewrite (delete_apps_requests _ _ _ _ _ _ _ _ Hdel).
      intros x Hx. rewrite <- Hqueried. apply in_map_iff in Hx. destruct Hx as [ar [<- Har]].
      apply filter_In in Har. apply in_map. now destruct Har.
    + exact (ticks_app_event _ (delete_apps_events _ _ _ _ _ _ _ _ Hdel)).
  - intros w' t apps. rewrite delete_user_profile_unfold.
    destruct (cli_describe_user_profile _ _ _ _) as [[p | e1] w1]; cbn zeta.
    + destruct (cli_list_apps _ _ _ _) as [[apps' | e2] w2]; cbn zeta.
      * destruct (delete_apps _ _ _ _ _) as [[o3 w3] t3] eqn:Edel.
        pose proof (delete_apps_events _ _ _ _ _ _ _ _ Edel) as Hev.
        destruct o3 as [[|] | e3 |].
        -- destruct (wait_apps_deleted _ _ _ _ _ _ _ _) as [[[[] | e4 |] w4] t4];
             [destruct (cli_delete_user_profile _ _ _ _) as [[response | e5] w5] | |];
             intros Hrun; discriminate Hrun.
        -- intros Hrun Hlisted. injection Hrun as <- <-. cbn in Hlisted.
           injection Hlisted as ->.
           apply delete_apps_return in Edel.
           destruct Edel as (queried & a & rest & before & Happs & Hq & Hincl & Ht).
           exists queried, a, rest. cbn.
           rewrite (ticks_app_event _ Hev), (delete_user_profile_requests_app_event _ Hev).
           repeat split; try assumption.
           subst t3.
           change (?x :: ?y :: before ++ ?l) with ([x; y] ++ before ++ l).
           rewrite !last_status_app. cbn. now rewrite !String.eqb_refl.
        -- intros Hrun; discriminate Hrun.
        -- intros Hrun; discriminate Hrun.
      * intros Hrun; discriminate Hrun.
    + destruct e1; intros Hrun; try discriminate Hrun.
      injection Hrun as <- <-. cbn. discriminate.
Qed.

(** X2.  A teardown that ends with the deletion of the profile sleeps if
    and only if the listing answered at least one app: with apps it polls
    at least once, five seconds, even when every app is already deleted;
    without apps it makes three requests and never sleeps.  Each listed app
    is queried once in the delete phase and once per tick. *)
Theorem teardown_sleeps_iff_apps
    (fuel : nat) (user_profile_name : string) (w : World) (response : Response)
    (w' : World) (t : list event) (apps : list App) :
  delete_user_profile cli domain_id fuel user_profile_name w
  = (Ret (Some response), w', t) ->
  listed_apps t = Some apps ->
  (ticks t = 0 <-> apps = [])
  /\ (apps = [] -> length t = 3)
  /\ length (describe_app_results t) = length apps * (1 + ticks t).
Proof.
  intros Hrun Hlisted.
  assert (Hq : map fst (describe_app_results t) = apps ++ concat (repeat apps (ticks t))).
  { eapply delete_user_profile_queries; [exact Hrun | exact Hlisted |].
    right. now exists response. }
  assert (Hcount : length (describe_app_results t) = length apps * (1 + ticks t)).
  { rewrite <- (length_map fst), Hq, length_app. clear.
    induction (ticks t) as [| k IH]; cbn; [lia |]. rewrite length_app. lia. }
  split; [| split; [| exact Hcount]]; clear Hq Hcount;
    revert Hrun Hlisted; rewrite delete_user_profile_unfold;
    (destruct (cli_describe_user_profile _ _ _ _) as [[p | e1] w1]; cbn zeta;
     [| destruct e1; intros Hrun; discriminate Hrun]);
    (destruct (cli_list_apps _ _ _ _) as [[apps' | e2] w2]; cbn zeta;
     [| intros Hrun; discriminate Hrun]);
    (destruct apps' as [| a apps']).
  - change (delete_apps cli domain_id user_profile_name [] w2)
      with (@Ret flow Continue, w2, @nil event).
    cbn iota. rewrite wait_apps_deleted_no_apps. cbn.
    destruct (cli_delete_user_profile _ _ _ _) as [[response' | e5] w5];
      intros Hrun Hlisted; [| discriminate Hrun].
    injection Hrun as _ _ <-. cbn in Hlisted. injection Hlisted as <-. now split.
  - destruct (delete_apps _ _ _ _ _) as [[[[|] | e3 |] w3] t3] eqn:Edel;
      try (intros Hrun; discriminate Hrun).
    destruct (wait_apps_deleted _ _ _ _ _ _ _ _) as [[[[] | e4 |] w4] t4] eqn:Ewait;
      try (intros Hrun; discriminate Hrun).
    destruct (cli_delete_user_profile _ _ _ _) as [[response' | e5] w5];
      intros Hrun Hlisted; [| discriminate Hrun].
    injection Hrun as _ _ <-. cbn in Hlisted. injection Hlisted as <-.
    apply wait_apps_deleted_returns in Ewait.
    destruct Ewait as [[Hlen _] | (before & answers & Ht4 & _)]; [cbn in Hlen; lia |].
    subst t4. cbn. rewrite !ticks_app. cbn. split; [lia | discriminate].
  - change (delete_apps cli domain_id user_profile_name [] w2)
      with (@Ret flow Continue, w2, @nil event).
    cbn iota. rewrite wait_apps_deleted_no_apps. cbn.
    destruct (cli_delete_user_profile _ _ _ _) as [[response' | e5] w5];
      intros Hrun Hlisted; [| discriminate Hrun].
    injection Hrun as _ _ <-. reflexivity.
  - destruct (delete_apps _ _ _ _ _) as [[[[|] | e3 |] w3] t3] eqn:Edel;
      try (intros Hrun; discriminate Hrun).
    destruct (wait_apps_deleted _ _ _ _ _ _ _ _) as [[[[] | e4 |] w4] t4] eqn:Ewait;
      try (intros Hrun; discriminate Hrun).
    destruct (cli_delete_user_profile _ _ _ _) as [[response' | e5] w5];
      intros Hrun Hlisted; [| discriminate Hrun].
    injection Hrun as _ _ <-. cbn in Hlisted. injection Hlisted as <-. discriminate.
Qed.
End TeardownExtras.

Section ReplaceExtras.
Context {World : Type}.
Variable cli : Client World.
Variable domain_id : option string.

(** The snapshot describes the listed profiles in order and stops at the
    first description that raises. *)
Lemma describe_all_run listed w r w' t :
  describe_all cli domain_id listed w = (r, w', t) ->
  Forall (fun ev => ~ mutation ev) t
  /\ match r with
     | Ret described =>
         length described = length listed
         /\ t = snapshot_events domain_id listed described
     | Raise e => True
     | Diverge => False
     end.
Proof.
  revert w r w' t. induction listed as [| x rest IH]; intros w r w' t Hrun.
  - injection Hrun as <- <- <-. split; [constructor | now split].
  - cbn [describe_all] in Hrun. unfold bind at 1 in Hrun.
    unfold describe_user_profile, invoke in Hrun.
    destruct (cli_describe_user_profile _ _ _ _) as [[d | e] w1].
    + unfold bind at 1 in Hrun.
      destruct (describe_all _ _ rest w1) as [[o w2] t2] eqn:Erest.
      apply IH in Erest. destruct Erest as [Hquiet Ho].
      destruct o as [described | e |]; [| | contradiction].
      * cbn in Hrun. injection Hrun as <- <- <-. destruct Ho as [Hlen Ht2]. subst t2.
        split; [| split].
        -- rewrite app_nil_r. constructor; [exact (fun H => H) | assumption].
        -- cbn. now rewrite Hlen.
        -- cbn. now rewrite app_nil_r.
      * injection Hrun as <- <- <-. split; [| exact I].
        constructor; [exact (fun H => H) | assumption].
    + injection Hrun as <- <- <-. split; [| exact I].
      constructor; [exact (fun H => H) | constructor].
Qed.

Lemma quiet_prefix l rest before ev after :
  Forall (fun ev => ~ mutation ev) l ->
  mutation ev ->
  l ++ rest = before ++ ev :: after ->
  exists loop, before = l ++ loop.
Proof.
  revert before. induction l as [| x l IH]; intros before Hquiet Hev Heq.
  - now exists before.
  - inversion Hquiet as [| y l' Hx Hl]; subst.
    destruct before as [| b before]; cbn in Heq.
    + injection Heq as -> _. contradiction.
    + injection Heq as -> Heq. destruct (IH before Hl Hev Heq) as [loop ->].
      now exists loop.
Qed.

(** X5.  [recreate_all_user_profiles] changes nothing before its snapshot
    is complete: every request that deletes or creates something comes
    after the listing answered and every listed profile was described, in
    the order of the listing.  When the listing or one description raises,
    the operation has deleted and created nothing. *)
Theorem snapshot_precedes_every_mutation
    (fuel : nat) (w : World) (r : outcome unit) (w' : World) (t : list event)
    (before : list event) (ev : event) (after : list event) :
  recreate_all_user_profiles cli domain_id fuel w = (r, w', t) ->
  t = before ++ ev :: after ->
  mutation ev ->
  exists listed described loop,
    length described = length listed
    /\ before = EvListUserProfiles domain_id (Ok listed)
                :: snapshot_events domain_id listed described ++ loop.
Proof.
  rewrite recreate_all_user_profiles_unfold.
  destruct (cli_list_user_profiles _ _ _) as [[listed | e1] w1]; cbn zeta.
  - destruct (describe_all _ _ _ _) as [[o2 w2] t2] eqn:Esnap.
    apply describe_all_run in Esnap. destruct Esnap as [Hquiet Ho].
    assert (Hquiet' : Forall (fun ev => ~ mutation ev)
                             (EvListUserProfiles domain_id (Ok listed) :: t2)).
    { constructor; [exact (fun H => H) | assumption]. }
    destruct o2 as [described | e2 |]; [| | contradiction].
    + destruct Ho as [Hlen Ht2].
      destruct (recreate_each _ _ _ _ _) as [[o3 w3] t3].
      intros Hrun Ht Hev. injection Hrun as _ _ <-.
      change (?x :: t2 ++ t3) with ((x :: t2) ++ t3) in Ht.
      destruct (quiet_prefix _ _ _ _ _ Hquiet' Hev Ht) as [loop ->].
      exists listed, described, loop. subst t2. now split.
    + intros Hrun Ht Hev. injection Hrun as _ _ <-.
      rewrite <- (app_nil_r (_ :: t2)) in Ht.
      destruct (quiet_prefix _ _ _ _ _ Hquiet' Hev Ht) as [loop ->].
      exfalso. rewrite <- app_assoc in Ht. apply app_inv_head in Ht.
      now destruct loop.
  - intros Hrun Ht Hev. injection Hrun as _ _ <-.
    destruct before as [| b [| b' before]]; cbn in Ht; try discriminate.
    injection Ht as <- _. contradiction.
Qed.

(** X6.  A profile whose description lacks the execution role is torn down
    and not created again: the lookup of the role raises [KeyError] only
    after the teardown and the wait, so the replacement issues no create
    request and does not return, whatever the teardown deleted. *)
Theorem missing_role_deletes_without_recreating
    (fuel : nat) (i : UserProfile) (w : World)
    (r : outcome unit) (w' : World) (t : list event) :
  execution_role i = None ->
  recreate_user_profile cli domain_id fuel i w = (r, w', t) ->
  create_requests t = []
  /\ r <> Ret tt
  /\ forall u w1 t1 listed w2,
       delete_user_profile cli domain_id fuel (UserProfileName i) w = (Ret u, w1, t1) ->
       cli_list_user_profiles cli domain_id w1 = (Ok listed, w2) ->
       (r = Raise (KeyError "UserSettings") \/ r = Raise (KeyError "ExecutionRole"))
       /\ t = t1 ++ [EvListUserProfiles domain_id (Ok listed); EvSleep 5].
Proof.
  intros Hrole Hrun.
  pose proof (recreate_user_profile_log cli domain_id _ _ _ _ _ _ Hrun) as [_ Hcreate].
  destruct Hcreate as [[Hnone Hr] | [role [Hsome _]]]; [| congruence].
  split; [assumption |]. split; [assumption |].
  intros u w1 t1 listed w2 Hdel Hlist.
  rewrite recreate_user_profile_unfold, Hdel, Hlist in Hrun. cbn zeta in Hrun.
  unfold execution_role in Hrole.
  destruct (UserSettings i) as [settings |].
  - rewrite Hrole in Hrun. injection Hrun as <- _ <-. split; [now right | reflexivity].
  - injection Hrun as <- _ <-. split; [now left | reflexivity].
Qed.

(** The replacement of one profile requests the deletion of that profile
    only. *)
Lemma recreate_user_profile_deletes fuel i w :
  incl (delete_user_profile_requests
          (snd (recreate_user_profile cli domain_id fuel i w)))
       [UserProfileName i].
Proof.
  rewrite recreate_user_profile_unfold.
  pose proof (delete_user_profile_about cli domain_id fuel (UserProfileName i) w)
    as Habout.
  destruct (delete_user_profile _ _ _ _ _) as [[o1 w1] t1]. cbn [snd] in Habout.
  assert (H1 : incl (delete_user_profile_requests t1) [UserProfileName i]).
  { clear - Habout. induction Habout as [| ev t Hev _ IH]; [intros x [] |].
    destruct ev; cbn in *; try assumption.
    destruct Hev as [_ ->]. intros x [<- | Hx]; [now left | now apply IH]. }
  destruct o1 as [u | e |]; cbn [snd]; try assumption.
  destruct (cli_list_user_profiles _ _ _) as [[listed | e] w2]; cbn zeta.
  - destruct (UserSettings i) as [[[role |]] |]; cbn [ExecutionRole]; cbn beta iota zeta;
      [destruct (cli_create_user_profile _ _ _ _ _) as [r4 w4] | |]; cbn [snd];
      rewrite delete_user_profile_requests_app; cbn; now rewrite app_nil_r.
  - cbn [snd]. rewrite delete_user_profile_requests_app. cbn. now rewrite app_nil_r.
Qed.

(** The loop of [recreate_all_user_profiles] deletes and creates profiles
    of the list it is given only. *)
Lemma recreate_each_touches_only_the_snapshot
    (fuel : nat) (user_profiles : list UserProfile) (w : World) :
  incl (delete_user_profile_requests
          (snd (recreate_each cli domain_id fuel user_profiles w)))
       (map UserProfileName user_profiles)
  /\ incl (map (fun request => (fst request, Some (snd request)))
               (create_requests (snd (recreate_each cli domain_id fuel user_profiles w))))
          (map (fun i => (UserProfileName i, execution_role i)) user_profiles).
Proof.
  revert w. induction user_profiles as [| i rest IH]; intros w.
  - split; intros x [].
  - rewrite recreate_each_cons.
    pose proof (recreate_user_profile_deletes fuel i w) as Hdel.
    destruct (recreate_user_profile _ _ _ _ _) as [[o1 w1] t1] eqn:Eone.
    cbn [snd] in Hdel.
    apply recreate_user_profile_log in Eone. destruct Eone as [_ Hcreate].
    assert (Hc1 : incl (map (fun request => (fst request, Some (snd request)))
                            (create_requests t1))
                       [(UserProfileName i, execution_role i)]).
    { destruct Hcreate as [[-> _] | [role [-> ->]]]; [intros x [] | apply incl_refl]. }
    destruct o1 as [[] | e |]; cbn [snd].
    + specialize (IH w1). destruct (recreate_each _ _ _ rest w1) as [[o2 w2] t2].
      cbn [snd] in *. destruct IH as [IHd IHc].
      rewrite delete_user_profile_requests_app, create_requests_app, map_app. split.
      * apply incl_app; [| now apply incl_tl].
        intros x Hx. apply Hdel in Hx. destruct Hx as [<- | []]. now left.
      * apply incl_app; [| now apply incl_tl].
        intros x Hx. apply Hc1 in Hx. destruct Hx as [<- | []]. now left.
    + split.
      * intros x Hx. apply Hdel in Hx. destruct Hx as [<- | []]. now left.
      * intros x Hx. apply Hc1 in Hx. destruct Hx as [<- | []]. now left.
    + split.
      * intros x Hx. apply Hdel in Hx. destruct Hx as [<- | []]. now left.
      * intros x Hx. apply Hc1 in Hx. destruct Hx as [<- | []]. now left.
Qed.
End ReplaceExtras.

Section ReplaceScope.
Context {World : Type}.
Variable cli : Client World.
Variable domain_id : option string.

Lemma quiet_log t :
  Forall (fun ev => ~ mutation ev) t ->
  delete_user_profile_requests t = [] /\ create_requests t = [].
Proof.
  induction 1 as [| ev t Hev _ [IHd IHc]]; [now split |].
  destruct ev; cbn in *; try (now split); now destruct Hev.
Qed.

(** X7.  [recreate_all_user_profiles] deletes and creates profiles of its
    snapshot only: every profile whose deletion it requests and every
    profile it asks to create was described in the snapshot, and a create
    request carries the execution role of that description. *)
Theorem replace_touches_only_the_snapshot
    (fuel : nat) (w : World) (listed : list UserProfile) (w1 : World)
    (user_profiles : list UserProfile) (w2 : World) (snapshot_log : list event)
    (r : outcome unit) (w' : World) (t : list event) :
  cli_list_user_profiles cli domain_id w = (Ok listed, w1) ->
  describe_all cli domain_id listed w1 = (Ret user_profiles, w2, snapshot_log) ->
  recreate_all_user_profiles cli domain_id fuel w = (r, w', t) ->
  incl (delete_user_profile_requests t) (map UserProfileName user_profiles)
  /\ incl (map (fun request => (fst request, Some (snd request))) (create_requests t))
          (map (fun i => (UserProfileName i, execution_role i)) user_profiles).
Proof.
  intros Hlist Hsnapshot Hrun.
  rewrite recreate_all_user_profiles_unfold, Hlist in Hrun. cbn zeta in Hrun.
  rewrite Hsnapshot in Hrun.
  pose proof (recreate_each_touches_only_the_snapshot cli domain_id fuel user_profiles w2)
    as [Hd Hc].
  destruct (recreate_each _ _ _ _ _) as [[o w3] loop_log]. cbn [snd] in Hd, Hc.
  injection Hrun as _ _ <-.
  apply describe_all_run in Hsnapshot. destruct Hsnapshot as [Hquiet _].
  apply quiet_log in Hquiet. destruct Hquiet as [Hqd Hqc].
  cbn. now rewrite delete_user_profile_requests_app, create_requests_app, Hqd, Hqc.
Qed.
End ReplaceScope.

(** X1, witness: a status query answers [ResourceInUse]; the teardown
    returns [None] and requests no deletion of the profile. *)
Lemma delete_user_profile_result_witness :
  delete_user_profile_requests second_child_in_use_log = []
  /\ (second_child_in_use_log = [EvDescribeUserProfile None "prof-1" (Err ResourceNotFound)]
      \/ exists before a,
           second_child_in_use_log
           = before ++ [EvDescribeApp None "prof-1" (AppName a) (AppType a)
                          (Err ResourceInUse)]).
Proof.
  exact (proj1 (delete_user_profile_result (scripted second_child_in_use) None 1 "prof-1" 0
                  (Ret None) 0 second_child_in_use_log eq_refl) eq_refl).
Defined.

(** X2, witness: A has failed and B is deleted; the teardown still polls
    once. *)
Lemma teardown_sleeps_iff_apps_witness :
  (ticks (failed_child_log ++ [EvDeleteUserProfile None "prof-1" (Ok tt)]) = 0
   <-> [app_A; app_B] = [])
  /\ ([app_A; app_B] = []
      -> length (failed_child_log ++ [EvDeleteUserProfile None "prof-1" (Ok tt)]) = 3)
  /\ length (describe_app_results
               (failed_child_log ++ [EvDeleteUserProfile None "prof-1" (Ok tt)]))
     = length [app_A; app_B]
       * (1 + ticks (failed_child_log ++ [EvDeleteUserProfile None "prof-1" (Ok tt)])).
Proof.
  exact (teardown_sleeps_iff_apps (scripted failed_child) None 1 "prof-1" 0 tt 5
           (failed_child_log ++ [EvDeleteUserProfile None "prof-1" (Ok tt)])
           [app_A; app_B] eq_refl eq_refl).
Defined.

(** X4, witness: the status query of B answers [ResourceInUse]; C is never
    queried and the deletion of A alone was requested. *)
Lemma resource_in_use_abandons_teardown_witness :
  delete_user_profile (scripted second_child_in_use) None 1 "prof-1" 0
  = (Ret None, 0, second_child_in_use_log)
  /\ exists queried a rest,
       [app_A; app_B; app_named "C"] = queried ++ a :: rest
       /\ last_status "prof-1" a second_child_in_use_log = Some (Err ResourceInUse)
       /\ map fst (describe_app_results second_child_in_use_log) = queried ++ [a]
       /\ incl (delete_app_requests second_child_in_use_log) queried
       /\ ticks second_child_in_use_log = 0
       /\ delete_user_profile_requests second_child_in_use_log = [].
Proof.
  destruct (resource_in_use_abandons_teardown (scripted second_child_in_use) None
              1 "prof-1" 0) as [Habandons Hconverse].
  split.
  - exact (proj1 (Habandons (profile "prof-1" "r1") 0 [app_A] app_B [app_named "C"] 0 0
                    [EvDescribeApp None "prof-1" "A" "JupyterServer" (reports "InService");
                     EvDeleteApp None "prof-1" "A" "JupyterServer" (Ok tt)]
                    0 eq_refl eq_refl eq_refl eq_refl)).
  - exact (Hconverse 0 second_child_in_use_log [app_A; app_B; app_named "C"]
             eq_refl eq_refl).
Defined.

(** X5, witness: in the replacement of two profiles the first deletion
    comes after the listing and both descriptions. *)
Lemma snapshot_precedes_every_mutation_witness :
  exists listed described loop,
    length described = length listed
    /\ [EvListUserProfiles None
          (Ok [{| UserProfileName := "prof-1"; UserSettings := None |};
               {| UserProfileName := "prof-2"; UserSettings := None |}]);
        EvDescribeUserProfile None "prof-1" (Ok (profile "prof-1" "r1"));
        EvDescribeUserProfile None "prof-2" (Ok (profile "prof-2" "r2"));
        EvDescribeUserProfile None "prof-1" (Ok (profile "prof-1" "r1"));
        EvListApps None "prof-1" (Ok [])]
       = EvListUserProfiles None (Ok listed) :: snapshot_events None listed described ++ loop.
Proof.
  exact (snapshot_precedes_every_mutation (scripted rejected_create) None 1 0
           (Raise (OtherError "ResourceLimitExceeded")) 5 _
           [EvListUserProfiles None
              (Ok [{| UserProfileName := "prof-1"; UserSettings := None |};
                   {| UserProfileName := "prof-2"; UserSettings := None |}]);
            EvDescribeUserProfile None "prof-1" (Ok (profile "prof-1" "r1"));
            EvDescribeUserProfile None "prof-2" (Ok (profile "prof-2" "r2"));
            EvDescribeUserProfile None "prof-1" (Ok (profile "prof-1" "r1"));
            EvListApps None "prof-1" (Ok [])]
           (EvDeleteUserProfile None "prof-1" (Ok tt))
           [EvListUserProfiles None
              (Ok [{| UserProfileName := "prof-1"; UserSettings := None |};
                   {| UserProfileName := "prof-2"; UserSettings := None |}]);
            EvSleep 5;
            EvCreateUserProfile None "prof-1" "r1" (Err (OtherError "ResourceLimitExceeded"))]
           eq_refl eq_refl I).
Defined.

(** X6, witness: [prof-1] has no settings; its deletion is requested and
    accepted, and the lookup of the role then raises. *)
Lemma missing_role_deletes_without_recreating_witness :
  create_requests (no_role_teardown_log
                   ++ [EvListUserProfiles None
                         (Ok [{| UserProfileName := "prof-1"; UserSettings := None |}]);
                       EvSleep 5]) = []
  /\ Raise (KeyError "UserSettings") <> Ret tt
  /\ delete_user_profile_requests no_role_teardown_log = ["prof-1"].
Proof.
  destruct (missing_role_deletes_without_recreating (scripted no_role) None 1
              {| UserProfileName := "prof-1"; UserSettings := None |} 0
              (Raise (KeyError "UserSettings")) 5
              (no_role_teardown_log
               ++ [EvListUserProfiles None
                     (Ok [{| UserProfileName := "prof-1"; UserSettings := None |}]);
                   EvSleep 5])
              eq_refl eq_refl) as (Hcreate & Hr & _).
  split; [exact Hcreate |]. split; [exact Hr | reflexivity].
Defined.

(** X7, witness: the replacement in [rejected_create] touches [prof-1], a
    profile of its snapshot. *)
Lemma replace_touches_only_the_snapshot_witness :
  incl (delete_user_profile_requests
          (snd (recreate_all_user_profiles (scripted rejected_create) None 1 0)))
       ["prof-1"; "prof-2"]
  /\ incl (map (fun request => (fst request, Some (snd request)))
               (create_requests
                  (snd (recreate_all_user_profiles (scripted rejected_create) None 1 0))))
          [("prof-1", Some "r1"); ("prof-2", Some "r2")].
Proof.
  exact (replace_touches_only_the_snapshot (scripted rejected_create) None 1 0
           _ 0 [profile "prof-1" "r1"; profile "prof-2" "r2"] 0 _
           (Raise (OtherError "ResourceLimitExceeded")) 5 _
           eq_refl eq_refl eq_refl).
Defined.

(** * Properties of the code outside the teardown *)

(** ** Key pairs *)

Section ForEach.
Context {World Request A : Type}.
Variable request_of : A -> Request.
Variable op : A -> World -> Py.answer unit * World.

(** A loop of client calls sends its requests in the order of the list and
    stops at the first call that raises. *)
Lemma for_each_calls (l : list A) (w : World) r w' t :
  Py.for_each l (fun x => Py.call (request_of x) (op x)) w = (r, w', t) ->
  exists n,
    n <= length l
    /\ t = map request_of (firstn n l)
    /\ (r = Py.Returns tt -> n = length l)
    /\ ((forall x w0, fst (op x w0) = Py.Returns tt) -> n = length l)
    /\ (forall e, r = Py.Raises e ->
          exists x w0, nth_error l (n - 1) = Some x /\ 0 < n
                       /\ fst (op x w0) = Py.Raises e).
Proof.
  revert w r w' t. induction l as [| x l IH]; intros w r w' t Hrun.
  - injection Hrun as <- <- <-. exists 0. cbn.
    split; [lia |]. split; [reflexivity |]. split; [reflexivity |].
    split; [reflexivity | discriminate].
  - cbn [Py.for_each] in Hrun. unfold Py.bind at 1 in Hrun. unfold Py.call at 1 in Hrun.
    destruct (op x w) as [[[] | e] w1] eqn:Ex.
    + destruct (Py.for_each l _ w1) as [[r2 w2] t2] eqn:Erest.
      injection Hrun as <- <- <-.
      destruct (IH _ _ _ _ Erest) as (n & Hn & Hlog & Hret & Hall & Hraise).
      exists (S n). cbn.
      split; [lia |]. split; [now rewrite Hlog |].
      split; [intros Hr; now rewrite (Hret Hr) |].
      split; [intros Hok; now rewrite (Hall Hok) |].
      intros e Hr. destruct (Hraise e Hr) as (y & w0 & Hnth & Hpos & Hy).
      exists y, w0. split; [| split; [lia | assumption]].
      rewrite Nat.sub_0_r. destruct n as [| n]; [lia |].
      cbn in Hnth. now rewrite Nat.sub_0_r in Hnth.
    + injection Hrun as <- <- <-. exists 1. cbn.
      split; [lia |]. split; [reflexivity |]. split; [discriminate |].
      split.
      * intros Hok. specialize (Hok x w). rewrite Ex in Hok. discriminate.
      * intros e' He'. injection He' as <-. exists x, w.
        split; [reflexivity |]. split; [lia |]. now rewrite Ex.
Qed.
End ForEach.

Lemma deleted_key_pairs_map l :
  EC2.deleted_key_pairs (map EC2.DeleteKeyPair l) = l.
Proof. induction l as [| x l IH]; [reflexivity | cbn; now rewrite IH]. Qed.

Lemma mem_spec x s : Py.mem x s = true <-> In x s.
Proof.
  unfold Py.mem. rewrite existsb_exists. split.
  - intros [y [Hy Heq]]. apply String.eqb_eq in Heq. now subst.
  - intros Hx. exists x. split; [assumption | apply String.eqb_refl].
Qed.

Lemma difference_spec s t x : In x (Py.difference s t) <-> In x s /\ ~ In x t.
Proof.
  unfold Py.difference. rewrite filter_In, negb_true_iff, <- not_true_iff_false, mem_spec.
  tauto.
Qed.

(** The first instances exist exactly when no reservation is empty. *)
Lemma first_instances_spec reservations :
  match EC2.first_instances reservations with
  | Py.Returns instances =>
      Forall2 (fun reservation instance =>
                 exists rest, EC2.Instances reservation = instance :: rest)
              reservations instances
  | Py.Raises e =>
      e = Py.IndexError /\ exists reservation,
        In reservation reservations /\ EC2.Instances reservation = []
  end.
Proof.
  induction reservations as [| reservation rest IH]; cbn; [constructor |].
  destruct (EC2.Instances reservation) as [| instance others] eqn:E.
  - split; [reflexivity |]. exists reservation. split; [now left | assumption].
  - destruct (EC2.first_instances rest) as [instances | e].
    + constructor; [now exists others | assumption].
    + destruct IH as [He [r [Hin Hr]]]. split; [assumption |].
      exists r. split; [now right | assumption].
Qed.

Lemma key_names_spec instances :
  match EC2.key_names instances with
  | Py.Returns names => map EC2.KeyName instances = map Some names
  | Py.Raises e =>
      e = Py.KeyError "KeyName" /\ exists instance,
        In instance instances /\ EC2.KeyName instance = None
  end.
Proof.
  induction instances as [| instance rest IH]; cbn; [reflexivity |].
  destruct (EC2.KeyName instance) as [name |] eqn:E.
  - destruct (EC2.key_names rest) as [names | e].
    + cbn. now rewrite IH.
    + destruct IH as [He [i [Hin Hi]]]. split; [assumption |].
      exists i. split; [now right | assumption].
  - split; [reflexivity |]. exists instance. split; [now left | assumption].
Qed.

Lemma first_key_names reservations instances names k :
  EC2.first_instances reservations = Py.Returns instances ->
  EC2.key_names instances = Py.Returns names ->
  In k names <-> first_key reservations k.
Proof.
  intros Hfirst Hnames.
  pose proof (first_instances_spec reservations) as Hf. rewrite Hfirst in Hf.
  pose proof (key_names_spec instances) as Hk. rewrite Hnames in Hk.
  clear Hfirst Hnames. revert names Hk.
  induction Hf as [| reservation instance reservations instances [rest Hr] _ IH];
    intros names Hk.
  - destruct names; [| discriminate].
    split; [intros [] | intros (r & i & rest & [] & _)].
  - destruct names as [| name names]; [discriminate |].
    cbn in Hk. injection Hk as Hname Hk. specialize (IH names Hk). split.
    + intros [<- | Hin].
      * exists reservation, instance, rest. repeat split; [now left | assumption..].
      * apply IH in Hin. destruct Hin as (r & i & rest' & Hin & Hi & Hkey).
        exists r, i, rest'. repeat split; [now right | assumption..].
    + intros (r & i & rest' & [<- | Hin] & Hi & Hkey).
      * rewrite Hr in Hi. injection Hi as <- _. left. congruence.
      * right. apply IH. now exists r, i, rest'.
Qed.

Lemma first_instances_usable reservations instances names :
  Forall2 (fun reservation instance =>
             exists rest, EC2.Instances reservation = instance :: rest)
          reservations instances ->
  map EC2.KeyName instances = map Some names ->
  forall reservation, In reservation reservations ->
    exists instance rest name,
      EC2.Instances reservation = instance :: rest /\ EC2.KeyName instance = Some name.
Proof.
  intros Hf. revert names.
  induction Hf as [| r i rs insts [rest Hr] _ IH]; intros names Hk reservation Hin;
    [contradiction |].
  destruct names as [| name names]; [discriminate |].
  cbn in Hk. injection Hk as Hname Hk. destruct Hin as [<- | Hin].
  - now exists i, rest, name.
  - now apply (IH names Hk).
Qed.

Lemma first_instances_nonempty reservations instances :
  Forall2 (fun reservation instance =>
             exists rest, EC2.Instances reservation = instance :: rest)
          reservations instances ->
  forall reservation, In reservation reservations -> EC2.Instances reservation <> [].
Proof.
  induction 1 as [| r i rs insts [rest Hi] _ IH]; intros reservation Hin;
    [contradiction |].
  destruct Hin as [<- | Hin]; [congruence | now apply IH].
Qed.

Lemma first_instances_lacking reservations instances instance :
  Forall2 (fun reservation instance =>
             exists rest, EC2.Instances reservation = instance :: rest)
          reservations instances ->
  In instance instances ->
  exists reservation rest,
    In reservation reservations /\ EC2.Instances reservation = instance :: rest.
Proof.
  induction 1 as [| r i rs insts [rest Hi] _ IH]; intros Hin; [contradiction |].
  destruct Hin as [<- | Hin].
  - exists r, rest. split; [now left | assumption].
  - destruct (IH Hin) as (r' & rest' & Hr' & Hi'). exists r', rest'.
    split; [now right | assumption].
Qed.

Lemma In_firstn {A} (n : nat) (l : list A) (x : A) : In x (firstn n l) -> In x l.
Proof.
  revert l. induction n as [| n IH]; intros [| y l]; cbn; try contradiction.
  intros [<- | Hin]; [now left | right; now apply IH].
Qed.

Lemma NoDup_firstn {A} (n : nat) (l : list A) : NoDup l -> NoDup (firstn n l).
Proof.
  intros Hl. revert n. induction Hl as [| x l Hx _ IH]; intros [| n]; cbn;
    try constructor.
  - intros Hin. apply Hx. eapply In_firstn. exact Hin.
  - apply IH.
Qed.

Section KeyPairs.
Context {World : Type}.
Variable cli : EC2.Client World.
Variable order : Py.SetOrder.

(** The outcome of [list_unused_key_pairs] once the two client calls have
    answered. *)
Lemma list_unused_key_pairs_run w key_pairs w1 reservations w2 :
  EC2.cli_describe_key_pairs cli w = (Py.Returns key_pairs, w1) ->
  EC2.cli_describe_instances cli None w1 = (Py.Returns reservations, w2) ->
  EC2.list_unused_key_pairs cli w
  = (match EC2.first_instances reservations with
     | Py.Returns instances =>
         match EC2.key_names instances with
         | Py.Returns used =>
             Py.Returns (Py.difference (map EC2.KeyPairName key_pairs) used)
         | Py.Raises e => Py.Raises e
         end
     | Py.Raises e => Py.Raises e
     end,
     w2, [EC2.DescribeKeyPairs; EC2.DescribeInstances None]).
Proof.
  intros Hkeys Hinstances.
  unfold EC2.list_unused_key_pairs, EC2.list_key_pairs, EC2.describe_instances.
  unfold Py.bind, Py.call, Py.lift, Py.ret. rewrite Hkeys, Hinstances.
  destruct (EC2.first_instances reservations) as [instances | e]; [| reflexivity].
  destruct (EC2.key_names instances) as [used | e]; reflexivity.
Qed.

(** What [list_unused_key_pairs] gives once the two listings answered. *)
Lemma list_unused_key_pairs_spec
    (w : World) (key_pairs : list EC2.KeyPair) (w1 : World)
    (reservations : list EC2.Reservation) (w2 : World) :
  EC2.cli_describe_key_pairs cli w = (Py.Returns key_pairs, w1) ->
  EC2.cli_describe_instances cli None w1 = (Py.Returns reservations, w2) ->
  match fst (fst (EC2.list_unused_key_pairs cli w)) with
  | Py.Returns unused =>
      (forall k, In k unused
                 <-> In k (map EC2.KeyPairName key_pairs) /\ ~ first_key reservations k)
      /\ (forall reservation, In reservation reservations ->
            exists instance rest name,
              EC2.Instances reservation = instance :: rest
              /\ EC2.KeyName instance = Some name)
  | Py.Raises e =>
      (e = Py.IndexError
       /\ exists reservation,
            In reservation reservations /\ EC2.Instances reservation = [])
      \/ (e = Py.KeyError "KeyName"
          /\ (forall reservation, In reservation reservations ->
                EC2.Instances reservation <> [])
          /\ exists reservation instance rest,
               In reservation reservations
               /\ EC2.Instances reservation = instance :: rest
               /\ EC2.KeyName instance = None)
  end.
Proof.
  intros Hkeys Hinstances.
  rewrite (list_unused_key_pairs_run _ _ _ _ _ Hkeys Hinstances). cbn [fst].
  pose proof (first_instances_spec reservations) as Hf.
  destruct (EC2.first_instances reservations) as [instances | e] eqn:Efirst.
  - pose proof (key_names_spec instances) as Hk.
    destruct (EC2.key_names instances) as [used | e] eqn:Enames.
    + split.
      * intros k. rewrite difference_spec.
        now rewrite (first_key_names _ _ _ k Efirst Enames).
      * exact (first_instances_usable _ _ _ Hf Hk).
    + right. destruct Hk as [-> (instance & Hin & Hnone)]. split; [reflexivity |].
      split; [exact (first_instances_nonempty _ _ Hf) |].
      destruct (first_instances_lacking _ _ _ Hf Hin) as (r & rest & Hr & Hi).
      now exists r, instance, rest.
  - left. exact Hf.
Qed.

(** X9.  [list_unused_key_pairs] looks at the first instance of every
    reservation only.  When the two listings answer: a reservation without
    instances makes it raise [IndexError]; otherwise a first instance
    without key pair makes it raise [KeyError]; otherwise it returns the
    key pairs that are the key of no first instance, so a key pair used
    only by a later instance of a reservation is reported as unused. *)
Theorem list_unused_key_pairs_outcome
    (w : World) (key_pairs : list EC2.KeyPair) (w1 : World)
    (reservations : list EC2.Reservation) (w2 : World) :
  EC2.cli_describe_key_pairs cli w = (Py.Returns key_pairs, w1) ->
  EC2.cli_describe_instances cli None w1 = (Py.Returns reservations, w2) ->
  match fst (fst (EC2.list_unused_key_pairs cli w)) with
  | Py.Returns unused =>
      (forall k, In k unused
                 <-> In k (map EC2.KeyPairName key_pairs) /\ ~ first_key reservations k)
      /\ (forall reservation, In reservation reservations ->
            exists instance rest name,
              EC2.Instances reservation = instance :: rest
              /\ EC2.KeyName instance = Some name)
  | Py.Raises e =>
      (e = Py.IndexError
       /\ exists reservation,
            In reservation reservations /\ EC2.Instances reservation = [])
      \/ (e = Py.KeyError "KeyName"
          /\ (forall reservation, In reservation reservations ->
                EC2.Instances reservation <> [])
          /\ exists reservation instance rest,
               In reservation reservations
               /\ EC2.Instances reservation = instance :: rest
               /\ EC2.KeyName instance = None)
  end.
Proof. exact (list_unused_key_pairs_spec w key_pairs w1 reservations w2). Qed.

(** The deletions [delete_unused_key_pairs] requests, once the listings
    have answered with usable reservations. *)
Lemma delete_unused_key_pairs_log w key_pairs w1 reservations w2 :
  EC2.cli_describe_key_pairs cli w = (Py.Returns key_pairs, w1) ->
  EC2.cli_describe_instances cli None w1 = (Py.Returns reservations, w2) ->
  match fst (fst (EC2.list_unused_key_pairs cli w)) with
  | Py.Returns unused =>
      fst (fst (EC2.delete_unused_key_pairs cli order w)) = Py.Returns tt
      /\ exists n,
           EC2.deleted_key_pairs (snd (EC2.delete_unused_key_pairs cli order w))
           = firstn n (Py.iteration order unused)
           /\ ((forall k w0, fst (EC2.cli_delete_key_pair cli k w0) = Py.Returns tt) ->
               n = length (Py.iteration order unused))
  | Py.Raises e =>
      fst (fst (EC2.delete_unused_key_pairs cli order w)) = Py.Raises e
      /\ EC2.deleted_key_pairs (snd (EC2.delete_unused_key_pairs cli order w)) = []
  end.
Proof.
  intros Hkeys Hinstances.
  assert (Hrun : EC2.delete_unused_key_pairs cli order w
                 = match EC2.list_unused_key_pairs cli w with
                   | (Py.Returns unused, w2, t2) =>
                       let '(r3, w3, t3) :=
                         Py.except_all
                           (Py.for_each (Py.iteration order unused)
                              (fun key_pair =>
                                 Py.call (EC2.DeleteKeyPair key_pair)
                                         (EC2.cli_delete_key_pair cli key_pair)))
                           (Py.ret tt) w2 in
                       (r3, w3, t2 ++ t3)
                   | (Py.Raises e, w2, t2) => (Py.Raises e, w2, t2)
                   end) by reflexivity.
  rewrite Hrun. clear Hrun.
  rewrite (list_unused_key_pairs_run _ _ _ _ _ Hkeys Hinstances). cbn [fst].
  destruct (match EC2.first_instances reservations with
            | Py.Returns _ => _ | Py.Raises e => _ end) as [unused | e];
    [| cbn; now split].
  unfold Py.except_all.
  destruct (Py.for_each _ _ w2) as [[r3 w3] t3] eqn:Eloop.
  destruct (for_each_calls EC2.DeleteKeyPair (EC2.cli_delete_key_pair cli) _ _ _ _ _ Eloop)
    as (n & Hn & Hlog & _ & Hall & _).
  destruct r3 as [[] | e]; cbn [fst snd] in *.
  - split; [reflexivity |]. exists n. rewrite Hlog. cbn. now rewrite deleted_key_pairs_map.
  - split; [reflexivity |]. exists n. subst t3. cbn.
    now rewrite ?app_nil_r, deleted_key_pairs_map.
Qed.

(** X10.  When the control plane accepts every deletion,
    [delete_unused_key_pairs] requests the deletion of exactly the key
    pairs that are the key of no first instance: the key pair of a second
    instance of a reservation is deleted although an instance uses it. *)
Theorem delete_unused_key_pairs_deletes_later_keys
    (w : World) (key_pairs : list EC2.KeyPair) (w1 : World)
    (reservations : list EC2.Reservation) (w2 : World) :
  EC2.cli_describe_key_pairs cli w = (Py.Returns key_pairs, w1) ->
  EC2.cli_describe_instances cli None w1 = (Py.Returns reservations, w2) ->
  (forall reservation, In reservation reservations ->
     exists instance rest name,
       EC2.Instances reservation = instance :: rest /\ EC2.KeyName instance = Some name) ->
  (forall k w0, fst (EC2.cli_delete_key_pair cli k w0) = Py.Returns tt) ->
  forall k,
    In k (EC2.deleted_key_pairs (snd (EC2.delete_unused_key_pairs cli order w)))
    <-> In k (map EC2.KeyPairName key_pairs) /\ ~ first_key reservations k.
Proof.
  intros Hkeys Hinstances Husable Haccepted k.
  pose proof (delete_unused_key_pairs_log _ _ _ _ _ Hkeys Hinstances) as Hlog.
  pose proof (list_unused_key_pairs_spec _ _ _ _ _ Hkeys Hinstances) as Hout.
  destruct (fst (fst (EC2.list_unused_key_pairs cli w))) as [unused | e].
  - destruct Hlog as [_ (n & Hdel & Hn)]. destruct Hout as [Hunused _].
    rewrite Hdel, (Hn Haccepted), firstn_all, (Py.iteration_In order). apply Hunused.
  - exfalso. destruct Hout as [[_ (r & Hr & Hempty)] | [_ [_ (r & i & rest & Hr & Hi & Hnone)]]].
    + destruct (Husable r Hr) as (i & rest & name & Hi & _). congruence.
    + destruct (Husable r Hr) as (i' & rest' & name & Hi' & Hname). congruence.
Qed.
End KeyPairs.

Section ForEachApp.
Context {World Request A : Type}.
Variable body : A -> Py.program (World:=World) (Request:=Request) unit.

(** A loop over a list in two parts: the second part is run from where
    the first one ended, unless an exception left the first one. *)
Lemma for_each_app (l1 l2 : list A) (w : World) :
  Py.for_each (l1 ++ l2) body w
  = match Py.for_each l1 body w with
    | (Py.Returns _, w1, t1) =>
        let '(r, w2, t2) := Py.for_each l2 body w1 in (r, w2, t1 ++ t2)
    | (Py.Raises e, w1, t1) => (Py.Raises e, w1, t1)
    end.
Proof.
  revert w. induction l1 as [| x l1 IH]; intros w.
  - cbn. now destruct (Py.for_each l2 body w) as [[r w2] t2].
  - cbn [app Py.for_each]. unfold Py.bind.
    destruct (body x w) as [[[u | e] w1] t1]; [| reflexivity].
    rewrite IH. destruct (Py.for_each l1 body w1) as [[[u' | e] w2] t2]; [| reflexivity].
    destruct (Py.for_each l2 body w2) as [[r w3] t3]. now rewrite app_assoc.
Qed.
End ForEachApp.

Section KeyPairStops.
Context {World : Type}.
Variable cli : EC2.Client World.
Variable order : Py.SetOrder.

(** [delete_unused_key_pairs], step by step. *)
Lemma delete_unused_key_pairs_unfold w :
  EC2.delete_unused_key_pairs cli order w
  = match EC2.list_unused_key_pairs cli w with
    | (Py.Returns unused, w2, t2) =>
        let '(r3, w3, t3) :=
          Py.except_all
            (Py.for_each (Py.iteration order unused)
               (fun key_pair =>
                  Py.call (EC2.DeleteKeyPair key_pair)
                          (EC2.cli_delete_key_pair cli key_pair)))
            (Py.ret tt) w2 in
        (r3, w3, t2 ++ t3)
    | (Py.Raises e, w2, t2) => (Py.Raises e, w2, t2)
    end.
Proof. reflexivity. Qed.

(** The loop stops at the deletion that raises: the key pairs after that
    one in the iteration are kept, and the method returns. *)
Lemma delete_unused_key_pairs_stops w unused w2 t2 before k after w3 t3 e w4 :
  EC2.list_unused_key_pairs cli w = (Py.Returns unused, w2, t2) ->
  Py.iteration order unused = before ++ k :: after ->
  Py.for_each before
    (fun key_pair =>
       Py.call (EC2.DeleteKeyPair key_pair) (EC2.cli_delete_key_pair cli key_pair)) w2
  = (Py.Returns tt, w3, t3) ->
  EC2.cli_delete_key_pair cli k w3 = (Py.Raises e, w4) ->
  EC2.delete_unused_key_pairs cli order w
  = (Py.Returns tt, w4, t2 ++ map EC2.DeleteKeyPair (before ++ [k])).
Proof.
  intros Hlist Horder Hbefore Hk.
  rewrite delete_unused_key_pairs_unfold, Hlist, Horder.
  unfold Py.except_all. rewrite for_each_app, Hbefore.
  cbn [Py.for_each]. unfold Py.bind at 1. unfold Py.call at 1. rewrite Hk.
  destruct (for_each_calls EC2.DeleteKeyPair (EC2.cli_delete_key_pair cli) _ _ _ _ _ Hbefore)
    as (n & _ & Hlog & Hret & _).
  rewrite (Hret eq_refl), firstn_all in Hlog. subst t3.
  cbn. now rewrite map_app, app_nil_r.
Qed.

(** X8.  [delete_unused_key_pairs] never requests the deletion of the key
    of the first instance of a reservation, nor of a name that is no key
    pair, and requests no deletion twice.  It requests the deletions in
    the order in which the set of the unused key pairs iterates and stops
    at the first deletion that raises: that request is the last one, the
    key pairs after it are kept, and the exception is swallowed, so the
    method returns.  An exception leaves the method only from the listing
    of the unused key pairs, before any deletion. *)
Theorem delete_unused_key_pairs_spares_first_keys
    (w : World) (key_pairs : list EC2.KeyPair) (w1 : World)
    (reservations : list EC2.Reservation) (w2 : World) :
  EC2.cli_describe_key_pairs cli w = (Py.Returns key_pairs, w1) ->
  EC2.cli_describe_instances cli None w1 = (Py.Returns reservations, w2) ->
  NoDup (EC2.deleted_key_pairs (snd (EC2.delete_unused_key_pairs cli order w)))
  /\ (forall k,
        In k (EC2.deleted_key_pairs (snd (EC2.delete_unused_key_pairs cli order w))) ->
        In k (map EC2.KeyPairName key_pairs) /\ ~ first_key reservations k)
  /\ (EC2.deleted_key_pairs (snd (EC2.delete_unused_key_pairs cli order w)) <> [] ->
      fst (fst (EC2.delete_unused_key_pairs cli order w)) = Py.Returns tt)
  /\ (forall e,
        fst (fst (EC2.delete_unused_key_pairs cli order w)) = Py.Raises e ->
        fst (fst (EC2.list_unused_key_pairs cli w)) = Py.Raises e)
  /\ (forall unused,
        fst (fst (EC2.list_unused_key_pairs cli w)) = Py.Returns unused ->
        (exists n,
           EC2.deleted_key_pairs (snd (EC2.delete_unused_key_pairs cli order w))
           = firstn n (Py.iteration order unused))
        /\ forall before k after w3 t3 e w4,
             Py.iteration order unused = before ++ k :: after ->
             Py.for_each before
               (fun key_pair =>
                  Py.call (EC2.DeleteKeyPair key_pair)
                          (EC2.cli_delete_key_pair cli key_pair)) w2
             = (Py.Returns tt, w3, t3) ->
             EC2.cli_delete_key_pair cli k w3 = (Py.Raises e, w4) ->
             EC2.delete_unused_key_pairs cli order w
             = (Py.Returns tt, w4,
                [EC2.DescribeKeyPairs; EC2.DescribeInstances None]
                ++ map EC2.DeleteKeyPair (before ++ [k]))).
Proof.
  intros Hkeys Hinstances.
  pose proof (delete_unused_key_pairs_log cli order _ _ _ _ _ Hkeys Hinstances) as Hlog.
  pose proof (list_unused_key_pairs_spec cli _ _ _ _ _ Hkeys Hinstances) as Hout.
  pose proof (list_unused_key_pairs_run cli _ _ _ _ _ Hkeys Hinstances) as Hrun.
  destruct (fst (fst (EC2.list_unused_key_pairs cli w))) as [unused | e] eqn:Hlisted.
  - destruct Hlog as [Hr (n & Hdel & _)]. destruct Hout as [Hunused _].
    rewrite Hdel, Hr. split; [| split; [| split; [| split]]].
    + apply NoDup_firstn, Py.iteration_NoDup.
    + intros k Hin. apply Hunused, (Py.iteration_In order). eapply In_firstn. exact Hin.
    + reflexivity.
    + discriminate.
    + intros unused' Heq. injection Heq as <-. split; [now exists n |].
      intros before k after w3 t3 e w4 Horder Hbefore Hk.
      rewrite Hrun in Hlisted. cbn [fst] in Hlisted.
      rewrite Hlisted in Hrun.
      exact (delete_unused_key_pairs_stops _ _ _ _ _ _ _ _ _ _ _ Hrun Horder Hbefore Hk).
  - destruct Hlog as [Hr Hdel]. rewrite Hdel, Hr. split; [| split; [| split; [| split]]].
    + constructor.
    + contradiction.
    + intros Hnot. now destruct Hnot.
    + intros e' He'. now injection He' as ->.
    + discriminate.
Qed.
End KeyPairStops.

(** ** Instances *)

(** The first instances, when every reservation has one. *)
Lemma first_instances_heads reservations instances :
  EC2.first_instances reservations = Py.Returns instances ->
  instances = flat_map (fun reservation => firstn 1 (EC2.Instances reservation))
                       reservations.
Proof.
  revert instances. induction reservations as [| reservation rest IH]; cbn;
    intros instances Hfirst.
  - now injection Hfirst as <-.
  - destruct (EC2.Instances reservation) as [| instance others]; [discriminate |].
    destruct (EC2.first_instances rest) as [instances' | e]; [| discriminate].
    injection Hfirst as <-. cbn. f_equal. now apply IH.
Qed.

Section Instances.
Context {World : Type}.
Variable cli : EC2.Client World.

(** X11.  [list_instances_with_status] never raises, sends one request
    and looks at the first instance of every reservation only.  It returns
    [None] when the listing raises; when the listing answers it returns
    [None] if and only if some reservation has no instance, and otherwise
    the first instances of the reservations whose state is the status
    asked for, in the order of the listing, so an instance that is not the
    first of its reservation is never returned. *)
Theorem list_instances_with_status_never_raises (status : string) (w : World) :
  exists v,
    fst (fst (EC2.list_instances_with_status cli status w)) = Py.Returns v
    /\ snd (EC2.list_instances_with_status cli status w) = [EC2.DescribeInstances None]
    /\ (forall e w1,
          EC2.cli_describe_instances cli None w = (Py.Raises e, w1) -> v = None)
    /\ (forall reservations w1,
          EC2.cli_describe_instances cli None w = (Py.Returns reservations, w1) ->
          (v = None
           <-> exists reservation,
                 In reservation reservations /\ EC2.Instances reservation = [])
          /\ match v with
             | Some instances =>
                 instances
                 = filter (fun instance => EC2.Name (EC2.State instance) =? status)
                          (flat_map (fun reservation =>
                                       firstn 1 (EC2.Instances reservation))
                                    reservations)
                 /\ forall i,
                      In i instances
                      <-> EC2.Name (EC2.State i) = status
                          /\ exists reservation rest,
                               In reservation reservations
                               /\ EC2.Instances reservation = i :: rest
             | None =>
                 exists reservation,
                   In reservation reservations /\ EC2.Instances reservation = []
             end).
Proof.
  unfold EC2.list_instances_with_status, EC2.describe_instances.
  unfold Py.except_all, Py.bind, Py.call, Py.lift, Py.ret.
  destruct (EC2.cli_describe_instances cli None w) as [[reservations | e] w1].
  - pose proof (first_instances_spec reservations) as Hf.
    destruct (EC2.first_instances reservations) as [instances | e] eqn:Efirst;
      cbn [fst snd].
    + eexists. split; [reflexivity |]. split; [reflexivity |]. split; [discriminate |].
      intros reservations' w1' Heq. injection Heq as <- <-. split; [| split].
      * split; [discriminate |]. intros (reservation & Hin & Hempty). exfalso.
        exact (first_instances_nonempty _ _ Hf reservation Hin Hempty).
      * now rewrite (first_instances_heads _ _ Efirst).
      * intros i. rewrite filter_In, String.eqb_eq. split.
        -- intros [Hin Hstate]. split; [assumption |].
           now apply (first_instances_lacking _ _ _ Hf).
        -- intros [Hstate (reservation & rest & Hr & Hi)]. split; [| assumption].
           clear - Hf Hr Hi.
           induction Hf as [| r i' rs insts [rest' Hi'] _ IH]; [contradiction |].
           destruct Hr as [<- | Hr]; [left; congruence | right; now apply IH].
    + exists None. split; [reflexivity |]. split; [reflexivity |].
      split; [reflexivity |].
      intros reservations' w1' Heq. injection Heq as <- <-. destruct Hf as [_ Hempty].
      split; [| assumption]. split; [intros _; assumption | reflexivity].
  - exists None. cbn. split; [reflexivity |]. split; [reflexivity |].
    split; [reflexivity | discriminate].
Qed.

End Instances.

(** ** Lookups by name *)

Lemma contains_empty s : Py.contains "" s = true.
Proof. unfold Py.contains. now destruct s. Qed.

Lemma find_first {A} (f : A -> bool) (l : list A) :
  match find f l with
  | Some x =>
      exists before after,
        l = before ++ x :: after /\ f x = true /\ Forall (fun y => f y = false) before
  | None => Forall (fun y => f y = false) l
  end.
Proof.
  induction l as [| y l IH]; cbn; [constructor |].
  destruct (f y) eqn:Ey.
  - exists [], l. repeat split; [assumption | constructor].
  - destruct (find f l) as [x |].
    + destruct IH as (before & after & -> & Hx & Hbefore).
      exists (y :: before), after. repeat split; [assumption | now constructor].
    + now constructor.
Qed.

Lemma some_tag_spec test tags :
  EC2.some_tag test tags = true
  <-> exists l t, tags = Some l /\ In t l /\ test t = true.
Proof.
  destruct tags as [l |]; cbn.
  - rewrite existsb_exists. split.
    + intros [t [Hin Ht]]. now exists l, t.
    + intros (l' & t & Heq & Hin & Ht). injection Heq as <-. now exists t.
  - split; [discriminate | intros (l & t & Heq & _); discriminate].
Qed.

Section Lookups.
Context {World : Type}.
Variable cli : EC2.Client World.
Variable lower : string -> string.

(** X13.  [get_sg_id] returns the id of the first security group whose
    lowered name contains the lowered argument, and [None] when there is
    none; it raises only what the listing raises.  The empty name occurs in
    every name, so it selects the first group of the listing. *)
Theorem get_sg_id_first_match
    (group_name : string) (w : World) (groups : list EC2.SecurityGroup) (w1 : World) :
  EC2.cli_describe_security_groups cli w = (Py.Returns groups, w1) ->
  match fst (fst (EC2.get_sg_id cli lower group_name w)) with
  | Py.Returns (Some id) =>
      exists before g after,
        groups = before ++ g :: after
        /\ EC2.GroupId g = id
        /\ Py.contains (lower group_name) (lower (EC2.GroupName g)) = true
        /\ Forall (fun g' =>
                     Py.contains (lower group_name) (lower (EC2.GroupName g')) = false)
                  before
  | Py.Returns None =>
      Forall (fun g' => Py.contains (lower group_name) (lower (EC2.GroupName g')) = false)
             groups
  | Py.Raises _ => False
  end
  /\ (lower group_name = "" ->
      fst (fst (EC2.get_sg_id cli lower group_name w))
      = Py.Returns (option_map EC2.GroupId (hd_error groups))).
Proof.
  intros Hlist. unfold EC2.get_sg_id, EC2.list_security_groups.
  unfold Py.bind, Py.call, Py.ret. rewrite Hlist. cbn [fst]. split.
  - pose proof (find_first
                  (fun i => Py.contains (lower group_name) (lower (EC2.GroupName i)))
                  groups) as Hfind.
    destruct (find _ groups) as [g |]; cbn; [| exact Hfind].
    destruct Hfind as (before & after & Hgroups & Hg & Hbefore).
    now exists before, g, after.
  - intros Hempty. rewrite Hempty. destruct groups as [| g rest]; [reflexivity |].
    cbn. now rewrite contains_empty.
Qed.

(** X14.  [get_vpc_id] and [get_subnet_id] have no default: when nothing
    matches they raise [StopIteration].  Otherwise [get_vpc_id] returns the
    id of the first VPC with a tag whose lowered value contains the lowered
    name, and [get_subnet_id] the id of the first subnet of the given VPC
    with a tag whose value is the name, letter for letter; an entry without
    ['Tags'] never matches. *)
Theorem get_vpc_and_subnet_id_outcome (w : World) :
  (forall vpc_name vpcs w1,
      EC2.cli_describe_vpcs cli w = (Py.Returns vpcs, w1) ->
      match fst (fst (EC2.get_vpc_id cli lower vpc_name w)) with
      | Py.Returns id =>
          exists before i after tags t,
            vpcs = before ++ i :: after
            /\ EC2.VpcId i = id
            /\ EC2.Tags i = Some tags /\ In t tags
            /\ Py.contains (lower vpc_name) (lower (EC2.Value t)) = true
      | Py.Raises e =>
          e = Py.StopIteration
          /\ forall i tags t,
               In i vpcs -> EC2.Tags i = Some tags -> In t tags ->
               Py.contains (lower vpc_name) (lower (EC2.Value t)) = false
      end)
  /\ (forall vpc_id subnet_name subnets w1,
        EC2.cli_describe_subnets cli w = (Py.Returns subnets, w1) ->
        match fst (fst (EC2.get_subnet_id cli vpc_id subnet_name w)) with
        | Py.Returns id =>
            exists before s after tags,
              subnets = before ++ s :: after
              /\ EC2.SubnetId s = id
              /\ EC2.SubnetVpcId s = vpc_id
              /\ EC2.SubnetTags s = Some tags
              /\ In {| EC2.Value := subnet_name |} tags
        | Py.Raises e =>
            e = Py.StopIteration
            /\ forall s tags,
                 In s subnets -> EC2.SubnetVpcId s = vpc_id ->
                 EC2.SubnetTags s = Some tags ->
                 ~ In {| EC2.Value := subnet_name |} tags
        end).
Proof.
  split.
  - intros vpc_name vpcs w1 Hlist. unfold EC2.get_vpc_id, EC2.list_vpcs.
    unfold Py.bind, Py.call. rewrite Hlist.
    pose proof (find_first
                  (fun i => EC2.some_tag
                              (fun t => Py.contains (lower vpc_name) (lower (EC2.Value t)))
                              (EC2.Tags i)) vpcs) as Hfind.
    destruct (find _ vpcs) as [i |]; cbn.
    + destruct Hfind as (before & after & Hvpcs & Hi & _).
      apply some_tag_spec in Hi. destruct Hi as (tags & t & Htags & Hin & Ht).
      now exists before, i, after, tags, t.
    + split; [reflexivity |]. intros i tags t Hin Htags Ht.
      rewrite Forall_forall in Hfind. specialize (Hfind i Hin).
      apply not_true_iff_false. intros Hmatch.
      apply not_true_iff_false in Hfind. apply Hfind. apply some_tag_spec.
      now exists tags, t.
  - intros vpc_id subnet_name subnets w1 Hlist. unfold EC2.get_subnet_id, EC2.list_subnet.
    unfold Py.bind, Py.call. rewrite Hlist.
    pose proof (find_first
                  (fun s => (vpc_id =? EC2.SubnetVpcId s)
                            && EC2.some_tag (fun t => subnet_name =? EC2.Value t)
                                            (EC2.SubnetTags s)) subnets) as Hfind.
    destruct (find _ subnets) as [s |]; cbn.
    + destruct Hfind as (before & after & Hsubnets & Hs & _).
      apply andb_true_iff in Hs. destruct Hs as [Hvpc Htag].
      apply String.eqb_eq in Hvpc. apply some_tag_spec in Htag.
      destruct Htag as (tags & [value] & Htags & Hin & Ht).
      apply String.eqb_eq in Ht. cbn in Ht. subst value.
      now exists before, s, after, tags.
    + split; [reflexivity |]. intros s tags Hin Hvpc Htags Htag.
      rewrite Forall_forall in Hfind. specialize (Hfind s Hin).
      apply not_true_iff_false in Hfind. apply Hfind.
      apply andb_true_iff. split; [apply String.eqb_eq; congruence |].
      apply some_tag_spec. exists tags, {| EC2.Value := subnet_name |}.
      repeat split; [assumption.. | apply String.eqb_refl].
Qed.
End Lookups.

(** ** The batches of the validation library *)

Section Batches.
Context {World Asset BatchRequest Batch : Type}.
Variable lib : @GE.Library World Asset BatchRequest Batch.

Lemma batches_of_run data_asset w :
  (forall batch_list,
      fst (fst (GE.batches_of lib data_asset w)) = Py.Returns batch_list ->
      batch_list <> [])
  /\ GE.batch_assets (snd (GE.batches_of lib data_asset w))
     = match data_asset with Some asset => [asset] | None => [] end.
Proof.
  destruct data_asset as [asset |]; cbn [GE.batches_of]; [| split; [discriminate | reflexivity]].
  unfold Py.bind, Py.call, Py.ret, Py.raise.
  destruct (GE.build_batch_request lib asset w) as [[batch_request | e] w1];
    [| split; [discriminate | reflexivity]].
  destruct (GE.get_batch_list lib batch_request w1) as [[[| batch batch_list] | e] w2]; cbn;
    split; try discriminate; try reflexivity.
  intros l Heq. injection Heq as <-. discriminate.
Qed.

Lemma s3_data_asset_log s3_file_name pands_or_spark w :
  GE.batch_assets (snd (GE.s3_data_asset lib s3_file_name pands_or_spark w)) = [].
Proof.
  unfold GE.s3_data_asset, GE.add_s3_pandas_csv_dataset, GE.add_s3_spark_csv_dataset.
  destruct (GE.truthy s3_file_name); [| reflexivity].
  destruct (pands_or_spark =? "pandas").
  - unfold Py.bind, Py.call, Py.ret.
    now destruct (GE.s3_add_csv_asset lib _ _ w) as [[asset | e] w1].
  - destruct (pands_or_spark =? "spark"); [| reflexivity].
    unfold Py.bind, Py.call, Py.ret.
    now destruct (GE.spark_add_csv_asset lib _ _ w) as [[asset | e] w1].
Qed.

(** What the second [if] binds when a table is named. *)
Lemma athena_data_asset_run athena_database_name athena_table_name data_asset w :
  GE.truthy athena_table_name = true ->
  GE.batch_assets
    (snd (GE.athena_data_asset lib athena_database_name athena_table_name data_asset w))
  = []
  /\ forall bound,
       fst (fst (GE.athena_data_asset lib athena_database_name athena_table_name
                   data_asset w)) = Py.Returns bound ->
       exists asset w1,
         bound = Some asset
         /\ GE.athena_add_table_asset lib athena_table_name athena_database_name
              athena_table_name w = (Py.Returns asset, w1).
Proof.
  intros Htable. unfold GE.athena_data_asset, GE.add_athena_dataset. rewrite Htable.
  unfold Py.bind, Py.call, Py.ret.
  destruct (GE.athena_add_table_asset lib _ _ _ w) as [[asset | e] w1]; cbn.
  - split; [reflexivity |]. intros bound Heq. injection Heq as <-. now exists asset, w1.
  - split; [reflexivity | discriminate].
Qed.

(** The method, stage by stage. *)
Lemma get_batch_list_unfold s3_file_name pands_or_spark athena_database_name
    athena_table_name w :
  GE._get_batch_list lib s3_file_name pands_or_spark athena_database_name
    athena_table_name w
  = match GE.s3_data_asset lib s3_file_name pands_or_spark w with
    | (Py.Returns d1, w1, t1) =>
        match GE.athena_data_asset lib athena_database_name athena_table_name d1 w1 with
        | (Py.Returns d2, w2, t2) =>
            let '(r, w3, t3) := GE.batches_of lib d2 w2 in (r, w3, t1 ++ t2 ++ t3)
        | (Py.Raises e, w2, t2) => (Py.Raises e, w2, t1 ++ t2)
        end
    | (Py.Raises e, w1, t1) => (Py.Raises e, w1, t1)
    end.
Proof.
  unfold GE._get_batch_list. unfold Py.bind at 1.
  destruct (GE.s3_data_asset lib _ _ w) as [[[d1 | e] w1] t1]; [| reflexivity].
  unfold Py.bind at 1.
  destruct (GE.athena_data_asset lib _ _ d1 w1) as [[[d2 | e] w2] t2]; [| reflexivity].
  now destruct (GE.batches_of lib d2 w2) as [[r w3] t3].
Qed.

Lemma batch_assets_app (t1 t2 : list (@GE.request Asset BatchRequest)) :
  GE.batch_assets (t1 ++ t2) = GE.batch_assets t1 ++ GE.batch_assets t2.
Proof.
  induction t1 as [| ev t1 IH]; [reflexivity |].
  destruct ev; cbn; now rewrite ?IH.
Qed.

(** X15.  [_get_batch_list] needs an asset: with no Athena table and
    either no S3 file or an engine that is neither [pandas] nor [spark],
    the local variable is unbound and the method raises
    [UnboundLocalError] before any call of the library.  Whatever it
    returns is a list with at least one batch. *)
Theorem get_batch_list_needs_an_asset
    (s3_file_name : option string) (pands_or_spark : string)
    (athena_database_name athena_table_name : option string) (w : World) :
  (GE.truthy athena_table_name = false ->
   GE.truthy s3_file_name = false
   \/ (pands_or_spark <> "pandas" /\ pands_or_spark <> "spark") ->
   GE._get_batch_list lib s3_file_name pands_or_spark athena_database_name
     athena_table_name w
   = (Py.Raises (Py.UnboundLocalError "data_asset"), w, []))
  /\ (forall batch_list,
        fst (fst (GE._get_batch_list lib s3_file_name pands_or_spark athena_database_name
                    athena_table_name w)) = Py.Returns batch_list ->
        batch_list <> []).
Proof.
  split.
  - intros Htable Hs3.
    unfold GE._get_batch_list, GE.s3_data_asset, GE.athena_data_asset. rewrite Htable.
    destruct Hs3 as [Hs3 | [Hpandas Hspark]].
    + now rewrite Hs3.
    + apply String.eqb_neq in Hpandas, Hspark. rewrite Hpandas, Hspark.
      now destruct (GE.truthy s3_file_name).
  - intros batch_list. rewrite get_batch_list_unfold.
    destruct (GE.s3_data_asset lib _ _ w) as [[[d1 | e] w1] t1]; [| discriminate].
    destruct (GE.athena_data_asset lib _ _ d1 w1) as [[[d2 | e] w2] t2]; [| discriminate].
    pose proof (proj1 (batches_of_run d2 w2) batch_list) as Hnonempty.
    now destruct (GE.batches_of lib d2 w2) as [[r w3] t3].
Qed.

(** X16.  When an Athena table is named, [_get_batch_list] takes its
    batches from the table asset: the batch request is built on the asset
    the table registration answered and on no other, even when an S3 file
    was given as well and its asset was registered first. *)
Theorem get_batch_list_prefers_the_table
    (s3_file_name : option string) (pands_or_spark : string)
    (athena_database_name athena_table_name : option string) (w : World) :
  GE.truthy athena_table_name = true ->
  (forall asset,
      In asset (GE.batch_assets
                  (snd (GE._get_batch_list lib s3_file_name pands_or_spark
                          athena_database_name athena_table_name w))) ->
      exists w0 w1,
        GE.athena_add_table_asset lib athena_table_name athena_database_name
          athena_table_name w0 = (Py.Returns asset, w1))
  /\ (GE.truthy s3_file_name = true -> pands_or_spark = "pandas" ->
      exists rest,
        snd (GE._get_batch_list lib s3_file_name pands_or_spark
               athena_database_name athena_table_name w)
        = GE.AddPandasCsvAsset s3_file_name GE.DATA_S3_BUCKET_PREFIX :: rest).
Proof.
  intros Htable. rewrite get_batch_list_unfold. split.
  - intros asset.
    pose proof (s3_data_asset_log s3_file_name pands_or_spark w) as H1.
    destruct (GE.s3_data_asset lib _ _ w) as [[[d1 | e] w1] t1]; cbn [snd] in *;
      [| rewrite H1; contradiction].
    pose proof (athena_data_asset_run athena_database_name athena_table_name d1 w1 Htable)
      as [H2 Hbound].
    destruct (GE.athena_data_asset lib _ _ d1 w1) as [[[d2 | e] w2] t2]; cbn [fst snd] in *.
    + destruct (Hbound d2 eq_refl) as (table_asset & w1' & -> & Htable_asset).
      pose proof (proj2 (batches_of_run (Some table_asset) w2)) as H3.
      destruct (GE.batches_of lib _ w2) as [[r w3] t3]. cbn [snd] in *.
      rewrite !batch_assets_app, H1, H2, H3. cbn. intros [<- | []]. eauto.
    + rewrite batch_assets_app, H1, H2. contradiction.
  - intros Hs3 ->. unfold GE.s3_data_asset. rewrite Hs3. cbn [String.eqb Ascii.eqb Bool.eqb].
    unfold GE.add_s3_pandas_csv_dataset, Py.bind at 1, Py.call, Py.ret.
    destruct (GE.s3_add_csv_asset lib _ _ w) as [[asset | e] w1]; cbn.
    + destruct (GE.athena_data_asset lib _ _ _ w1) as [[[d2 | e] w2] t2]; cbn.
      * destruct (GE.batches_of lib d2 w2) as [[r w3] t3]. cbn. eauto.
      * eauto.
    + eauto.
Qed.
End Batches.


(** ** The properties on the example account *)

Lemma delete_unused_key_pairs_spares_first_keys_witness :
  EC2.delete_unused_key_pairs (Account.console ["old-key"]) Account.insertion_order
    Account.key_pairs
  = (Py.Returns tt, Account.key_pairs,
     [EC2.DescribeKeyPairs; EC2.DescribeInstances None; EC2.DeleteKeyPair "old-key"])
  /\ fst (fst (EC2.delete_unused_key_pairs (Account.console ["worker-key"])
                 Account.insertion_order Account.key_pairs))
     = Py.Returns tt.
Proof.
  destruct (delete_unused_key_pairs_spares_first_keys
              (Account.console ["old-key"]) Account.insertion_order
              Account.key_pairs _ Account.key_pairs Account.reservations
              Account.key_pairs eq_refl eq_refl) as (_ & _ & _ & _ & Hstops).
  split.
  - exact (proj2 (Hstops ["old-key"; "worker-key"] eq_refl)
             [] "old-key" ["worker-key"] Account.key_pairs []
             (Py.ClientError "UnauthorizedOperation") Account.key_pairs
             eq_refl eq_refl eq_refl).
  - refine (proj1 (proj2 (proj2
              (delete_unused_key_pairs_spares_first_keys
                 (Account.console ["worker-key"]) Account.insertion_order
                 Account.key_pairs _ Account.key_pairs Account.reservations
                 Account.key_pairs eq_refl eq_refl))) _).
    discriminate.
Defined.

Lemma list_unused_key_pairs_outcome_witness :
  fst (fst (EC2.list_unused_key_pairs (Account.console []) Account.key_pairs))
  = Py.Returns ["old-key"; "worker-key"]
  /\ (In "worker-key" ["old-key"; "worker-key"]
      <-> In "worker-key" Account.key_pairs
          /\ ~ first_key Account.reservations "worker-key").
Proof.
  split; [reflexivity |].
  exact (proj1 (list_unused_key_pairs_outcome (Account.console [])
                  Account.key_pairs _ Account.key_pairs Account.reservations
                  Account.key_pairs eq_refl eq_refl) "worker-key").
Defined.

Lemma delete_unused_key_pairs_deletes_later_keys_witness :
  In "worker-key"
     (EC2.deleted_key_pairs
        (snd (EC2.delete_unused_key_pairs (Account.console [])
                Account.insertion_order Account.key_pairs)))
  <-> In "worker-key" Account.key_pairs
      /\ ~ first_key Account.reservations "worker-key".
Proof.
  refine (delete_unused_key_pairs_deletes_later_keys (Account.console [])
            Account.insertion_order Account.key_pairs _ Account.key_pairs
            Account.reservations Account.key_pairs eq_refl eq_refl _ _ "worker-key").
  - intros reservation [<- | []]. now eexists _, _, _.
  - reflexivity.
Defined.

Lemma get_sg_id_first_match_witness :
  fst (fst (EC2.get_sg_id (Account.console []) ascii_lower "WEB" Account.key_pairs))
  = Py.Returns (Some "sg-2")
  /\ (ascii_lower "" = "" ->
      fst (fst (EC2.get_sg_id (Account.console []) ascii_lower "" Account.key_pairs))
      = Py.Returns (Some "sg-1")).
Proof.
  split; [reflexivity |].
  exact (proj2 (get_sg_id_first_match (Account.console []) ascii_lower ""
                  Account.key_pairs Account.security_groups Account.key_pairs eq_refl)).
Defined.

Lemma get_batch_list_prefers_the_table_witness :
  exists rest,
    snd (GE._get_batch_list Account.library (Some "sales.csv") "pandas" (Some "shop")
           (Some "sales") 0)
    = GE.AddPandasCsvAsset (Some "sales.csv") GE.DATA_S3_BUCKET_PREFIX :: rest
    /\ GE.batch_assets
         (GE.AddPandasCsvAsset (Some "sales.csv") GE.DATA_S3_BUCKET_PREFIX :: rest)
       = ["table"].
Proof.
  destruct (proj2 (get_batch_list_prefers_the_table Account.library (Some "sales.csv")
                     "pandas" (Some "shop") (Some "sales") 0 eq_refl)
              eq_refl eq_refl) as [rest Hrest].
  exists rest. split; [exact Hrest |]. rewrite <- Hrest. reflexivity.
Defined.

(** X11 on the example account, whose one reservation has two running
    instances: the worker is not reported. *)
Lemma list_instances_with_status_never_raises_witness :
  exists v,
    fst (fst (EC2.list_instances_with_status (Account.console []) "running"
                Account.key_pairs)) = Py.Returns v
    /\ v = Some [Account.instance "i-web" (Some "web-key") "running"].
Proof.
  destruct (list_instances_with_status_never_raises (Account.console []) "running"
              Account.key_pairs) as (v & Hv & _ & _ & Hlisted).
  exists v. split; [exact Hv |].
  destruct (Hlisted Account.reservations Account.key_pairs eq_refl) as [Hnone Hsome].
  destruct v as [instances |].
  - destruct Hsome as [-> _]. reflexivity.
  - destruct (proj1 Hnone eq_refl) as (reservation & [<- | []] & Hempty).
    discriminate Hempty.
Defined.
